(** * Website crawler: scoring, aggregation and comparison core

    A shallow embedding of the scoring pipeline of the crawler
    (comprehensive_seo_scorer.py, advanced_seo_audit_orchestrator.py,
    competitor_analyzer.py, advanced_competitor_analyzer.py and
    link_analyzer.py) together with the properties established about it.

    Conventions of the embedding:
    - a Python [dict] read with [d.get(k, default)] is a record whose
      fields are [option]s ([None]: the key is absent), read with
      [dict_get]; a nested section dictionary that is tested for
      truthiness ([if cwv:]) is an [option] of such a record, [None]
      standing for a missing or empty dictionary;
    - dictionaries built by the code itself and iterated in insertion
      order are association lists with unique keys ([PyDict]);
    - integer-valued scores are [Z]; every other float is a rational [Q]:
      the constants the code compares against (25, 50, 70, 90, ...) are
      exactly representable, so the comparisons agree;
    - a call that can raise is a value of [result]. *)

From Stdlib Require Import ZArith QArith Qabs Qround String Ascii DecimalString Sorted Permutation.
From stdpp Require Import base option list gmap strings sets.

Local Open Scope string_scope.
Local Open Scope Z_scope.

#[local] Set Warnings "-clear-no-such-hyp".

(** ** Python primitives used by the modelled code *)

(** [d.get(key, default)] on an optional field. *)
Definition dict_get {A} (field : option A) (dflt : A) : A :=
  match field with Some v => v | None => dflt end.

(** Truthiness of the values the code tests with [if x:] / [not x]. *)
Definition truthy_str (s : string) : bool :=
  match s with EmptyString => false | String _ _ => true end.

Definition truthy_list {A} (l : list A) : bool :=
  match l with [] => false | _ :: _ => true end.

Definition len {A} (l : list A) : Z := Z.of_nat (length l).

Definition str_len (s : string) : Z := Z.of_nat (String.length s).

(** Decimal rendering of integers, as [str(n)] and [f'{n}'] do. *)
Definition str_of_nat (n : nat) : string := NilZero.string_of_uint (Nat.to_uint n).
Definition str_of_Z (z : Z) : string := NilZero.string_of_int (Z.to_int z).

Module PyStr.

(** Characters are code points below 256.  [str.isspace] holds on
    TAB..CR, FS..US, space, NEL and NBSP in that range. *)
Definition isspace (c : ascii) : bool :=
  let n := nat_of_ascii c in
  ((9 <=? n) && (n <=? 13) || (28 <=? n) && (n <=? 32)
   || (n =? 133) || (n =? 160))%nat.

(** [str.lower] on one character: A-Z and the Latin-1 capitals
    (all of 192..222 but the multiplication sign 215) move up by 32. *)
Definition lower_char (c : ascii) : ascii :=
  let n := nat_of_ascii c in
  if ((65 <=? n) && (n <=? 90)
      || (192 <=? n) && (n <=? 222) && negb (n =? 215))%nat
  then ascii_of_nat (n + 32) else c.

Fixpoint lower (s : string) : string :=
  match s with
  | EmptyString => EmptyString
  | String c s' => String (lower_char c) (lower s')
  end.

Fixpoint lstrip (s : string) : string :=
  match s with
  | EmptyString => EmptyString
  | String c s' => if isspace c then lstrip s' else s
  end.

(** [rstrip] keeps a character when it is not a space or when something
    survives to its right. *)
Fixpoint rstrip (s : string) : string :=
  match s with
  | EmptyString => EmptyString
  | String c s' =>
      match rstrip s' with
      | EmptyString => if isspace c then EmptyString else String c EmptyString
      | r => String c r
      end
  end.

Definition strip (s : string) : string := rstrip (lstrip s).

(** [s.split()]: the maximal runs of non-space characters. [cur] is the
    run being read. *)
Fixpoint split_from (cur : string) (s : string) : list string :=
  match s with
  | EmptyString => if truthy_str cur then [cur] else []
  | String c s' =>
      if isspace c
      then (if truthy_str cur then cur :: split_from EmptyString s'
            else split_from EmptyString s')
      else split_from (cur ++ String c EmptyString) s'
  end.

Definition split (s : string) : list string := split_from EmptyString s.

(** [sub in s]. *)
Fixpoint contains (sub s : string) : bool :=
  String.prefix sub s
  || match s with
     | EmptyString => false
     | String _ s' => contains sub s'
     end.

End PyStr.

(** A call either returns or raises [Exception(msg)]. *)
Inductive result (A : Type) : Type :=
| Ok (a : A)
| Raise (msg : string).
Arguments Ok {A} a.
Arguments Raise {A} msg.

#[export] Instance result_ret : MRet result := fun _ a => Ok a.
#[export] Instance result_bind : MBind result := fun _ _ k m =>
  match m with Ok a => k a | Raise e => Raise e end.

(** [try: body except Exception as e: handler(str(e))]. *)
Definition try_except {A} (body : result A) (handler : string -> result A)
  : result A :=
  match body with Ok a => Ok a | Raise e => handler e end.

(** [<] and [<=] on the rationals standing for floats. *)
Definition Qltb (a b : Q) : bool :=
  match (a ?= b)%Q with Lt => true | _ => false end.
Definition Qleb (a b : Q) : bool :=
  match (a ?= b)%Q with Gt => false | _ => true end.

(** A [for] loop whose body may raise: [body] maps the state before an
    iteration to the state after it. *)
Fixpoint for_each {A S} (l : list A) (body : S -> A -> result S) (s : S) : result S :=
  match l with
  | [] => Ok s
  | x :: l' => s' ← body s x; for_each l' body s'
  end.

(** [round(x, ndigits)]: to the nearest multiple of [10^-ndigits], halves
    to the even neighbour. *)
Definition round_half_even (q : Q) : Z :=
  let f := (Qnum q / Zpos (Qden q))%Z in
  let r := (q - inject_Z f)%Q in
  match (r ?= 1 # 2)%Q with
  | Lt => f
  | Gt => f + 1
  | Eq => if Z.even f then f else f + 1
  end.

Definition py_round (q : Q) (ndigits : nat) : Q :=
  let scale := inject_Z (10 ^ Z.of_nat ndigits) in
  (inject_Z (round_half_even (q * scale)) / scale)%Q.

(** ** Insertion-ordered dictionaries *)
Module PyDict.
Section Dict.
Context {V : Type}.

Definition t := list (string * V).

Fixpoint lookup (d : t) (k : string) : option V :=
  match d with
  | [] => None
  | (k', v) :: d' => if String.eqb k k' then Some v else lookup d' k
  end.

(** [d[k] = v]: an existing key keeps its position, a new key goes last. *)
Fixpoint set (d : t) (k : string) (v : V) : t :=
  match d with
  | [] => [(k, v)]
  | (k', v') :: d' =>
      if String.eqb k k' then (k', v) :: d' else (k', v') :: set d' k v
  end.

(** [{k: v for k, v in pairs}]. *)
Definition of_pairs (pairs : list (string * V)) : t :=
  fold_left (fun d kv => set d (fst kv) (snd kv)) pairs [].

Definition keys (d : t) : list string := map fst d.

Definition mem (d : t) (k : string) : bool :=
  match lookup d k with Some _ => true | None => false end.

End Dict.
Arguments t : clear implicits.
End PyDict.

(** [list.sort(key=..., reverse=...)] / [sorted]: the stable sort.  [ltb]
    is [<] on keys; an element is inserted in front of the first one that
    must not precede it, so equal keys keep their input order in both
    directions. *)
Section Sort.
Context {A K : Type} (ltb : K -> K -> bool) (key : A -> K).

Definition goes_before (reverse : bool) (y x : A) : bool :=
  if reverse then ltb (key x) (key y) else ltb (key y) (key x).

Fixpoint sort_insert (reverse : bool) (x : A) (l : list A) : list A :=
  match l with
  | [] => [x]
  | y :: l' =>
      if goes_before reverse y x then y :: sort_insert reverse x l'
      else x :: l
  end.

Definition py_sorted (reverse : bool) (l : list A) : list A :=
  fold_right (sort_insert reverse) [] l.
End Sort.

(** ** comprehensive_seo_scorer.py *)
Module Scorer.

(** *** The parts of [page_data] the scorer reads *)

(** [page_data['core_web_vitals']]; [cwv_error] is the ['error'] key the
    orchestrator writes when the analyzer raised. *)
Record CoreWebVitals := {
  cwv_error : option string;
  lcp_score : option string;
  cls_score : option string;
  inp_score : option string }.

(** Counts come from [len(...)] in the analyzers, hence [N]. *)
Record RenderBlocking := { total_blocking_resources : option N }.
Record RenderLoading := {
  rl_error : option string;
  render_blocking_resources : option RenderBlocking }.

Record ResourceSummary := { total_page_size_mb : option Q }.
Record AdvancedPerformance := {
  ap_error : option string;
  resource_summary : option ResourceSummary }.

Record Indexability := {
  ix_error : option string;
  indexability_status : option string }.

Record HttpsEnforcement := { is_https : option bool }.
Record MixedContent := { has_mixed_content : option bool; count : option N }.
Record SecurityHeaders := { missing_count : option N }.
Record Security := {
  sec_error : option string;
  https_enforcement : option HttpsEnforcement;
  mixed_content : option MixedContent;
  security_headers : option SecurityHeaders }.

Record Image := { alt : option string }.

Record PageData := {
  url : option string;
  title : option string;
  meta_description : option string;
  h1_tags : option (list string);
  h2_tags : option (list string);
  images : option (list Image);
  canonical_url : option string;
  word_count : option Z;
  is_exact_duplicate : option bool;
  similarity_scores : option (list (string * Q));
  broken_links : option (list string);
  status_code : option Z;
  core_web_vitals : option CoreWebVitals;
  render_loading_analysis : option RenderLoading;
  advanced_performance : option AdvancedPerformance;
  indexability_analysis : option Indexability;
  security_analysis : option Security }.

Definition empty_RenderBlocking : RenderBlocking :=
  {| total_blocking_resources := None |}.
Definition empty_ResourceSummary : ResourceSummary :=
  {| total_page_size_mb := None |}.
Definition empty_HttpsEnforcement : HttpsEnforcement := {| is_https := None |}.
Definition empty_MixedContent : MixedContent :=
  {| has_mixed_content := None; count := None |}.
Definition empty_SecurityHeaders : SecurityHeaders := {| missing_count := None |}.

(** *** Category scorers.  Each starts from 100 and subtracts; the local
    [deductions] list of the source is built and dropped, so it is not
    carried here. *)

Definition cwv_deduction (score : Z) (rating : string) (poor needs : Z) : Z :=
  if String.eqb rating "poor" then score - poor
  else if String.eqb rating "needs-improvement" then score - needs
  else score.

Definition _score_performance (page_data : PageData) : Z :=
  let score := 100 in
  let score :=
    match core_web_vitals page_data with
    | Some cwv =>
        let score := cwv_deduction score (dict_get (lcp_score cwv) "") 15 8 in
        let score := cwv_deduction score (dict_get (cls_score cwv) "") 15 8 in
        cwv_deduction score (dict_get (inp_score cwv) "") 10 5
    | None => score
    end in
  let score :=
    match render_loading_analysis page_data with
    | Some render_loading =>
        let blocking :=
          dict_get (render_blocking_resources render_loading) empty_RenderBlocking in
        let blocking_count := Z.of_N (dict_get (total_blocking_resources blocking) 0%N) in
        if 5 <? blocking_count then score - 10
        else if 2 <? blocking_count then score - 5
        else score
    | None => score
    end in
  let score :=
    match advanced_performance page_data with
    | Some perf =>
        let summary := dict_get (resource_summary perf) empty_ResourceSummary in
        let total_mb := dict_get (total_page_size_mb summary) 0%Q in
        if Qltb 5 total_mb then score - 10
        else if Qltb 3 total_mb then score - 5
        else score
    | None => score
    end in
  Z.max 0 score.

(** [not img.get('alt', '').strip()]. *)
Definition image_without_alt (img : Image) : bool :=
  negb (truthy_str (PyStr.strip (dict_get (alt img) ""))).

Definition _score_seo (page_data : PageData) : Z :=
  let score := 100 in
  let title := dict_get (title page_data) "" in
  let score :=
    if negb (truthy_str title) then score - 15
    else
      let title_len := str_len title in
      if title_len <? 30 then score - 5
      else if 60 <? title_len then score - 5
      else score in
  let meta_desc := dict_get (meta_description page_data) "" in
  let score :=
    if negb (truthy_str meta_desc) then score - 10
    else
      let desc_len := str_len meta_desc in
      if desc_len <? 120 then score - 5
      else if 160 <? desc_len then score - 5
      else score in
  let h1_tags := dict_get (h1_tags page_data) [] in
  let score :=
    if len h1_tags =? 0 then score - 10
    else if 1 <? len h1_tags then score - 5
    else score in
  let images := dict_get (images page_data) [] in
  let images_without_alt := List.filter image_without_alt images in
  let score :=
    if truthy_list images_without_alt then
      let missing_alt_pct :=
        if truthy_list images
        then (inject_Z (len images_without_alt) / inject_Z (len images) * 100)%Q
        else 0%Q in
      if Qltb 50 missing_alt_pct then score - 10
      else if Qltb 25 missing_alt_pct then score - 5
      else score
    else score in
  let score :=
    if negb (truthy_str (dict_get (canonical_url page_data) "")) then score - 5
    else score in
  let score :=
    match indexability_analysis page_data with
    | Some indexability =>
        let status := dict_get (indexability_status indexability) "indexable" in
        if negb (String.eqb status "indexable") then score - 20 else score
    | None => score
    end in
  Z.max 0 score.

(** [max(similarity_scores.values())] on a non-empty dictionary. *)
Definition max_values (d : list (string * Q)) : Q :=
  match d with
  | [] => 0%Q
  | (_, v) :: d' =>
      fold_left (fun best x => if Qltb best x then x else best) (map snd d') v
  end.

Definition _score_content (page_data : PageData) : Z :=
  let score := 100 in
  let word_count := dict_get (word_count page_data) 0 in
  let score :=
    if word_count <? 300 then score - 20
    else if word_count <? 500 then score - 10
    else score in
  let score :=
    if dict_get (is_exact_duplicate page_data) false then score - 30
    else
      let similarity_scores := dict_get (similarity_scores page_data) [] in
      if truthy_list similarity_scores then
        let max_similarity := max_values similarity_scores in
        if Qleb 90 max_similarity then score - 25
        else if Qleb 70 max_similarity then score - 15
        else score
      else score in
  let h1_count := len (dict_get (h1_tags page_data) []) in
  let h2_count := len (dict_get (h2_tags page_data) []) in
  let score := if h1_count =? 0 then score - 10 else score in
  let score :=
    if (h2_count =? 0) && (500 <? word_count) then score - 5 else score in
  Z.max 0 score.

Definition _score_technical (page_data : PageData) : Z :=
  let score := 100 in
  let score :=
    match security_analysis page_data with
    | Some security =>
        let https := dict_get (https_enforcement security) empty_HttpsEnforcement in
        let score :=
          if negb (dict_get (is_https https) false) then score - 20 else score in
        let mixed_content := dict_get (mixed_content security) empty_MixedContent in
        let score :=
          if dict_get (has_mixed_content mixed_content) false then
            let count := Z.of_N (dict_get (count mixed_content) 0%N) in
            score - Z.min 20 (count * 2)
          else score in
        let headers := dict_get (security_headers security) empty_SecurityHeaders in
        let missing_count := Z.of_N (dict_get (missing_count headers) 0%N) in
        if 3 <? missing_count then score - 10 else score
    | None => score
    end in
  let broken_links := dict_get (broken_links page_data) [] in
  let score :=
    if truthy_list broken_links then
      let broken_count := len broken_links in
      score - Z.min 15 (broken_count * 3)
    else score in
  let status_code := dict_get (status_code page_data) 200 in
  let score :=
    if 400 <=? status_code then score - 30
    else if 300 <=? status_code then score - 5
    else score in
  Z.max 0 score.

(** *** Aggregation *)

(** [d[key]] on a dictionary built by the code: [KeyError] when absent. *)
Definition subscript {V} (d : gmap string V) (key : string) : result V :=
  match d !! key with
  | Some v => Ok v
  | None => Raise ("'" ++ key ++ "'")
  end.

Definition weights : list (string * Q) :=
  [("performance", 25 # 100); ("seo", 30 # 100);
   ("content", 25 # 100); ("technical", 20 # 100)]%Q.

Definition _calculate_overall_score (category_scores : gmap string Q) : Q :=
  let '(total_weighted, total_weight) :=
    fold_left
      (fun '(total_weighted, total_weight) '(category, weight) =>
         let score := dict_get (category_scores !! category) 0%Q in
         (total_weighted + score * weight, total_weight + weight)%Q)
      weights (0%Q, 0%Q) in
  if Qltb 0 total_weight then (total_weighted / total_weight)%Q else 0%Q.

(** An issue dictionary; [page_url] is the key [calculate_site_score]
    adds to its copy. *)
Record Issue := {
  category : string;
  severity : string;
  issue : string;
  recommendation : string;
  page_url : option string }.

(** [f'{score:.1f}'] of an integer-valued score. *)
Definition fmt_1f (score : Z) : string := str_of_Z score ++ ".0".

Definition category_issue (name label advice : string) (score : Z) : Issue :=
  {| category := name;
     severity := if score <? 50 then "warning" else "info";
     issue := label ++ " score is " ++ fmt_1f score ++ "/100";
     recommendation := advice;
     page_url := None |}.

Definition _collect_page_issues (page_data : PageData) (scores : gmap string Z)
  : result (list Issue) :=
  let issues : list Issue := [] in
  performance ← subscript scores "performance";
  let issues :=
    if performance <? 70 then
      List.app issues [category_issue "performance" "Performance"
        "Improve Core Web Vitals and reduce render-blocking resources" performance]
    else issues in
  seo ← subscript scores "seo";
  let issues :=
    if seo <? 70 then
      List.app issues [category_issue "seo" "SEO"
        "Fix on-page SEO elements (title, meta, headings, images)" seo]
    else issues in
  content ← subscript scores "content";
  let issues :=
    if content <? 70 then
      List.app issues [category_issue "content" "Content"
        "Improve content quality and reduce duplication" content]
    else issues in
  technical ← subscript scores "technical";
  let issues :=
    if technical <? 70 then
      List.app issues [category_issue "technical" "Technical"
        "Fix technical issues (HTTPS, security headers, broken links)" technical]
    else issues in
  Ok issues.

(** [counts[key] += 1] on a [defaultdict(int)]. *)
Definition incr (counts : gmap string nat) (key : string) : gmap string nat :=
  <[key := S (dict_get (counts !! key) 0%nat)]> counts.

Definition _count_issues_by_severity (issues : list Issue) : gmap string nat :=
  fold_left (fun counts i => incr counts (severity i)) issues ∅.

Definition _count_issues_by_type_and_severity (issues : list Issue)
  : gmap string (gmap string nat) :=
  fold_left
    (fun counts i =>
       <[category i := incr (dict_get (counts !! category i) ∅) (severity i)]> counts)
    issues ∅.

Definition _generate_recommendations (issues : list Issue) : list string :=
  let by_category : PyDict.t (list Issue) :=
    fold_left
      (fun by_category i =>
         PyDict.set by_category (category i)
           (List.app (dict_get (PyDict.lookup by_category (category i)) []) [i]))
      issues [] in
  let recommendations :=
    fold_left
      (fun recommendations '(category, cat_issues) =>
         let critical :=
           List.filter (fun i => String.eqb (severity i) "critical") cat_issues in
         if truthy_list critical then
           List.app recommendations
             ["Fix " ++ str_of_nat (length critical) ++ " critical "
                ++ category ++ " issues"]
         else
           let warnings :=
             List.filter (fun i => String.eqb (severity i) "warning") cat_issues in
           if truthy_list warnings then
             List.app recommendations
               ["Address " ++ str_of_nat (length warnings) ++ " "
                  ++ category ++ " warnings"]
           else recommendations)
      by_category [] in
  take 10 recommendations.

Definition severity_order : list (string * Z) :=
  [("critical", 0); ("warning", 1); ("info", 2); ("opportunity", 3)].

Definition severity_rank (sev : string) : Z :=
  dict_get (PyDict.lookup severity_order sev) 99.

(** [<] on the sort keys [(rank, category)]: tuples compare
    lexicographically, strings by code point. *)
Definition issue_key (x : Issue) : Z * string :=
  (severity_rank (severity x), category x).

Definition key_ltb (a b : Z * string) : bool :=
  (fst a <? fst b) || ((fst a =? fst b) && String.ltb (snd a) (snd b)).

Definition _get_top_issues (issues : list Issue) (limit : nat) : list Issue :=
  let sorted_issues := py_sorted key_ltb issue_key false issues in
  take limit sorted_issues.

(** The default of [limit]. *)
Definition top_issues_limit : nat := 20.

Record PageScore := {
  overall_score : Q;
  category_scores : gmap string Z;
  issues : list Issue;
  issue_counts : gmap string nat;
  recommendations : list string }.

Definition calculate_page_score (page_data : PageData) : result PageScore :=
  let scores : gmap string Z :=
    <["technical" := _score_technical page_data]>
    (<["content" := _score_content page_data]>
    (<["seo" := _score_seo page_data]>
    (<["performance" := _score_performance page_data]> ∅))) in
  let overall_score := _calculate_overall_score (inject_Z <$> scores) in
  issues ← _collect_page_issues page_data scores;
  Ok {| overall_score := overall_score;
        category_scores := scores;
        issues := issues;
        issue_counts := _count_issues_by_severity issues;
        recommendations := _generate_recommendations issues |}.

Record PageScoreEntry := {
  entry_url : string;
  entry_score : Q;
  entry_category_scores : gmap string Z }.

(** The result dictionary of [calculate_site_score]; the three last keys
    are absent from the one returned for an empty site. *)
Record SiteScore := {
  site_overall_score : Q;
  site_category_scores : gmap string Q;
  total_pages : Z;
  page_scores : list PageScoreEntry;
  site_wide_issues : option (list Issue);
  site_issue_counts : option (gmap string (gmap string nat));
  top_issues : option (list Issue) }.

(** The fixed cap on [site_wide_issues]. *)
Definition site_wide_issues_limit : nat := 100.

Definition calculate_site_score (pages : list PageData) : result SiteScore :=
  if negb (truthy_list pages) then
    Ok {| site_overall_score := 0; site_category_scores := ∅;
          total_pages := 0; page_scores := [];
          site_wide_issues := None; site_issue_counts := None;
          top_issues := None |}
  else
    '(page_scores, category_totals) ←
      for_each pages
        (fun '(page_scores, category_totals) page =>
           page_score ← calculate_page_score page;
           let page_scores :=
             List.app page_scores
               [{| entry_url := dict_get (url page) "";
                   entry_score := overall_score page_score;
                   entry_category_scores := category_scores page_score |}] in
           let category_totals : gmap string Q :=
             fold_left
               (fun totals '(category, score) =>
                  <[category :=
                      (dict_get (totals !! category) 0 + inject_Z score)%Q]> totals)
               (map_to_list (category_scores page_score)) category_totals in
           Ok (page_scores, category_totals))
        ([], ∅);
    let num_pages := len pages in
    let category_scores : gmap string Q :=
      (fun total => py_round (total / inject_Z num_pages) 1) <$> category_totals in
    let overall_score := _calculate_overall_score category_scores in
    all_issues ←
      for_each pages
        (fun all_issues page =>
           page_score ← calculate_page_score page;
           Ok (fold_left
                 (fun all_issues i =>
                    let issue_copy :=
                      {| category := category i; severity := severity i;
                         issue := issue i; recommendation := recommendation i;
                         page_url := Some (dict_get (url page) "") |} in
                    List.app all_issues [issue_copy])
                 (issues page_score) all_issues))
        [];
    let issue_counts := _count_issues_by_type_and_severity all_issues in
    Ok {| site_overall_score := py_round overall_score 1;
          site_category_scores := category_scores;
          total_pages := num_pages;
          page_scores := page_scores;
          site_wide_issues := Some (take site_wide_issues_limit all_issues);
          site_issue_counts := Some issue_counts;
          top_issues := Some (_get_top_issues all_issues top_issues_limit) |}.

End Scorer.

(** ** advanced_seo_audit_orchestrator.py *)
Module Orchestrator.
Import Scorer.

(** [analysis_config]: the feature switches a caller may set. *)
Record Config := {
  enable_core_web_vitals : option bool;
  enable_advanced_performance : option bool;
  enable_render_loading_analysis : option bool;
  enable_indexability_analysis : option bool;
  enable_security_analysis : option bool;
  enable_comprehensive_scoring : option bool;
  use_playwright_for_cwv : option bool }.

Record FeatureFlags := {
  ff_core_web_vitals : bool;
  ff_advanced_performance : bool;
  ff_render_loading : bool;
  ff_indexability : bool;
  ff_security : bool;
  ff_comprehensive_scoring : bool;
  ff_use_playwright_for_cwv : bool }.

Definition Headers := option (list (string * string)).

(** The analyzer objects.  Each is the method the orchestrator calls on
    it, taking the arguments in the order of the call; a section
    dictionary comes back as in [PageData] ([None]: an empty one).  In
    [Modules] a field is [None] when importing the module fails; in the
    [_analyzers] table, also when its feature is off. *)
Record Analyzers := {
  an_core_web_vitals : option (string -> string -> result (option CoreWebVitals));
  an_advanced_performance :
    option (string -> string -> result (option AdvancedPerformance));
  an_render_loading : option (string -> string -> result (option RenderLoading));
  an_indexability :
    option (string -> string -> Headers -> result (option Indexability));
  an_security : option (string -> string -> Headers -> result (option Security));
  an_scorer : option (PageData -> result PageScore) }.

Record t := { feature_flags : FeatureFlags; _analyzers : Analyzers }.

Definition when {A} (flag : bool) (analyzer : option A) : option A :=
  if flag then analyzer else None.

(** [__init__] followed by [_init_analyzers]; [modules] says what each
    import yields. *)
Definition init (analysis_config : option Config) (modules : Analyzers) : t :=
  let flag (key : Config -> option bool) (dflt : bool) :=
    match analysis_config with
    | Some config => dict_get (key config) dflt
    | None => dflt
    end in
  let flags :=
    {| ff_core_web_vitals := flag enable_core_web_vitals true;
       ff_advanced_performance := flag enable_advanced_performance true;
       ff_render_loading := flag enable_render_loading_analysis true;
       ff_indexability := flag enable_indexability_analysis true;
       ff_security := flag enable_security_analysis true;
       ff_comprehensive_scoring := flag enable_comprehensive_scoring true;
       ff_use_playwright_for_cwv := flag use_playwright_for_cwv false |} in
  {| feature_flags := flags;
     _analyzers :=
       {| an_core_web_vitals :=
            when (ff_core_web_vitals flags) (an_core_web_vitals modules);
          an_advanced_performance :=
            when (ff_advanced_performance flags) (an_advanced_performance modules);
          an_render_loading :=
            when (ff_render_loading flags) (an_render_loading modules);
          an_indexability := when (ff_indexability flags) (an_indexability modules);
          an_security := when (ff_security flags) (an_security modules);
          an_scorer := when (ff_comprehensive_scoring flags) (an_scorer modules) |} |}.

(** The [{'error': str(e)}] markers. *)
Definition cwv_error_marker (e : string) : option CoreWebVitals :=
  Some {| cwv_error := Some e; lcp_score := None; cls_score := None;
          inp_score := None |}.
Definition ap_error_marker (e : string) : option AdvancedPerformance :=
  Some {| ap_error := Some e; resource_summary := None |}.
Definition rl_error_marker (e : string) : option RenderLoading :=
  Some {| rl_error := Some e; render_blocking_resources := None |}.
Definition ix_error_marker (e : string) : option Indexability :=
  Some {| ix_error := Some e; indexability_status := None |}.
Definition sec_error_marker (e : string) : option Security :=
  Some {| sec_error := Some e; https_enforcement := None;
          mixed_content := None; security_headers := None |}.

(** The local [analysis_results] dictionary: a key is [None] until it is
    assigned. *)
Record AnalysisResults := {
  res_core_web_vitals : option (option CoreWebVitals);
  res_advanced_performance : option (option AdvancedPerformance);
  res_render_loading_analysis : option (option RenderLoading);
  res_indexability_analysis : option (option Indexability);
  res_security_analysis : option (option Security) }.

Definition no_results : AnalysisResults :=
  {| res_core_web_vitals := None; res_advanced_performance := None;
     res_render_loading_analysis := None; res_indexability_analysis := None;
     res_security_analysis := None |}.

Definition set_core_web_vitals r v : AnalysisResults :=
  {| res_core_web_vitals := Some v;
     res_advanced_performance := res_advanced_performance r;
     res_render_loading_analysis := res_render_loading_analysis r;
     res_indexability_analysis := res_indexability_analysis r;
     res_security_analysis := res_security_analysis r |}.
Definition set_advanced_performance r v : AnalysisResults :=
  {| res_core_web_vitals := res_core_web_vitals r;
     res_advanced_performance := Some v;
     res_render_loading_analysis := res_render_loading_analysis r;
     res_indexability_analysis := res_indexability_analysis r;
     res_security_analysis := res_security_analysis r |}.
Definition set_render_loading_analysis r v : AnalysisResults :=
  {| res_core_web_vitals := res_core_web_vitals r;
     res_advanced_performance := res_advanced_performance r;
     res_render_loading_analysis := Some v;
     res_indexability_analysis := res_indexability_analysis r;
     res_security_analysis := res_security_analysis r |}.
Definition set_indexability_analysis r v : AnalysisResults :=
  {| res_core_web_vitals := res_core_web_vitals r;
     res_advanced_performance := res_advanced_performance r;
     res_render_loading_analysis := res_render_loading_analysis r;
     res_indexability_analysis := Some v;
     res_security_analysis := res_security_analysis r |}.
Definition set_security_analysis r v : AnalysisResults :=
  {| res_core_web_vitals := res_core_web_vitals r;
     res_advanced_performance := res_advanced_performance r;
     res_render_loading_analysis := res_render_loading_analysis r;
     res_indexability_analysis := res_indexability_analysis r;
     res_security_analysis := Some v |}.

(** [page_data.update(analysis_results)]. *)
Definition update (page_data : PageData) (r : AnalysisResults) : PageData :=
  {| url := url page_data; title := title page_data;
     meta_description := meta_description page_data;
     h1_tags := h1_tags page_data; h2_tags := h2_tags page_data;
     images := images page_data; canonical_url := canonical_url page_data;
     word_count := word_count page_data;
     is_exact_duplicate := is_exact_duplicate page_data;
     similarity_scores := similarity_scores page_data;
     broken_links := broken_links page_data;
     status_code := status_code page_data;
     core_web_vitals :=
       dict_get (res_core_web_vitals r) (core_web_vitals page_data);
     render_loading_analysis :=
       dict_get (res_render_loading_analysis r) (render_loading_analysis page_data);
     advanced_performance :=
       dict_get (res_advanced_performance r) (advanced_performance page_data);
     indexability_analysis :=
       dict_get (res_indexability_analysis r) (indexability_analysis page_data);
     security_analysis :=
       dict_get (res_security_analysis r) (security_analysis page_data) |}.

(** What [analyze_page] hands back: the updated [page_data] and its
    ['comprehensive_seo_score'] key, a page score or an error marker,
    [None] when the key was not written. *)
Record AnalyzedPage := {
  page : PageData;
  comprehensive_seo_score : option (PageScore + string) }.

(** One guarded analyzer block of [analyze_page]. *)
Definition run_analyzer {S} (enabled : bool)
    (analyzer : option (result S)) (store : S -> AnalysisResults)
    (marker : string -> S) (analysis_results : AnalysisResults)
  : result AnalysisResults :=
  if enabled then
    match analyzer with
    | Some call =>
        try_except (results ← call; Ok (store results))
                   (fun e => Ok (store (marker e)))
    | None => Ok analysis_results
    end
  else Ok analysis_results.

Definition analyze_page (self : t) (page_data : PageData)
    (html_content page_url : string) (response_headers : Headers)
  : result AnalyzedPage :=
  let flags := feature_flags self in
  let analyzers := _analyzers self in
  let analysis_results := no_results in
  analysis_results ←
    run_analyzer (ff_core_web_vitals flags && ff_use_playwright_for_cwv flags)
      ((fun analyze_page_sync => analyze_page_sync page_url html_content)
         <$> an_core_web_vitals analyzers)
      (set_core_web_vitals analysis_results) cwv_error_marker analysis_results;
  analysis_results ←
    run_analyzer (ff_advanced_performance flags)
      ((fun analyze => analyze html_content page_url)
         <$> an_advanced_performance analyzers)
      (set_advanced_performance analysis_results) ap_error_marker analysis_results;
  analysis_results ←
    run_analyzer (ff_render_loading flags)
      ((fun analyze => analyze html_content page_url)
         <$> an_render_loading analyzers)
      (set_render_loading_analysis analysis_results) rl_error_marker
      analysis_results;
  analysis_results ←
    run_analyzer (ff_indexability flags)
      ((fun analyze => analyze html_content page_url response_headers)
         <$> an_indexability analyzers)
      (set_indexability_analysis analysis_results) ix_error_marker
      analysis_results;
  analysis_results ←
    run_analyzer (ff_security flags)
      ((fun analyze => analyze html_content page_url response_headers)
         <$> an_security analyzers)
      (set_security_analysis analysis_results) sec_error_marker analysis_results;
  let page_data := update page_data analysis_results in
  if ff_comprehensive_scoring flags then
    match an_scorer analyzers with
    | Some scorer =>
        try_except
          (page_score ← scorer page_data;
           Ok {| page := page_data;
                 comprehensive_seo_score := Some (inl page_score) |})
          (fun e =>
             Ok {| page := page_data; comprehensive_seo_score := Some (inr e) |})
    | None => Ok {| page := page_data; comprehensive_seo_score := None |}
    end
  else Ok {| page := page_data; comprehensive_seo_score := None |}.

(** The modules as they import when every file of the repository is
    present: the scorer is [ComprehensiveSEOScorer]. *)
Definition with_scorer (modules : Analyzers) : Analyzers :=
  {| an_core_web_vitals := an_core_web_vitals modules;
     an_advanced_performance := an_advanced_performance modules;
     an_render_loading := an_render_loading modules;
     an_indexability := an_indexability modules;
     an_security := an_security modules;
     an_scorer := Some calculate_page_score |}.

End Orchestrator.

(** ** Keyword comparison shared by the two competitor analyzers *)

(** Iterating over a Python [set] visits its members in an order the
    language does not fix.  The enumeration is therefore a parameter
    [set_iter] of the functions that loop over a set; the properties below
    hold for every enumeration that lists each member once. *)
Definition set_order : Type := gset string -> list string.

Definition lists_members (set_iter : set_order) : Prop :=
  forall X : gset string, set_iter X ≡ₚ elements X.

(** [set(words1.keys()) & set(words2.keys())]. *)
Definition common_keys {V W} (words1 : PyDict.t V) (words2 : PyDict.t W)
  : gset string :=
  list_to_set (PyDict.keys words1) ∩ list_to_set (PyDict.keys words2).

(** ** competitor_analyzer.py *)
Module Competitor.

(** The result dictionary of [_analyze_url], as far as the comparison
    reads it.  The error results carry no ['seo_score'] and, but for the
    timeout, no ['load_time']. *)
Record AnalysisResult := {
  load_time : option Q;
  error_count : option Z;
  seo_score : option Z;
  keywords : option (list (string * Z)) }.

Record CommonKeyword := {
  keyword : string;
  your_count : Z;
  competitor_count : Z;
  total : Z }.

Record UniqueKeyword := { unique_keyword : string; unique_count : Z }.

(** In [_find_common_keywords] the subscripts [words1[word]] and
    [words2[word]] are applied to members of both key sets only, so the
    default of [dict_get] is never taken. *)
Definition _find_common_keywords (set_iter : set_order)
    (keywords1 keywords2 : list (string * Z)) : list CommonKeyword :=
  let words1 := PyDict.of_pairs keywords1 in
  let words2 := PyDict.of_pairs keywords2 in
  let common :=
    fold_left
      (fun common word =>
         let count1 := dict_get (PyDict.lookup words1 word) 0 in
         let count2 := dict_get (PyDict.lookup words2 word) 0 in
         List.app common
           [{| keyword := word; your_count := count1;
               competitor_count := count2; total := count1 + count2 |}])
      (set_iter (common_keys words1 words2)) [] in
  let common := py_sorted Z.ltb total true common in
  take 20 common.

Definition _find_unique_keywords (keywords1 keywords2 : list (string * Z))
  : list UniqueKeyword :=
  let words1 := PyDict.of_pairs keywords1 in
  let words2 := PyDict.of_pairs keywords2 in
  let unique :=
    fold_left
      (fun unique '(word, count) =>
         if negb (PyDict.mem words2 word) then
           List.app unique [{| unique_keyword := word; unique_count := count |}]
         else unique)
      words1 [] in
  let unique := py_sorted Z.ltb unique_count true unique in
  take 20 unique.

Record LoadSpeed := {
  ls_winner : string; ls_difference : Q; ls_your_site : Q; ls_competitor : Q }.
Record Errors := { er_winner : string; er_your_site : Z; er_competitor : Z }.
Record SeoScore := {
  ss_winner : string; ss_your_site : Z; ss_competitor : Z; ss_difference : Z }.
Record Keywords := {
  common_keywords : list CommonKeyword;
  unique_to_your_site : list UniqueKeyword;
  unique_to_competitor : list UniqueKeyword }.

(** The comparison dictionary.  Its ['on_page_seo'] and ['backlinks']
    entries only copy fields of the two results and are read by neither
    function below; they are left out. *)
Record Comparison := {
  cmp_load_speed : LoadSpeed;
  cmp_errors : Errors;
  cmp_seo_score : SeoScore;
  cmp_keywords : Keywords }.

Definition _compare_results (set_iter : set_order)
    (result1 result2 : AnalysisResult) : Comparison :=
  {| cmp_load_speed :=
       {| ls_winner :=
            if Qltb (dict_get (load_time result1) 999%Q)
                    (dict_get (load_time result2) 999%Q)
            then "your_site" else "competitor";
          ls_difference :=
            Qabs (dict_get (load_time result1) 0 - dict_get (load_time result2) 0)%Q;
          ls_your_site := dict_get (load_time result1) 0%Q;
          ls_competitor := dict_get (load_time result2) 0%Q |};
     cmp_errors :=
       {| er_winner :=
            if dict_get (error_count result1) 0 <? dict_get (error_count result2) 0
            then "your_site" else "competitor";
          er_your_site := dict_get (error_count result1) 0;
          er_competitor := dict_get (error_count result2) 0 |};
     cmp_seo_score :=
       {| ss_winner :=
            if dict_get (seo_score result2) 0 <? dict_get (seo_score result1) 0
            then "your_site" else "competitor";
          ss_your_site := dict_get (seo_score result1) 0;
          ss_competitor := dict_get (seo_score result2) 0;
          ss_difference :=
            dict_get (seo_score result1) 0 - dict_get (seo_score result2) 0 |};
     cmp_keywords :=
       {| common_keywords :=
            _find_common_keywords set_iter
              (dict_get (keywords result1) []) (dict_get (keywords result2) []);
          unique_to_your_site :=
            _find_unique_keywords
              (dict_get (keywords result1) []) (dict_get (keywords result2) []);
          unique_to_competitor :=
            _find_unique_keywords
              (dict_get (keywords result2) []) (dict_get (keywords result1) []) |} |}.

(** The [wins] counters. *)
Record Wins := { wins_your_site : nat; wins_competitor : nat; wins_tie : nat }.

Definition tally (wins : Wins) (winner : string) : Wins :=
  if String.eqb winner "your_site" then
    {| wins_your_site := S (wins_your_site wins);
       wins_competitor := wins_competitor wins; wins_tie := wins_tie wins |}
  else if String.eqb winner "competitor" then
    {| wins_your_site := wins_your_site wins;
       wins_competitor := S (wins_competitor wins); wins_tie := wins_tie wins |}
  else
    {| wins_your_site := wins_your_site wins;
       wins_competitor := wins_competitor wins; wins_tie := S (wins_tie wins) |}.

Record Verdict := { overall : string; wins : Wins; summary : string }.

Definition _determine_winner (comparison : Comparison) : Verdict :=
  let wins := {| wins_your_site := 0; wins_competitor := 0; wins_tie := 0 |} in
  let wins := tally wins (ls_winner (cmp_load_speed comparison)) in
  let wins := tally wins (er_winner (cmp_errors comparison)) in
  let wins := tally wins (ss_winner (cmp_seo_score comparison)) in
  let overall_winner :=
    if (wins_competitor wins <? wins_your_site wins)%nat then "your_site"
    else if (wins_your_site wins <? wins_competitor wins)%nat then "competitor"
    else "tie" in
  {| overall := overall_winner;
     wins := wins;
     summary :=
       "Your site wins " ++ str_of_nat (wins_your_site wins)
       ++ " categories, competitor wins " ++ str_of_nat (wins_competitor wins)
       ++ " categories" |}.

End Competitor.

(** ** advanced_competitor_analyzer.py: the keyword comparison *)
Module AdvancedCompetitor.

(** A ranked keyword: [(word, count, importance)]. *)
Definition Keyword : Type := string * Z * Q.

Record CommonKeyword := {
  keyword : string;
  your_count : Z;
  competitor_count : Z;
  your_importance : Q;
  competitor_importance : Q;
  total_count : Z;
  total_importance : Q }.

Record UniqueKeyword := {
  unique_keyword : string; unique_count : Z; unique_importance : Q }.

(** [{word: (count, importance) for word, count, importance in keywords}]. *)
Definition ranked (keywords : list Keyword) : PyDict.t (Z * Q) :=
  PyDict.of_pairs (map (fun '(word, count, importance) => (word, (count, importance)))
                     keywords).

Definition _find_common_keywords_advanced (set_iter : set_order)
    (keywords1 keywords2 : list Keyword) : list CommonKeyword :=
  let words1 := ranked keywords1 in
  let words2 := ranked keywords2 in
  let common :=
    fold_left
      (fun common word =>
         let '(count1, imp1) := dict_get (PyDict.lookup words1 word) (0, 0%Q) in
         let '(count2, imp2) := dict_get (PyDict.lookup words2 word) (0, 0%Q) in
         List.app common
           [{| keyword := word; your_count := count1; competitor_count := count2;
               your_importance := py_round imp1 4;
               competitor_importance := py_round imp2 4;
               total_count := count1 + count2;
               total_importance := py_round (imp1 + imp2) 4 |}])
      (set_iter (common_keys words1 words2)) [] in
  let common := py_sorted Qltb total_importance true common in
  take 30 common.

Definition _find_unique_keywords_advanced (keywords1 keywords2 : list Keyword)
  : list UniqueKeyword :=
  let words1 := ranked keywords1 in
  let words2 := ranked keywords2 in
  let unique :=
    fold_left
      (fun unique '(word, (count, importance)) =>
         if negb (PyDict.mem words2 word) then
           List.app unique
             [{| unique_keyword := word; unique_count := count;
                 unique_importance := py_round importance 4 |}]
         else unique)
      words1 [] in
  let unique := py_sorted Qltb unique_importance true unique in
  take 30 unique.

End AdvancedCompetitor.

(** ** link_analyzer.py: anchor texts *)
Module Links.

Definition generic_anchors : list string :=
  ["click here"; "read more"; "learn more"; "here"; "this"; "link";
   "more"; "continue"; "next"; "previous"; "view"; "see"; "go"].

Definition brand_indicators : list string :=
  ["home"; "homepage"; "logo"; "brand"; "company"].

(** [x in collection] for strings. *)
Definition str_in (x : string) (collection : list string) : bool :=
  existsb (String.eqb x) collection.

(** The counters the loop updates. *)
Record Counts := {
  keyword_rich : nat; branded : nat; generic : nat; empty : nat;
  anchor_counter : PyDict.t nat }.

Definition step (c : Counts) (anchor : string) : Counts :=
  let anchor_lower := PyStr.strip (PyStr.lower anchor) in
  let anchor_counter :=
    PyDict.set (anchor_counter c) anchor_lower
      (dict_get (PyDict.lookup (anchor_counter c) anchor_lower) 0 + 1)%nat in
  if negb (truthy_str anchor_lower) || str_in anchor_lower [""; " "] then
    {| keyword_rich := keyword_rich c; branded := branded c; generic := generic c;
       empty := S (empty c); anchor_counter := anchor_counter |}
  else if str_in anchor_lower generic_anchors then
    {| keyword_rich := keyword_rich c; branded := branded c;
       generic := S (generic c); empty := empty c;
       anchor_counter := anchor_counter |}
  else if existsb (fun indicator => PyStr.contains indicator anchor_lower)
            brand_indicators then
    {| keyword_rich := keyword_rich c; branded := S (branded c);
       generic := generic c; empty := empty c; anchor_counter := anchor_counter |}
  else if 2 <=? len (PyStr.split anchor_lower) then
    {| keyword_rich := S (keyword_rich c); branded := branded c;
       generic := generic c; empty := empty c; anchor_counter := anchor_counter |}
  else if 4 <? str_len anchor_lower then
    {| keyword_rich := S (keyword_rich c); branded := branded c;
       generic := generic c; empty := empty c; anchor_counter := anchor_counter |}
  else
    {| keyword_rich := keyword_rich c; branded := branded c;
       generic := S (generic c); empty := empty c;
       anchor_counter := anchor_counter |}.

(** The result dictionary; ['keyword_rich_ratio'] is missing from the one
    returned for an empty list. *)
Record AnchorAnalysis := {
  total : nat;
  unique : nat;
  res_keyword_rich : nat;
  res_branded : nat;
  res_generic : nat;
  res_empty : nat;
  keyword_rich_ratio : option Q;
  top_anchors : list (string * nat) }.

(** [Counter.most_common(n)]: [sorted(items, key=count, reverse=True)[:n]]. *)
Definition most_common (counter : PyDict.t nat) (n : nat) : list (string * nat) :=
  take n (py_sorted Nat.ltb snd true counter).

Definition _analyze_anchor_texts (anchor_texts : list string) : AnchorAnalysis :=
  if negb (truthy_list anchor_texts) then
    {| total := 0; unique := 0; res_keyword_rich := 0; res_branded := 0;
       res_generic := 0; res_empty := 0; keyword_rich_ratio := None;
       top_anchors := [] |}
  else
    let c :=
      fold_left step anchor_texts
        {| keyword_rich := 0; branded := 0; generic := 0; empty := 0;
           anchor_counter := [] |} in
    {| total := length anchor_texts;
       unique := size (list_to_set anchor_texts : gset string);
       res_keyword_rich := keyword_rich c;
       res_branded := branded c;
       res_generic := generic c;
       res_empty := empty c;
       keyword_rich_ratio :=
         Some (if truthy_list anchor_texts
               then (inject_Z (Z.of_nat (keyword_rich c))
                     / inject_Z (Z.of_nat (length anchor_texts)))%Q
               else 0%Q);
       top_anchors := most_common (anchor_counter c) 20 |}.

End Links.

(** ** The SEO deductions written as a table

    One function per row, from the wording of the table: what is measured
    and how many points it costs.  [stated_total] has the rows as the
    specification words them; [table_total] differs in two rows, the H1
    row (several H1 tags cost 5, not 10) and the image row (a second tier
    of 5 points above 25%). *)
Module SeoTable.
Import Scorer.

Definition in_range (lo hi n : Z) : bool := (lo <=? n) && (n <=? hi).

(** Missing title 15; otherwise length outside [30,60] 5. *)
Definition title_points (title : string) : Z :=
  if str_len title =? 0 then 15
  else if in_range 30 60 (str_len title) then 0 else 5.

(** Missing meta description 10; otherwise length outside [120,160] 5. *)
Definition description_points (description : string) : Z :=
  if str_len description =? 0 then 10
  else if in_range 120 160 (str_len description) then 0 else 5.

(** Missing or duplicate H1: 10. *)
Definition stated_h1_points (h1_count : Z) : Z :=
  if (h1_count =? 0) || (1 <? h1_count) then 10 else 0.

(** Missing H1 10, more than one H1 5. *)
Definition h1_points (h1_count : Z) : Z :=
  if h1_count =? 0 then 10 else if 1 <? h1_count then 5 else 0.

(** More than 50% of the images without alt text: 10. *)
Definition stated_alt_points (missing total : Z) : Z :=
  if 50 * total <? 100 * missing then 10 else 0.

(** More than 50% without alt text 10, more than 25% 5. *)
Definition alt_points (missing total : Z) : Z :=
  if 50 * total <? 100 * missing then 10
  else if 25 * total <? 100 * missing then 5 else 0.

(** Missing canonical URL: 5. *)
Definition canonical_points (canonical : string) : Z :=
  if str_len canonical =? 0 then 5 else 0.

(** An indexability report whose status is not ['indexable']: 20. *)
Definition indexability_points (report : option Indexability) : Z :=
  match report with
  | Some r =>
      if String.eqb (dict_get (indexability_status r) "indexable") "indexable"
      then 0 else 20
  | None => 0
  end.

Definition missing_alt (page_data : PageData) : Z :=
  len (List.filter image_without_alt (dict_get (images page_data) [])).

Definition image_total (page_data : PageData) : Z :=
  len (dict_get (images page_data) []).

Definition h1_total (page_data : PageData) : Z :=
  len (dict_get (h1_tags page_data) []).

Definition stated_total (page_data : PageData) : Z :=
  title_points (dict_get (title page_data) "")
  + description_points (dict_get (meta_description page_data) "")
  + stated_h1_points (h1_total page_data)
  + stated_alt_points (missing_alt page_data) (image_total page_data)
  + canonical_points (dict_get (canonical_url page_data) "")
  + indexability_points (indexability_analysis page_data).

Definition table_total (page_data : PageData) : Z :=
  title_points (dict_get (title page_data) "")
  + description_points (dict_get (meta_description page_data) "")
  + h1_points (h1_total page_data)
  + alt_points (missing_alt page_data) (image_total page_data)
  + canonical_points (dict_get (canonical_url page_data) "")
  + indexability_points (indexability_analysis page_data).

End SeoTable.

(** ** Sample pages *)
Module Samples.
Import Scorer.

(** A page dictionary with no key set. *)
Definition blank_page : PageData :=
  {| url := None; title := None; meta_description := None; h1_tags := None;
     h2_tags := None; images := None; canonical_url := None;
     word_count := None; is_exact_duplicate := None;
     similarity_scores := None; broken_links := None; status_code := None;
     core_web_vitals := None; render_loading_analysis := None;
     advanced_performance := None; indexability_analysis := None;
     security_analysis := None |}.

Definition title_45 : string := "Forty-five characters long title for the page".
Definition description_130 : string :=
  "A meta description written to be one hundred and thirty characters long, "
  ++ "which is inside the range the scorer accepts, all right!!".

(** A page whose on-page SEO is in order but for what [h1s] and [imgs]
    bring. *)
Definition seo_page (h1s : list string) (imgs : list Image) : PageData :=
  {| url := Some "https://example.com/"; title := Some title_45;
     meta_description := Some description_130; h1_tags := Some h1s;
     h2_tags := None; images := Some imgs;
     canonical_url := Some "https://example.com/";
     word_count := None; is_exact_duplicate := None;
     similarity_scores := None; broken_links := None; status_code := None;
     core_web_vitals := None; render_loading_analysis := None;
     advanced_performance := None; indexability_analysis := None;
     security_analysis := None |}.


(** A page on which every signal the scorers read is at its worst. *)
Definition worst_page : PageData :=
  {| url := Some "http://example.com/old"; title := None;
     meta_description := None; h1_tags := None; h2_tags := None;
     images := Some [{| alt := None |}; {| alt := Some "  " |}];
     canonical_url := None; word_count := Some 0;
     is_exact_duplicate := Some true;
     similarity_scores := Some [("http://example.com/copy", 100%Q)];
     broken_links := Some ["/a"; "/b"; "/c"; "/d"; "/e"];
     status_code := Some 500;
     core_web_vitals :=
       Some {| cwv_error := None; lcp_score := Some "poor";
               cls_score := Some "poor"; inp_score := Some "poor" |};
     render_loading_analysis :=
       Some {| rl_error := None;
               render_blocking_resources :=
                 Some {| total_blocking_resources := Some 12%N |} |};
     advanced_performance :=
       Some {| ap_error := None;
               resource_summary := Some {| total_page_size_mb := Some (75 # 10)%Q |} |};
     indexability_analysis :=
       Some {| ix_error := None; indexability_status := Some "noindex" |};
     security_analysis :=
       Some {| sec_error := None;
               https_enforcement := Some {| is_https := Some false |};
               mixed_content :=
                 Some {| has_mixed_content := Some true; count := Some 40%N |};
               security_headers := Some {| missing_count := Some 7%N |} |} |}.

End Samples.

(** ** What the page and site scorers compute, in closed form *)
Module Closed.
Import Scorer.

(** The [scores] dictionary of [calculate_page_score]. *)
Definition scores_of (page_data : PageData) : gmap string Z :=
  <["technical" := _score_technical page_data]>
  (<["content" := _score_content page_data]>
  (<["seo" := _score_seo page_data]>
  (<["performance" := _score_performance page_data]> ∅))).

Definition issue_below_70 (name label advice : string) (score : Z) : list Issue :=
  if score <? 70 then [category_issue name label advice score] else [].

(** The issues of four scores, in the order the collector visits them. *)
Definition issues_for (performance seo content technical : Z) : list Issue :=
  (issue_below_70 "performance" "Performance"
     "Improve Core Web Vitals and reduce render-blocking resources" performance
   ++ issue_below_70 "seo" "SEO"
        "Fix on-page SEO elements (title, meta, headings, images)" seo
   ++ issue_below_70 "content" "Content"
        "Improve content quality and reduce duplication" content
   ++ issue_below_70 "technical" "Technical"
        "Fix technical issues (HTTPS, security headers, broken links)" technical)%list.

Definition issues_of (page_data : PageData) : list Issue :=
  issues_for (_score_performance page_data) (_score_seo page_data)
    (_score_content page_data) (_score_technical page_data).

Definition page_score_of (page_data : PageData) : PageScore :=
  {| overall_score := _calculate_overall_score (inject_Z <$> scores_of page_data);
     category_scores := scores_of page_data;
     issues := issues_of page_data;
     issue_counts := _count_issues_by_severity (issues_of page_data);
     recommendations := _generate_recommendations (issues_of page_data) |}.

(** The copy of an issue that carries the address of its page. *)
Definition tag (address : string) (i : Issue) : Issue :=
  {| category := category i; severity := severity i; issue := issue i;
     recommendation := recommendation i; page_url := Some address |}.

(** Every issue of every page, tagged, in page order. *)
Definition all_issues_of (pages : list PageData) : list Issue :=
  flat_map (fun page => map (tag (dict_get (url page) "")) (issues_of page)) pages.

(** An issue agrees with the score of its category: the score is below
    70, and the severity is [warning] below 50 and [info] from 50 on. *)
Definition severity_matches (scores : gmap string Z) (i : Issue) : Prop :=
  exists score,
    scores !! category i = Some score /\ score < 70
    /\ (severity i = "warning" <-> score < 50)
    /\ (severity i = "info" <-> 50 <= score).



End Closed.

(** ** What one run of the orchestrator stores *)
Module Stages.
Import Scorer Orchestrator.

(** What a guarded analyzer block stores: the section the analyzer
    returned, the error marker when it raised, nothing when the feature
    is off or the analyzer is missing. *)
Definition outcome {S} (enabled : bool) (analyzer : option (result S))
    (marker : string -> S) : option S :=
  if enabled then
    match analyzer with
    | Some (Ok results) => Some results
    | Some (Raise e) => Some (marker e)
    | None => None
    end
  else None.

(** The [analysis_results] dictionary once the five blocks have run. *)
Definition results_of (self : t) (html_content page_url : string)
    (response_headers : Headers) : AnalysisResults :=
  let flags := feature_flags self in
  let analyzers := _analyzers self in
  {| res_core_web_vitals :=
       outcome (ff_core_web_vitals flags && ff_use_playwright_for_cwv flags)
         ((fun analyze_page_sync => analyze_page_sync page_url html_content)
            <$> an_core_web_vitals analyzers) cwv_error_marker;
     res_advanced_performance :=
       outcome (ff_advanced_performance flags)
         ((fun analyze => analyze html_content page_url)
            <$> an_advanced_performance analyzers) ap_error_marker;
     res_render_loading_analysis :=
       outcome (ff_render_loading flags)
         ((fun analyze => analyze html_content page_url)
            <$> an_render_loading analyzers) rl_error_marker;
     res_indexability_analysis :=
       outcome (ff_indexability flags)
         ((fun analyze => analyze html_content page_url response_headers)
            <$> an_indexability analyzers) ix_error_marker;
     res_security_analysis :=
       outcome (ff_security flags)
         ((fun analyze => analyze html_content page_url response_headers)
            <$> an_security analyzers) sec_error_marker |}.




(** An orchestrator with every feature on, a Core Web Vitals analyzer
    that times out, a render analyzer that reports seven blocking
    resources, and the scorer. *)
Definition sample_orchestrator : t :=
  init
    (Some {| enable_core_web_vitals := None;
             enable_advanced_performance := None;
             enable_render_loading_analysis := None;
             enable_indexability_analysis := None;
             enable_security_analysis := None;
             enable_comprehensive_scoring := None;
             use_playwright_for_cwv := Some true |})
    {| an_core_web_vitals := Some (fun _ _ => Raise "TimeoutError");
       an_advanced_performance := None;
       an_render_loading :=
         Some (fun _ _ =>
                 Ok (Some {| rl_error := None;
                             render_blocking_resources :=
                               Some {| total_blocking_resources := Some 7%N |} |}));
       an_indexability := None;
       an_security := None;
       an_scorer := Some calculate_page_score |}.

End Stages.

(** ** The term sets of a keyword comparison *)
Module KeywordSets.

(** Subject [S] and reference [R] term sets against the three output
    sets: the outputs lie inside the intersection and the two
    differences, hence are pairwise disjoint, and each one is the whole
    of its region when the region has at most [cap] terms. *)
Definition partition_up_to (cap : nat) (S R common only_S only_R : gset string)
  : Prop :=
  common ## only_S /\ common ## only_R /\ only_S ## only_R
  /\ common ⊆ S ∩ R /\ only_S ⊆ S ∖ R /\ only_R ⊆ R ∖ S
  /\ (size (S ∩ R) <= cap -> common = S ∩ R)%nat
  /\ (size (S ∖ R) <= cap -> only_S = S ∖ R)%nat
  /\ (size (R ∖ S) <= cap -> only_R = R ∖ S)%nat.

(** Terms of a [(word, count)] collection and of the basic outputs. *)
Definition terms (keywords : list (string * Z)) : gset string :=
  list_to_set (map fst keywords).
Definition common_terms (l : list Competitor.CommonKeyword) : gset string :=
  list_to_set (map Competitor.keyword l).
Definition unique_terms (l : list Competitor.UniqueKeyword) : gset string :=
  list_to_set (map Competitor.unique_keyword l).

(** Terms of a [(word, count, importance)] collection and of the
    advanced outputs. *)
Definition ranked_terms (keywords : list AdvancedCompetitor.Keyword) : gset string :=
  list_to_set (map (fun k => fst (fst k)) keywords).
Definition common_ranked_terms (l : list AdvancedCompetitor.CommonKeyword)
  : gset string :=
  list_to_set (map AdvancedCompetitor.keyword l).
Definition unique_ranked_terms (l : list AdvancedCompetitor.UniqueKeyword)
  : gset string :=
  list_to_set (map AdvancedCompetitor.unique_keyword l).

(** Twenty-one keywords, each seen twice. *)
Definition twenty_one : list (string * Z) :=
  map (fun suffix => ("term" ++ suffix, 2))
    ["a"; "b"; "c"; "d"; "e"; "f"; "g"; "h"; "i"; "j"; "k"; "l"; "m"; "n";
     "o"; "p"; "q"; "r"; "s"; "t"; "u"].

(** Two results of the basic analyzer with the same load time, error
    count and SEO score. *)
Definition level_result : Competitor.AnalysisResult :=
  {| Competitor.load_time := Some (12 # 10)%Q;
     Competitor.error_count := Some 0;
     Competitor.seo_score := Some 72;
     Competitor.keywords := None |}.

End KeywordSets.

(** ** The anchor classes, rule by rule *)
Module AnchorRules.

(** The text the rules look at: lowercased, then trimmed. *)
Definition normal (anchor : string) : string := PyStr.strip (PyStr.lower anchor).

Definition tokens (anchor : string) : Z := len (PyStr.split (normal anchor)).

Definition bump (b : bool) : nat := if b then 1%nat else 0%nat.

Definition count (p : string -> bool) (anchors : list string) : nat :=
  length (List.filter p anchors).

(** The rules as the specification words them: generic when the text is
    in a stoplist of five, keyword-rich when it has two tokens or more
    and is not generic, the ratio taken over the non-empty anchors. *)
Definition stated_stoplist : list string :=
  ["click here"; "read more"; "here"; "link"; "more"].

Definition stated_generic (anchor : string) : bool :=
  Links.str_in (normal anchor) stated_stoplist.

Definition stated_keyword_rich (anchor : string) : bool :=
  (2 <=? tokens anchor) && negb (stated_generic anchor).

Definition non_empty (anchor : string) : bool := negb (str_len (normal anchor) =? 0).

Definition stated_ratio (anchors : list string) : Q :=
  (inject_Z (Z.of_nat (count stated_keyword_rich anchors))
   / inject_Z (Z.of_nat (count non_empty anchors)))%Q.

(** The rules the analyzer applies. *)
Definition is_empty (anchor : string) : bool := str_len (normal anchor) =? 0.

Definition in_stoplist (anchor : string) : bool :=
  Links.str_in (normal anchor) Links.generic_anchors.

Definition names_brand (anchor : string) : bool :=
  existsb (fun indicator => PyStr.contains indicator (normal anchor))
    Links.brand_indicators.

(** Generic: in the stoplist of thirteen, or one short word (at most
    four characters) that names no brand. *)
Definition is_generic (anchor : string) : bool :=
  non_empty anchor
  && (in_stoplist anchor
      || (negb (names_brand anchor) && (tokens anchor <? 2)
          && (str_len (normal anchor) <=? 4))).

Definition is_branded (anchor : string) : bool :=
  non_empty anchor && negb (in_stoplist anchor) && names_brand anchor.

(** Keyword-rich: outside the stoplist, naming no brand, and made of two
    tokens or more, or of more than four characters. *)
Definition is_keyword_rich (anchor : string) : bool :=
  non_empty anchor && negb (in_stoplist anchor) && negb (names_brand anchor)
  && ((2 <=? tokens anchor) || (4 <? str_len (normal anchor))).

End AnchorRules.

(** ** Counting issues *)
Module Tally.
Import Scorer.

(** How many issues carry a severity, and a category with a severity. *)
Definition with_severity (sev : string) (issues : list Issue) : nat :=
  length (List.filter (fun i => String.eqb (severity i) sev) issues).

Definition with_category_severity (cat sev : string) (issues : list Issue) : nat :=
  length (List.filter
            (fun i => String.eqb (category i) cat && String.eqb (severity i) sev)
            issues).

(** A counter read as a number: a missing key counts as 0. *)
Definition counted (counts : gmap string nat) (key : string) : nat :=
  dict_get (counts !! key) 0%nat.

Definition counted2 (counts : gmap string (gmap string nat)) (cat sev : string) : nat :=
  counted (dict_get (counts !! cat) ∅) sev.

(** The recommendation a category earns: one line when its score calls
    for a warning. *)
Definition warning_line (name : string) (score : Z) : list string :=
  if score <? 50 then ["Address 1 " ++ name ++ " warnings"] else [].

(** [a <= b] on the sort keys of [_get_top_issues]. *)
Definition key_le (a b : Issue) : Prop :=
  key_ltb (issue_key b) (issue_key a) = false.

Definition same_key (k : Z * string) (i : Issue) : bool :=
  (fst (issue_key i) =? fst k) && String.eqb (snd (issue_key i)) (snd k).

End Tally.

(** ** The site score in closed form *)
Module SiteClosed.
Import Scorer.

(** The entry of a page in ['page_scores']. *)
Definition entry_of (page : PageData) : PageScoreEntry :=
  {| entry_url := dict_get (url page) "";
     entry_score := overall_score (Closed.page_score_of page);
     entry_category_scores := Closed.scores_of page |}.

(** The sum of one category score over the pages, accumulated in page
    order from 0 as the loop does. *)
Definition category_total (score : PageData -> Z) (pages : list PageData) : Q :=
  fold_left (fun total page => (total + inject_Z (score page))%Q) pages 0%Q.

(** The arithmetic mean of a category, rounded to one decimal. *)
Definition category_mean (score : PageData -> Z) (pages : list PageData) : Q :=
  py_round (category_total score pages / inject_Z (len pages)) 1.

(** The scorer of a category, by name. *)
Definition scorer_of (name : string) : option (PageData -> Z) :=
  if String.eqb name "performance" then Some _score_performance
  else if String.eqb name "seo" then Some _score_seo
  else if String.eqb name "content" then Some _score_content
  else if String.eqb name "technical" then Some _score_technical
  else None.

(** The [category_totals] dictionary after the pages have been added to
    [totals]. *)
Definition totals_of (pages : list PageData) (totals : gmap string Q)
  : gmap string Q :=
  fold_left
    (fun totals page =>
       fold_left
         (fun totals '(category, score) =>
            <[category := (dict_get (totals !! category) 0 + inject_Z score)%Q]> totals)
         (map_to_list (Closed.scores_of page)) totals)
    pages totals.

End SiteClosed.

(** ** core_web_vitals_analyzer.py: the ratings *)
Module CoreWebVitals.

(** A metric that was not measured is [None], and so is its rating. *)
Definition _score_lcp (lcp_value : option Q) : option string :=
  match lcp_value with
  | None => None
  | Some lcp_value =>
      if Qleb lcp_value (25 # 10) then Some "good"
      else if Qleb lcp_value 4 then Some "needs-improvement"
      else Some "poor"
  end.

Definition _score_cls (cls_value : Q) : string :=
  if Qleb cls_value (1 # 10) then "good"
  else if Qleb cls_value (25 # 100) then "needs-improvement"
  else "poor".

Definition _score_inp (inp_value : option Q) : option string :=
  match inp_value with
  | None => None
  | Some inp_value =>
      if Qleb inp_value 200 then Some "good"
      else if Qleb inp_value 500 then Some "needs-improvement"
      else Some "poor"
  end.

(** The ratings [analyze_page] adds to the measured metrics, as the
    scorer reads them: a rating of [None] is read like a missing one. *)
Definition rated (lcp : option Q) (cls : Q) (inp : option Q) : Scorer.CoreWebVitals :=
  {| Scorer.cwv_error := None;
     Scorer.lcp_score := _score_lcp lcp;
     Scorer.cls_score := Some (_score_cls cls);
     Scorer.inp_score := _score_inp inp |}.

End CoreWebVitals.

(** ** Pages with one section replaced or removed *)
Module Sections.
Import Scorer Orchestrator.

Definition with_cwv (page_data : PageData) (section : option CoreWebVitals) : PageData :=
  update page_data (set_core_web_vitals no_results section).

Definition without_render_loading (page_data : PageData) : PageData :=
  update page_data (set_render_loading_analysis no_results None).

Definition without_advanced_performance (page_data : PageData) : PageData :=
  update page_data (set_advanced_performance no_results None).

Definition without_indexability (page_data : PageData) : PageData :=
  update page_data (set_indexability_analysis no_results None).

Definition without_security (page_data : PageData) : PageData :=
  update page_data (set_security_analysis no_results None).

(** [a <= b] on measurements that may be missing: both missing, or both
    present and ordered. *)
Definition measured_le (a b : option Q) : Prop :=
  match a, b with
  | None, None => True
  | Some x, Some y => (x <= y)%Q
  | _, _ => False
  end.

End Sections.

(** ** competitor_analyzer.py: what a result is made of *)
Module Fetch.
Import Competitor.

(** [\w] on a code point below 256: letters, digits and numeric signs,
    and the underscore. *)
Definition is_word_char (c : ascii) : bool :=
  let n := nat_of_ascii c in
  ((48 <=? n) && (n <=? 57) || (65 <=? n) && (n <=? 90) || (n =? 95)
   || (97 <=? n) && (n <=? 122)
   || (n =? 170) || (n =? 178) || (n =? 179) || (n =? 181) || (n =? 185)
   || (n =? 186) || (188 <=? n) && (n <=? 190)
   || (192 <=? n) && (n <=? 214) || (216 <=? n) && (n <=? 246)
   || (248 <=? n))%nat.

(** [[a-z]]. *)
Definition is_lower_letter (c : ascii) : bool :=
  let n := nat_of_ascii c in ((97 <=? n) && (n <=? 122))%nat.

Fixpoint all_lower_letters (s : string) : bool :=
  match s with
  | EmptyString => true
  | String c s' => is_lower_letter c && all_lower_letters s'
  end.

(** The maximal runs of word characters; [cur] is the run being read. *)
Fixpoint word_runs_from (cur : string) (s : string) : list string :=
  match s with
  | EmptyString => if truthy_str cur then [cur] else []
  | String c s' =>
      if is_word_char c then word_runs_from (cur ++ String c EmptyString) s'
      else if truthy_str cur then cur :: word_runs_from EmptyString s'
      else word_runs_from EmptyString s'
  end.

(** [re.findall(r'\b[a-z]{4,}\b', s)].  A match has a word boundary on
    both sides and only letters a-z in between, so it is a whole run of
    word characters; the runs of four letters a-z or more are the
    matches, from left to right. *)
Definition findall_words (s : string) : list string :=
  List.filter (fun run => all_lower_letters run && (4 <=? str_len run))
    (word_runs_from EmptyString s).

Definition stop_words : list string :=
  ["this"; "that"; "with"; "from"; "have"; "been"; "will"; "your"; "their";
   "there"; "what"; "which"; "about"; "would"; "could"; "should"; "these";
   "those"; "them"; "they"; "were"; "where"; "when"; "than"; "then"; "more";
   "most"; "some"; "such"; "only"; "just"; "also"; "very"; "much"; "many"].

(** [Counter(words)]: each word with the number of times it occurs, in
    the order of first occurrence. *)
Definition counter (words : list string) : PyDict.t Z :=
  fold_left
    (fun counts word =>
       PyDict.set counts word (dict_get (PyDict.lookup counts word) 0 + 1))
    words [].

Definition _extract_keywords (text : string) : list (string * Z) :=
  if negb (truthy_str text) then []
  else
    let words := findall_words (PyStr.lower text) in
    let word_counts := counter words in
    let filtered_words :=
      List.filter
        (fun '(word, count) => negb (Links.str_in word stop_words) && (1 <? count))
        word_counts in
    py_sorted Z.ltb snd true filtered_words.

(** An image dictionary of [_extract_images]: its ['alt'] key is always
    set. *)
Definition has_alt (img : Scorer.Image) : bool :=
  truthy_str (dict_get (Scorer.alt img) "").

(** [int(15 * alt_ratio)] is the integer part of the exact product. *)
Definition _calculate_basic_seo_score (title meta_desc : string)
    (h1_tags : list string) (images : list Scorer.Image) (word_count : Z) : Z :=
  let score := 0 in
  let score :=
    if truthy_str title then
      let score := score + 10 in
      if (30 <=? str_len title) && (str_len title <=? 60) then score + 10
      else if 0 <? str_len title then score + 5
      else score
    else score in
  let score :=
    if truthy_str meta_desc then
      let score := score + 10 in
      if (120 <=? str_len meta_desc) && (str_len meta_desc <=? 160) then score + 5
      else score
    else score in
  let score :=
    if len h1_tags =? 1 then score + 15
    else if 0 <? len h1_tags then score + 5
    else score in
  let score :=
    if truthy_list images then
      let images_with_alt := len (List.filter has_alt images) in
      let alt_ratio :=
        if truthy_list images
        then (inject_Z images_with_alt / inject_Z (len images))%Q else 0%Q in
      score + Qfloor (15 * alt_ratio)
    else score in
  let score :=
    if 500 <=? word_count then score + 20
    else if 300 <=? word_count then score + 15
    else if 100 <=? word_count then score + 10
    else if 0 <? word_count then score + 5
    else score in
  Z.min 100 score.


(** How often a word occurs in a list. *)
Definition occurrences (word : string) (words : list string) : Z :=
  len (List.filter (String.eqb word) words).



(** Descending order of the counts, as the keyword lists are sorted. *)
Definition by_count_desc {A} (count : A -> Z) (a b : A) : Prop := count b <= count a.

End Fetch.

(** ** advanced_competitor_analyzer.py: scores and the advantage *)
Module Advantage.

Definition _calculate_mobile_score (has_viewport is_optimized : bool)
    (responsive_images : Z) : Z :=
  let score := 0 in
  let score := if has_viewport then score + 30 else score in
  let score := if is_optimized then score + 30 else score in
  let score :=
    if 0 <? responsive_images then score + Z.min 40 (responsive_images * 5)
    else score in
  score.

(** The ['security_headers'] dictionary of [_analyze_security]. *)
Record SecurityHeaders := {
  https : bool;
  x_frame_options : string;
  x_content_type_options : string;
  x_xss_protection : string;
  strict_transport_security : string;
  content_security_policy : string;
  referrer_policy : string }.

(** [sum(1 for v in security_headers.values() if v)]. *)
Definition security_headers_count (h : SecurityHeaders) : Z :=
  len (List.filter id
         [https h; truthy_str (x_frame_options h);
          truthy_str (x_content_type_options h); truthy_str (x_xss_protection h);
          truthy_str (strict_transport_security h);
          truthy_str (content_security_policy h); truthy_str (referrer_policy h)]).

Definition security_score (h : SecurityHeaders) : Z :=
  Z.min 100 (security_headers_count h * 15).

(** The ['semantic_elements'] counts read by the structure score. *)
Record Semantic := {
  header : Z; footer : Z; main : Z; article : Z; section : Z }.

Definition _calculate_structure_score (semantic : Semantic) (nav_count : Z) : Z :=
  let score := 0 in
  let score := if 0 <? header semantic then score + 20 else score in
  let score := if 0 <? footer semantic then score + 20 else score in
  let score :=
    if (0 <? main semantic) || (0 <? article semantic) then score + 20
    else score in
  let score := if 0 <? nav_count then score + 20 else score in
  let score := if 0 <? section semantic then score + 20 else score in
  Z.min 100 score.

(** The keys of an analysis read by the performance score. *)
Record Measured := {
  m_load_time : option Q;
  page_size : option Z;
  render_blocking_resources : option Z;
  large_images_count : option Z }.

Definition _calculate_performance_score (analysis : Measured) : Z :=
  let score := 100 in
  let load_time := dict_get (m_load_time analysis) 999%Q in
  let score :=
    if Qltb 5 load_time then score - 30
    else if Qltb 3 load_time then score - 20
    else if Qltb 2 load_time then score - 10
    else score in
  let page_size := dict_get (page_size analysis) 0 in
  let score :=
    if 5 * 1024 * 1024 <? page_size then score - 20
    else if 2 * 1024 * 1024 <? page_size then score - 10
    else score in
  let render_blocking := dict_get (render_blocking_resources analysis) 0 in
  let score := score - Z.min 20 (render_blocking * 2) in
  let large_images := dict_get (large_images_count analysis) 0 in
  let score := score - Z.min 10 large_images in
  Z.max 0 score.

(** The keys of a result that decide the categories of the advantage;
    the result of [_create_error_result] has neither a mobile nor a
    security score. *)
Record Result := {
  load_time : option Q;
  performance_score : option Z;
  seo_score : option Z;
  technical_score : option Z;
  mobile_score : option Z;
  security_score_of : option Z }.

(** The entries of the comparison that the advantage reads. *)
Record Comparison := {
  load_time_winner : string;
  performance_score_winner : string;
  seo_score_winner : string;
  technical_score_winner : string;
  mobile_your_site : Z;
  mobile_competitor : Z;
  security_your_site : Z;
  security_competitor : Z }.

Definition _deep_compare_results (result1 result2 : Result) : Comparison :=
  {| load_time_winner :=
       if Qltb (dict_get (load_time result1) 999%Q)
               (dict_get (load_time result2) 999%Q)
       then "your_site" else "competitor";
     performance_score_winner :=
       if dict_get (performance_score result2) 0
          <? dict_get (performance_score result1) 0
       then "your_site" else "competitor";
     seo_score_winner :=
       if dict_get (seo_score result2) 0 <? dict_get (seo_score result1) 0
       then "your_site" else "competitor";
     technical_score_winner :=
       if dict_get (technical_score result2) 0
          <? dict_get (technical_score result1) 0
       then "your_site" else "competitor";
     mobile_your_site := dict_get (mobile_score result1) 0;
     mobile_competitor := dict_get (mobile_score result2) 0;
     security_your_site := dict_get (security_score_of result1) 0;
     security_competitor := dict_get (security_score_of result2) 0 |}.

(** The counters and the list one category updates. *)
Record Tally := {
  t_your_wins : nat; t_competitor_wins : nat; t_categories : list string }.

(** One [if ... elif ...] block: [yours] and [theirs] are its two tests. *)
Definition category (t : Tally) (yours theirs : bool) (name : string) : Tally :=
  if yours then
    {| t_your_wins := S (t_your_wins t);
       t_competitor_wins := t_competitor_wins t;
       t_categories := List.app (t_categories t) [name] |}
  else if theirs then
    {| t_your_wins := t_your_wins t;
       t_competitor_wins := S (t_competitor_wins t);
       t_categories := t_categories t |}
  else t.

Definition _get_advantage_level (percentage : Q) : string :=
  if Qleb 70 percentage then "Strong Advantage"
  else if Qleb 50 percentage then "Moderate Advantage"
  else if Qleb 30 percentage then "Slight Advantage"
  else "Competitive Disadvantage".

Record AdvantageScore := {
  your_wins : nat;
  competitor_wins : nat;
  ties : nat;
  total_categories : nat;
  advantage_percentage : Q;
  winning_categories : list string;
  advantage_level : string }.

(** The arguments [result1] and [result2] of the source are not read.
    The quotient of two counts of at most six and its product with 100
    are on the same side of 30, 50 and 70 in floating point as exactly,
    and no such product lies half-way between two one-digit decimals. *)
Definition _calculate_advantage_score (comparison : Comparison) : AdvantageScore :=
  let ties := 0%nat in
  let t := {| t_your_wins := 0; t_competitor_wins := 0; t_categories := [] |} in
  let t :=
    category t (String.eqb (load_time_winner comparison) "your_site")
      (String.eqb (load_time_winner comparison) "competitor") "Load Speed" in
  let t :=
    category t (String.eqb (performance_score_winner comparison) "your_site")
      (String.eqb (performance_score_winner comparison) "competitor")
      "Performance Score" in
  let t :=
    category t (String.eqb (seo_score_winner comparison) "your_site")
      (String.eqb (seo_score_winner comparison) "competitor") "SEO Score" in
  let t :=
    category t (String.eqb (technical_score_winner comparison) "your_site")
      (String.eqb (technical_score_winner comparison) "competitor")
      "Technical SEO" in
  let t :=
    category t (mobile_competitor comparison <? mobile_your_site comparison)
      (mobile_your_site comparison <? mobile_competitor comparison)
      "Mobile-Friendliness" in
  let t :=
    category t (security_competitor comparison <? security_your_site comparison)
      (security_your_site comparison <? security_competitor comparison)
      "Security" in
  let total_categories := (t_your_wins t + t_competitor_wins t + ties)%nat in
  let advantage_percentage :=
    if (0 <? total_categories)%nat
    then (inject_Z (Z.of_nat (t_your_wins t))
          / inject_Z (Z.of_nat total_categories) * 100)%Q
    else 0%Q in
  {| your_wins := t_your_wins t;
     competitor_wins := t_competitor_wins t;
     ties := ties;
     total_categories := total_categories;
     advantage_percentage := py_round advantage_percentage 1;
     winning_categories := t_categories t;
     advantage_level := _get_advantage_level advantage_percentage |}.

Record Wins := { wins_your_site : nat; wins_competitor : nat; wins_ties : nat }.

Record Verdict := {
  overall : string;
  advantage_score : Q;
  verdict_level : string;
  wins : Wins;
  verdict_categories : list string;
  summary : string }.

(** The argument [comparison] of the source is not read. *)
Definition _determine_winner_advanced (advantage : AdvantageScore) : Verdict :=
  let overall_winner :=
    if (competitor_wins advantage <? your_wins advantage)%nat then "your_site"
    else if (your_wins advantage <? competitor_wins advantage)%nat
    then "competitor" else "tie" in
  {| overall := overall_winner;
     advantage_score := advantage_percentage advantage;
     verdict_level := advantage_level advantage;
     wins := {| wins_your_site := your_wins advantage;
                wins_competitor := competitor_wins advantage;
                wins_ties := ties advantage |};
     verdict_categories := winning_categories advantage;
     summary :=
       "Your site wins " ++ str_of_nat (your_wins advantage)
       ++ " categories, competitor wins " ++ str_of_nat (competitor_wins advantage)
       ++ " categories" |}.

(** [compare_advanced]: the verdict on two analysis results. *)
Definition verdict_of (result1 result2 : Result) : Verdict :=
  _determine_winner_advanced
    (_calculate_advantage_score (_deep_compare_results result1 result2)).

End Advantage.

(** ** link_analyzer.py: link depths *)
Module LinkDepths.

(** The three variables of the search. *)
Record State := {
  depths : PyDict.t nat;
  queue : list (string * nat);
  visited : gset string }.

(** [link_graph.get(current_url, [])], in the order the loop meets the
    members of the set. *)
Definition linked (set_iter : set_order) (link_graph : gmap string (gset string))
    (current_url : string) : list string :=
  match link_graph !! current_url with
  | Some urls => set_iter urls
  | None => []
  end.

(** The body of the [for] loop. *)
Definition visit (all_urls : gset string) (depth : nat) (s : State)
    (linked_url : string) : State :=
  if negb (bool_decide (linked_url ∈ visited s))
     && bool_decide (linked_url ∈ all_urls) then
    {| depths := PyDict.set (depths s) linked_url (depth + 1)%nat;
       queue := List.app (queue s) [(linked_url, (depth + 1)%nat)];
       visited := visited s ∪ {[linked_url]} |}
  else s.

(** The [while queue:] loop; [fuel] bounds the number of its rounds. *)
Fixpoint while_queue (fuel : nat) (set_iter : set_order)
    (link_graph : gmap string (gset string)) (all_urls : gset string)
    (s : State) {struct fuel} : option State :=
  match queue s with
  | [] => Some s
  | (current_url, depth) :: rest =>
      match fuel with
      | O => None
      | S fuel =>
          while_queue fuel set_iter link_graph all_urls
            (fold_left (visit all_urls depth)
               (linked set_iter link_graph current_url)
               {| depths := depths s; queue := rest; visited := visited s |})
      end
  end.

Definition _calculate_link_depths (fuel : nat) (set_iter : set_order)
    (start_url : string) (link_graph : gmap string (gset string))
    (all_urls : gset string) : option (PyDict.t nat) :=
  depths <$>
    while_queue fuel set_iter link_graph all_urls
      {| depths := [(start_url, 0%nat)]; queue := [(start_url, 0%nat)];
         visited := {[start_url]} |}.

(** A page reached from the start in [n] clicks, each click following a
    link of the graph to a page of [all_urls]. *)
Inductive clicks (link_graph : gmap string (gset string)) (all_urls : gset string)
    (start_url : string) : nat -> string -> Prop :=
| clicks_start : clicks link_graph all_urls start_url 0 start_url
| clicks_step n url urls linked_url :
    clicks link_graph all_urls start_url n url ->
    link_graph !! url = Some urls -> linked_url ∈ urls -> linked_url ∈ all_urls ->
    clicks link_graph all_urls start_url (S n) linked_url.

(** Every crawled page [url] links to has a depth, at most one more than
    the depth [d] of [url]. *)
Definition closed (link_graph : gmap string (gset string)) (all_urls : gset string)
    (D : PyDict.t nat) (url : string) (d : nat) : Prop :=
  forall urls linked_url,
    link_graph !! url = Some urls -> linked_url ∈ urls -> linked_url ∈ all_urls ->
    exists d', PyDict.lookup D linked_url = Some d' /\ (d' <= S d)%nat.

(** What the search keeps true; [Q] is the queue together with the page
    whose links are being read, [level] the depth of its head. *)
Record search_inv (link_graph : gmap string (gset string)) (all_urls : gset string)
    (start_url : string) (level : nat) (D : PyDict.t nat) (V : gset string)
    (Q : list (string * nat)) : Prop := {
  inv_nodup : NoDup (PyDict.keys D);
  inv_visited : forall url, url ∈ V <-> is_Some (PyDict.lookup D url);
  inv_start : PyDict.lookup D start_url = Some 0%nat;
  inv_sound : forall url d,
    PyDict.lookup D url = Some d -> clicks link_graph all_urls start_url d url;
  inv_queue : forall url d, (url, d) ∈ Q -> PyDict.lookup D url = Some d;
  inv_levels : exists A B, Q = (A ++ B)%list
                           /\ Forall (fun x => snd x = level) A
                           /\ Forall (fun x => snd x = S level) B;
  inv_bound : forall url d, PyDict.lookup D url = Some d -> (d <= S level)%nat;
  inv_closed : forall url d, PyDict.lookup D url = Some d ->
                             (url, d) ∈ Q \/ closed link_graph all_urls D url d }.

End LinkDepths.

(** * Properties *)

(** ** The primitives *)

Lemma Qltb_lt (a b : Q) : Qltb a b = true <-> (a < b)%Q.
Proof. unfold Qltb. rewrite Qlt_alt. destruct (a ?= b)%Q; split; congruence. Qed.

Lemma Qltb_ge (a b : Q) : Qltb a b = false <-> (b <= a)%Q.
Proof.
  split.
  - intros H. apply Qnot_lt_le. intros Hlt. apply Qltb_lt in Hlt. congruence.
  - intros H. destruct (Qltb a b) eqn:E; [|done].
    apply Qltb_lt in E. by apply Qle_not_lt in H.
Qed.

Lemma Qleb_le (a b : Q) : Qleb a b = true <-> (a <= b)%Q.
Proof. unfold Qleb. rewrite Qle_alt. destruct (a ?= b)%Q; split; congruence. Qed.

Lemma truthy_list_nil {A} (l : list A) : truthy_list l = false <-> l = [].
Proof. destruct l; simpl; split; congruence. Qed.

Lemma for_each_pure {A S} (f : S -> A -> S) (body : S -> A -> result S) l s :
  (forall s x, x ∈ l -> body s x = Ok (f s x)) ->
  for_each l body s = Ok (fold_left f l s).
Proof.
  revert s. induction l as [|x l IH]; intros s Hbody; simpl; [done|].
  rewrite Hbody by left. simpl. apply IH.
  intros s' y Hy. apply Hbody. by right.
Qed.

(** ** The stable sort *)
Section SortFacts.
Context {A K : Type} (ltb : K -> K -> bool) (key : A -> K) (reverse : bool).

Lemma sort_insert_perm x l : sort_insert ltb key reverse x l ≡ₚ x :: l.
Proof.
  induction l as [|y l IH]; simpl; [done|].
  destruct (goes_before ltb key reverse y x); [|done].
  rewrite IH. apply perm_swap.
Qed.

Lemma py_sorted_perm l : py_sorted ltb key reverse l ≡ₚ l.
Proof.
  induction l as [|x l IH]; simpl; [done|].
  rewrite sort_insert_perm. by rewrite IH.
Qed.

Lemma elem_of_py_sorted x l : x ∈ py_sorted ltb key reverse l <-> x ∈ l.
Proof. by rewrite py_sorted_perm. Qed.

(** Sortedness for any transitive relation that agrees with the
    comparisons the insertion makes. *)
Context (R : A -> A -> Prop).
Hypothesis R_trans : forall a b c, R a b -> R b c -> R a c.
Hypothesis R_before : forall y x, goes_before ltb key reverse y x = true -> R y x.
Hypothesis R_after : forall y x, goes_before ltb key reverse y x = false -> R x y.

Lemma sort_insert_sorted x l :
  StronglySorted R l -> StronglySorted R (sort_insert ltb key reverse x l).
Proof.
  induction 1 as [|y l Hl IH Hy]; simpl; [repeat constructor|].
  destruct (goes_before ltb key reverse y x) eqn:Hgo.
  - constructor; [done|].
    rewrite Forall_forall. intros z Hz.
    rewrite sort_insert_perm in Hz.
    apply elem_of_cons in Hz as [->|Hz]; [by apply R_before|].
    rewrite Forall_forall in Hy. by apply Hy.
  - constructor; [by constructor|].
    constructor; [by apply R_after|].
    eapply Forall_impl; [exact Hy|].
    intros z Hz. simpl in Hz. eapply R_trans; [|exact Hz]. by apply R_after.
Qed.

Lemma py_sorted_sorted l : StronglySorted R (py_sorted ltb key reverse l).
Proof.
  induction l as [|x l IH]; simpl; [constructor|].
  by apply sort_insert_sorted.
Qed.
End SortFacts.

Lemma StronglySorted_take {A} (R : A -> A -> Prop) n l :
  StronglySorted R l -> StronglySorted R (take n l).
Proof.
  intros Hl. revert n. induction Hl as [|x l Hl IH Hx]; intros [|n]; simpl;
    try constructor; [apply IH|].
  rewrite Forall_forall in Hx. rewrite Forall_forall. intros y Hy.
  apply Hx. eapply subseteq_take; exact Hy.
Qed.

(** ** Category scorers *)

Lemma truthy_str_len s : truthy_str s = negb (str_len s =? 0).
Proof. destruct s; [done|]. unfold str_len. simpl String.length. simpl. by destruct (String.length s). Qed.

Lemma truthy_list_len {A} (l : list A) : truthy_list l = negb (len l =? 0).
Proof. by destruct l. Qed.

Lemma len_nonneg {A} (l : list A) : 0 <= len l.
Proof. unfold len. lia. Qed.

Lemma len_filter_le {A} (f : A -> bool) (l : list A) : len (List.filter f l) <= len l.
Proof.
  unfold len. apply inj_le. induction l as [|x l IH]; simpl; [done|].
  destruct (f x); simpl; lia.
Qed.

(** The percentage of images without alt text against a threshold [k]:
    the quotient in the code and the cross-multiplied comparison agree. *)
Lemma missing_alt_pct_gt (k a b : Z) :
  0 < b ->
  Qltb (inject_Z k) (inject_Z a / inject_Z b * 100)%Q = (k * b <? 100 * a).
Proof.
  intros Hb. destruct b as [|b|b]; try lia.
  destruct (Z.ltb_spec (k * Z.pos b) (100 * a)) as [H|H].
  - apply Qltb_lt. unfold Qlt, Qdiv, Qmult, Qinv, inject_Z. simpl. lia.
  - apply Qltb_ge. unfold Qle, Qdiv, Qmult, Qinv, inject_Z. simpl. lia.
Qed.

Ltac split_tests :=
  repeat match goal with
    | |- context [Z.ltb ?a ?b] => destruct (Z.ltb_spec a b)
    | |- context [Z.leb ?a ?b] => destruct (Z.leb_spec a b)
    | |- context [Z.eqb ?a ?b] => destruct (Z.eqb_spec a b)
    end; cbn [negb andb orb].

Lemma title_points_bounds t : 0 <= SeoTable.title_points t <= 15.
Proof. unfold SeoTable.title_points. repeat case_match; lia. Qed.

Lemma description_points_bounds d : 0 <= SeoTable.description_points d <= 10.
Proof. unfold SeoTable.description_points. repeat case_match; lia. Qed.

Lemma h1_points_bounds n : 0 <= SeoTable.h1_points n <= 10.
Proof. unfold SeoTable.h1_points. repeat case_match; lia. Qed.

Lemma alt_points_bounds m n : 0 <= SeoTable.alt_points m n <= 10.
Proof. unfold SeoTable.alt_points. repeat case_match; lia. Qed.

Lemma canonical_points_bounds c : 0 <= SeoTable.canonical_points c <= 5.
Proof. unfold SeoTable.canonical_points. repeat case_match; lia. Qed.

Lemma indexability_points_bounds r : 0 <= SeoTable.indexability_points r <= 20.
Proof. unfold SeoTable.indexability_points. repeat case_match; lia. Qed.

(** The SEO scorer subtracts the rows of [SeoTable.table_total]; the floor
    at zero is never reached.  The proof follows the source block by
    block: each [set] names the score after one block. *)
Lemma score_seo_table page_data :
  Scorer._score_seo page_data = 100 - SeoTable.table_total page_data.
Proof.
  unfold Scorer._score_seo, SeoTable.table_total. cbv zeta.
  set (s1 := if negb (truthy_str (dict_get (Scorer.title page_data) "")) then _ else _).
  assert (s1 = 100 - SeoTable.title_points (dict_get (Scorer.title page_data) "")) as H1.
  { subst s1. unfold SeoTable.title_points, SeoTable.in_range.
    rewrite truthy_str_len. split_tests; lia. }
  clearbody s1.
  set (s2 := if negb (truthy_str (dict_get (Scorer.meta_description page_data) ""))
             then _ else _).
  assert (s2 = s1 - SeoTable.description_points
                      (dict_get (Scorer.meta_description page_data) "")) as H2.
  { subst s2. unfold SeoTable.description_points, SeoTable.in_range.
    rewrite truthy_str_len. split_tests; lia. }
  clearbody s2.
  set (s3 := if len (dict_get (Scorer.h1_tags page_data) []) =? 0 then _ else _).
  assert (s3 = s2 - SeoTable.h1_points (SeoTable.h1_total page_data)) as H3.
  { subst s3. unfold SeoTable.h1_points, SeoTable.h1_total. split_tests; lia. }
  clearbody s3.
  set (s4 := if truthy_list (List.filter Scorer.image_without_alt _) then _ else _).
  assert (s4 = s3 - SeoTable.alt_points (SeoTable.missing_alt page_data)
                      (SeoTable.image_total page_data)) as H4.
  { subst s4. unfold SeoTable.alt_points, SeoTable.missing_alt, SeoTable.image_total.
    rewrite !truthy_list_len.
    pose proof (len_filter_le Scorer.image_without_alt
                  (dict_get (Scorer.images page_data) [])) as Hle.
    pose proof (len_nonneg (List.filter Scorer.image_without_alt
                  (dict_get (Scorer.images page_data) []))) as Hm.
    set (m := len (List.filter _ _)) in *.
    set (n := len (dict_get (Scorer.images page_data) [])) in *.
    destruct (Z.eqb_spec m 0) as [->|Hm0]; cbn [negb]; [split_tests; lia|].
    destruct (Z.eqb_spec n 0) as [->|Hn0]; [lia|]. cbn [negb].
    change 50%Q with (inject_Z 50). change 25%Q with (inject_Z 25).
    rewrite !missing_alt_pct_gt by lia. split_tests; lia. }
  clearbody s4.
  set (s5 := if negb (truthy_str (dict_get (Scorer.canonical_url page_data) ""))
             then _ else _).
  assert (s5 = s4 - SeoTable.canonical_points
                      (dict_get (Scorer.canonical_url page_data) "")) as H5.
  { subst s5. unfold SeoTable.canonical_points. rewrite truthy_str_len.
    split_tests; lia. }
  clearbody s5.
  set (s6 := match Scorer.indexability_analysis page_data with
             | Some _ => _ | None => _ end).
  assert (s6 = s5 - SeoTable.indexability_points
                      (Scorer.indexability_analysis page_data)) as H6.
  { subst s6. unfold SeoTable.indexability_points.
    destruct (Scorer.indexability_analysis page_data); [|lia].
    destruct (String.eqb _ _); simpl; lia. }
  clearbody s6.
  pose proof (title_points_bounds (dict_get (Scorer.title page_data) "")).
  pose proof (description_points_bounds
                (dict_get (Scorer.meta_description page_data) "")).
  pose proof (h1_points_bounds (SeoTable.h1_total page_data)).
  pose proof (alt_points_bounds (SeoTable.missing_alt page_data)
                (SeoTable.image_total page_data)).
  pose proof (canonical_points_bounds (dict_get (Scorer.canonical_url page_data) "")).
  pose proof (indexability_points_bounds (Scorer.indexability_analysis page_data)).
  lia.
Qed.

Lemma table_total_bounds page_data : 0 <= SeoTable.table_total page_data <= 70.
Proof.
  unfold SeoTable.table_total.
  pose proof (title_points_bounds (dict_get (Scorer.title page_data) "")).
  pose proof (description_points_bounds
                (dict_get (Scorer.meta_description page_data) "")).
  pose proof (h1_points_bounds (SeoTable.h1_total page_data)).
  pose proof (alt_points_bounds (SeoTable.missing_alt page_data)
                (SeoTable.image_total page_data)).
  pose proof (canonical_points_bounds (dict_get (Scorer.canonical_url page_data) "")).
  pose proof (indexability_points_bounds (Scorer.indexability_analysis page_data)).
  lia.
Qed.

Lemma cwv_deduction_bounds score rating poor needs :
  0 <= needs <= poor ->
  score - poor <= Scorer.cwv_deduction score rating poor needs <= score.
Proof. intros H. unfold Scorer.cwv_deduction. repeat case_match; lia. Qed.

Lemma score_performance_bounds page_data :
  40 <= Scorer._score_performance page_data <= 100.
Proof.
  unfold Scorer._score_performance. cbv zeta.
  set (s1 := match Scorer.core_web_vitals page_data with
             | Some _ => _ | None => _ end).
  assert (60 <= s1 <= 100) as H1.
  { subst s1. destruct (Scorer.core_web_vitals page_data) as [cwv|]; [|lia].
    pose proof (cwv_deduction_bounds 100 (dict_get (Scorer.lcp_score cwv) "") 15 8).
    set (a := Scorer.cwv_deduction 100 _ 15 8) in *.
    pose proof (cwv_deduction_bounds a (dict_get (Scorer.cls_score cwv) "") 15 8).
    set (b := Scorer.cwv_deduction a _ 15 8) in *.
    pose proof (cwv_deduction_bounds b (dict_get (Scorer.inp_score cwv) "") 10 5).
    lia. }
  clearbody s1.
  set (s2 := match Scorer.render_loading_analysis page_data with
             | Some _ => _ | None => _ end).
  assert (s1 - 10 <= s2 <= s1) as H2 by (subst s2; repeat case_match; lia).
  clearbody s2.
  set (s3 := match Scorer.advanced_performance page_data with
             | Some _ => _ | None => _ end).
  assert (s2 - 10 <= s3 <= s2) as H3 by (subst s3; repeat case_match; lia).
  lia.
Qed.

Lemma score_content_bounds page_data :
  35 <= Scorer._score_content page_data <= 100.
Proof.
  unfold Scorer._score_content. cbv zeta.
  set (s1 := if dict_get (Scorer.word_count page_data) 0 <? 300 then _ else _).
  assert (80 <= s1 <= 100) as H1 by (subst s1; repeat case_match; lia).
  clearbody s1.
  set (s2 := if dict_get (Scorer.is_exact_duplicate page_data) false then _ else _).
  assert (s1 - 30 <= s2 <= s1) as H2 by (subst s2; repeat case_match; lia).
  clearbody s2.
  set (s3 := if len (dict_get (Scorer.h1_tags page_data) []) =? 0 then _ else _).
  assert (s2 - 10 <= s3 <= s2) as H3 by (subst s3; repeat case_match; lia).
  clearbody s3.
  repeat case_match; lia.
Qed.

(** The counts of the security report are natural numbers, so the
    mixed-content deduction [min(20, count * 2)] lies between 0 and 20. *)
Lemma score_technical_bounds page_data :
  5 <= Scorer._score_technical page_data <= 100.
Proof.
  unfold Scorer._score_technical. cbv zeta.
  set (s1 := match Scorer.security_analysis page_data with
             | Some _ => _ | None => _ end).
  assert (50 <= s1 <= 100) as H1 by (subst s1; repeat case_match; lia).
  clearbody s1.
  set (s2 := if truthy_list (dict_get (Scorer.broken_links page_data) []) then _ else _).
  assert (s1 - 15 <= s2 <= s1) as H2.
  { subst s2. pose proof (len_nonneg (dict_get (Scorer.broken_links page_data) [])).
    repeat case_match; lia. }
  clearbody s2.
  repeat case_match; lia.
Qed.

(** C4. Whatever the page data, each of the four category scorers
    (performance, seo, content, technical) returns a score between 0 and
    100. *)
Theorem category_scores_in_range (page_data : Scorer.PageData) :
  (0 <= Scorer._score_performance page_data <= 100)
  /\ (0 <= Scorer._score_seo page_data <= 100)
  /\ (0 <= Scorer._score_content page_data <= 100)
  /\ (0 <= Scorer._score_technical page_data <= 100).
Proof.
  pose proof (score_performance_bounds page_data).
  pose proof (score_content_bounds page_data).
  pose proof (score_technical_bounds page_data).
  pose proof (table_total_bounds page_data).
  rewrite score_seo_table. lia.
Qed.

(** With every signal at its worst the four scores are the smallest the
    deductions allow, none of them at the floor. *)
Lemma worst_page_scores :
  Scorer._score_performance Samples.worst_page = 40
  /\ Scorer._score_seo Samples.worst_page = 30
  /\ Scorer._score_content Samples.worst_page = 40
  /\ Scorer._score_technical Samples.worst_page = 5.
Proof. repeat split. Qed.

(** C2. The SEO scorer subtracts exactly the rows of the deduction table:
    missing title 15, title length outside [30,60] 5, missing meta
    description 10, description length outside [120,160] 5, missing H1 10,
    more than one H1 5, more than 50% of the images without alt text 10,
    more than 25% 5, missing canonical 5, a report that says the page is
    not indexable 20.  A title of 0 characters costs the missing-title 15
    only, one of 45 characters costs nothing, one of 200 characters costs
    the 5 of the length row only. *)
Theorem seo_score_follows_table (page_data : Scorer.PageData) :
  Scorer._score_seo page_data = 100 - SeoTable.table_total page_data
  /\ (str_len (dict_get (Scorer.title page_data) "") = 0 ->
      SeoTable.title_points (dict_get (Scorer.title page_data) "") = 15)
  /\ (str_len (dict_get (Scorer.title page_data) "") = 45 ->
      SeoTable.title_points (dict_get (Scorer.title page_data) "") = 0)
  /\ (str_len (dict_get (Scorer.title page_data) "") = 200 ->
      SeoTable.title_points (dict_get (Scorer.title page_data) "") = 5).
Proof.
  split; [apply score_seo_table|].
  unfold SeoTable.title_points, SeoTable.in_range.
  repeat split; intros ->; reflexivity.
Qed.

Lemma seo_score_follows_table_witness :
  Scorer._score_seo (Samples.seo_page ["Welcome"] [])
  = 100 - SeoTable.table_total (Samples.seo_page ["Welcome"] [])
  /\ SeoTable.title_points Samples.title_45 = 0.
Proof.
  destruct (seo_score_follows_table (Samples.seo_page ["Welcome"] []))
    as (Htable & _ & H45 & _).
  split; [exact Htable|]. apply H45. reflexivity.
Defined.

(** With the rows as the specification words them the table is not what
    the scorer computes: two H1 tags cost 5 points where the stated row
    takes 10, and one image of two without alt text costs 5 where the
    stated row takes nothing. *)
Lemma seo_stated_table_refuted :
  (Scorer._score_seo (Samples.seo_page ["Welcome"; "Welcome again"] []) = 95
   /\ 100 - SeoTable.stated_total
              (Samples.seo_page ["Welcome"; "Welcome again"] []) = 90)
  /\ (Scorer._score_seo
        (Samples.seo_page ["Welcome"]
           [{| Scorer.alt := None |}; {| Scorer.alt := Some "logo" |}]) = 95
      /\ 100 - SeoTable.stated_total
                 (Samples.seo_page ["Welcome"]
                    [{| Scorer.alt := None |}; {| Scorer.alt := Some "logo" |}])
         = 100).
Proof. repeat split; vm_compute; reflexivity. Qed.

(** ** Aggregation *)

Lemma overall_score_sum (category_scores : gmap string Q) :
  (Scorer._calculate_overall_score category_scores
   == dict_get (category_scores !! "performance") 0 * (25 # 100)
      + dict_get (category_scores !! "seo") 0 * (30 # 100)
      + dict_get (category_scores !! "content") 0 * (25 # 100)
      + dict_get (category_scores !! "technical") 0 * (20 # 100))%Q.
Proof.
  unfold Scorer._calculate_overall_score, Scorer.weights. cbn [fold_left].
  set (p := dict_get (category_scores !! "performance") 0%Q).
  set (s := dict_get (category_scores !! "seo") 0%Q).
  set (c := dict_get (category_scores !! "content") 0%Q).
  set (t := dict_get (category_scores !! "technical") 0%Q).
  replace (Qltb 0 (0 + (25 # 100) + (30 # 100) + (25 # 100) + (20 # 100)))
    with true by (symmetry; by apply Qltb_lt).
  field.
Qed.

Lemma subscript_ok {V} (d : gmap string V) key v :
  d !! key = Some v -> Scorer.subscript d key = Ok v.
Proof. unfold Scorer.subscript. by intros ->. Qed.

Lemma collect_page_issues_ok page_data (scores : gmap string Z) p s c t :
  scores !! "performance" = Some p -> scores !! "seo" = Some s ->
  scores !! "content" = Some c -> scores !! "technical" = Some t ->
  Scorer._collect_page_issues page_data scores = Ok (Closed.issues_for p s c t).
Proof.
  intros Hp Hs Hc Ht. unfold Scorer._collect_page_issues.
  rewrite (subscript_ok _ _ _ Hp), (subscript_ok _ _ _ Hs),
    (subscript_ok _ _ _ Hc), (subscript_ok _ _ _ Ht).
  unfold Closed.issues_for, Closed.issue_below_70. cbn [mbind result_bind].
  destruct (p <? 70), (s <? 70), (c <? 70), (t <? 70); reflexivity.
Qed.

Lemma calculate_page_score_ok page_data :
  Scorer.calculate_page_score page_data = Ok (Closed.page_score_of page_data).
Proof.
  unfold Scorer.calculate_page_score. cbv zeta.
  fold (Closed.scores_of page_data).
  rewrite (collect_page_issues_ok page_data (Closed.scores_of page_data)
             (Scorer._score_performance page_data) (Scorer._score_seo page_data)
             (Scorer._score_content page_data) (Scorer._score_technical page_data));
    [reflexivity|reflexivity..].
Qed.


(** ** Issues of a page and of a site *)

Lemma for_each_total {A S} (body : S -> A -> result S) l s :
  (forall s x, x ∈ l -> exists s', body s x = Ok s') ->
  exists s', for_each l body s = Ok s'.
Proof.
  revert s. induction l as [|x l IH]; intros s Hbody; simpl; [by eexists|].
  destruct (Hbody s x) as [s' Hs']; [by left|]. rewrite Hs'. simpl.
  apply IH. intros s'' y Hy. apply Hbody. by right.
Qed.

Lemma fold_left_snoc {A B} (g : A -> B) l acc :
  fold_left (fun acc i => List.app acc [g i]) l acc = (acc ++ map g l)%list.
Proof.
  revert acc. induction l as [|x l IH]; intros acc; simpl.
  - by rewrite app_nil_r.
  - rewrite IH. by rewrite <- app_assoc.
Qed.

Lemma fold_left_extend {A B} (g : A -> list B) l acc :
  fold_left (fun acc x => (acc ++ g x)%list) l acc = (acc ++ flat_map g l)%list.
Proof.
  revert acc. induction l as [|x l IH]; intros acc; simpl.
  - by rewrite app_nil_r.
  - rewrite IH. by rewrite <- app_assoc.
Qed.

Lemma elem_of_issues_for i p s c t :
  i ∈ Closed.issues_for p s c t ->
  exists name label advice score,
    (name, score) ∈ [("performance", p); ("seo", s); ("content", c); ("technical", t)]
    /\ score < 70
    /\ i = Scorer.category_issue name label advice score.
Proof.
  unfold Closed.issues_for, Closed.issue_below_70.
  rewrite !elem_of_app. intros Hi.
  repeat match type of Hi with
         | _ \/ _ => destruct Hi as [Hi|Hi]
         end;
    match type of Hi with
    | _ ∈ (if ?z <? 70 then _ else _) =>
        destruct (Z.ltb_spec z 70); [|by apply elem_of_nil in Hi];
        apply list_elem_of_singleton in Hi
    end;
    eexists _, _, _, _; (split; [|split; [eassumption|exact Hi]]).
  - by left.
  - right; by left.
  - do 2 right; by left.
  - do 3 right; by left.
Qed.

Lemma category_issue_severity name label advice score :
  (Scorer.severity (Scorer.category_issue name label advice score) = "warning"
   <-> score < 50)
  /\ (Scorer.severity (Scorer.category_issue name label advice score) = "info"
      <-> 50 <= score).
Proof.
  unfold Scorer.category_issue. cbn [Scorer.severity].
  destruct (Z.ltb_spec score 50); split; split; (done || lia).
Qed.

Lemma issue_severity_cases i p s c t :
  i ∈ Closed.issues_for p s c t ->
  Scorer.severity i = "warning" \/ Scorer.severity i = "info".
Proof.
  intros (name & label & advice & score & _ & _ & ->)%elem_of_issues_for.
  unfold Scorer.category_issue. cbn [Scorer.severity].
  destruct (score <? 50); auto.
Qed.

Lemma scores_of_lookup page_data name score :
  Closed.scores_of page_data !! name = Some score <->
  (name, score) ∈ [("performance", Scorer._score_performance page_data);
                   ("seo", Scorer._score_seo page_data);
                   ("content", Scorer._score_content page_data);
                   ("technical", Scorer._score_technical page_data)].
Proof.
  unfold Closed.scores_of. rewrite !lookup_insert_Some, lookup_empty.
  rewrite !elem_of_cons, elem_of_nil. naive_solver.
Qed.

Lemma elem_of_all_issues i pages :
  i ∈ Closed.all_issues_of pages <->
  exists page i0,
    page ∈ pages /\ i0 ∈ Closed.issues_of page
    /\ i = Closed.tag (dict_get (Scorer.url page) "") i0.
Proof.
  unfold Closed.all_issues_of. rewrite list_elem_of_In, in_flat_map. split.
  - intros (page & Hpage & Hi). apply list_elem_of_In in Hi, Hpage.
    apply list_elem_of_fmap in Hi as (i0 & -> & Hi0). eauto.
  - intros (page & i0 & Hpage & Hi0 & ->). exists page.
    split; [by apply list_elem_of_In|].
    apply list_elem_of_In, list_elem_of_fmap. eauto.
Qed.


Lemma calculate_site_score_empty :
  exists site,
    Scorer.calculate_site_score [] = Ok site
    /\ Scorer.site_wide_issues site = None /\ Scorer.top_issues site = None.
Proof. eexists. repeat split. Qed.

Lemma calculate_site_score_ok pages :
  pages <> [] ->
  exists site,
    Scorer.calculate_site_score pages = Ok site
    /\ Scorer.site_wide_issues site
       = Some (take Scorer.site_wide_issues_limit (Closed.all_issues_of pages))
    /\ Scorer.top_issues site
       = Some (Scorer._get_top_issues (Closed.all_issues_of pages)
                 Scorer.top_issues_limit).
Proof.
  intros Hpages. unfold Scorer.calculate_site_score.
  destruct pages as [|page0 pages0]; [done|]. cbn [truthy_list negb].
  set (pages := page0 :: pages0).
  match goal with
  | |- context [for_each pages ?body (@nil Scorer.PageScoreEntry, ?m)] =>
      destruct (for_each_total body pages ([], m)) as [[page_scores totals] Hfirst]
  end.
  { intros [ps ct] page _. rewrite calculate_page_score_ok. by eexists. }
  rewrite Hfirst. cbn [mbind result_bind].
  match goal with
  | |- context [for_each pages ?body (@nil Scorer.Issue)] =>
      rewrite (for_each_pure
                 (fun all page =>
                    (all ++ map (Closed.tag (dict_get (Scorer.url page) ""))
                              (Closed.issues_of page))%list)
                 body pages [])
  end.
  2:{ intros all page _. rewrite calculate_page_score_ok. cbn [mbind result_bind].
      f_equal. cbn [Scorer.issues Closed.page_score_of].
      apply (fold_left_snoc (Closed.tag (dict_get (Scorer.url page) ""))). }
  rewrite fold_left_extend. cbn [app mbind result_bind].
  eexists. split; [reflexivity|]. split; reflexivity.
Qed.

Lemma issues_for_has name score p s c t :
  (name, score) ∈ [("performance", p); ("seo", s); ("content", c); ("technical", t)] ->
  score < 70 ->
  exists i, i ∈ Closed.issues_for p s c t /\ Scorer.category i = name.
Proof.
  rewrite !elem_of_cons, elem_of_nil. intros Hin Hlt.
  apply Z.ltb_lt in Hlt.
  unfold Closed.issues_for, Closed.issue_below_70.
  destruct_or?; simplify_eq; try done; rewrite Hlt;
    eexists; (split; [rewrite !elem_of_app|]).
  - left. by left.
  - done.
  - right; left. by left.
  - done.
  - do 2 right; left. by left.
  - done.
  - do 3 right. by left.
  - done.
Qed.

Lemma page_issue_matches page_data i :
  i ∈ Closed.issues_of page_data ->
  Closed.severity_matches (Closed.scores_of page_data) i.
Proof.
  intros (name & label & advice & score & Hin & Hlt & ->)%elem_of_issues_for.
  exists score. split; [by apply scores_of_lookup|]. split; [done|].
  apply category_issue_severity.
Qed.

Lemma site_issue_severity pages i :
  i ∈ Closed.all_issues_of pages ->
  Scorer.severity i = "warning" \/ Scorer.severity i = "info".
Proof.
  intros (page & i0 & _ & Hi0 & ->)%elem_of_all_issues.
  cbn [Closed.tag Scorer.severity]. by eapply issue_severity_cases.
Qed.

Lemma elem_of_get_top_issues i issues limit :
  i ∈ Scorer._get_top_issues issues limit -> i ∈ issues.
Proof.
  unfold Scorer._get_top_issues. cbv zeta. intros Hi.
  apply (subseteq_take limit) in Hi. by apply elem_of_py_sorted in Hi.
Qed.

(** C9. Every issue of a page has severity [warning] or [info]: [warning]
    exactly when the score of its category is below 50, [info] exactly when
    it is at least 50 (and below 70), and a category has an issue exactly
    when its score is below 70.  Hence no issue of a page, and no issue in
    either site-wide list, is [critical] or [opportunity]. *)
Theorem page_issue_severity_follows_score :
  (forall page_data : Scorer.PageData,
     exists page_score,
       Scorer.calculate_page_score page_data = Ok page_score
       /\ (forall i, i ∈ Scorer.issues page_score ->
             Closed.severity_matches (Scorer.category_scores page_score) i
             /\ (Scorer.severity i = "warning" \/ Scorer.severity i = "info"))
       /\ (forall name score,
             Scorer.category_scores page_score !! name = Some score ->
             (score < 70 <->
              exists i, i ∈ Scorer.issues page_score /\ Scorer.category i = name)))
  /\ (forall pages : list Scorer.PageData,
        exists site,
          Scorer.calculate_site_score pages = Ok site
          /\ (forall l,
                Scorer.site_wide_issues site = Some l
                \/ Scorer.top_issues site = Some l ->
                forall i, i ∈ l ->
                  (Scorer.severity i = "warning" \/ Scorer.severity i = "info")
                  /\ Scorer.severity i <> "critical"
                  /\ Scorer.severity i <> "opportunity")).
Proof.
  split.
  - intros page_data. exists (Closed.page_score_of page_data).
    split; [apply calculate_page_score_ok|].
    cbn [Scorer.issues Scorer.category_scores Closed.page_score_of]. split.
    + intros i Hi. split; [by apply page_issue_matches|].
      by eapply issue_severity_cases.
    + intros name score Hlookup. apply scores_of_lookup in Hlookup as Hin. split.
      * intros Hlt. by eapply issues_for_has.
      * intros (i & Hi & <-).
        apply page_issue_matches in Hi as (score' & Hlookup' & Hlt & _).
        congruence.
  - intros pages. destruct pages as [|page0 pages0].
    + destruct calculate_site_score_empty as (site & Hsite & Hwide & Htop).
      exists site. split; [done|]. intros l [Hl|Hl]; congruence.
    + destruct (calculate_site_score_ok (page0 :: pages0)) as (site & Hsite & Hwide & Htop);
        [done|].
      exists site. split; [done|]. intros l Hl i Hi.
      assert (i ∈ Closed.all_issues_of (page0 :: pages0)) as Hall.
      { destruct Hl as [Hl|Hl]; rewrite Hl in *; simplify_eq.
        - by apply (subseteq_take Scorer.site_wide_issues_limit).
        - by eapply elem_of_get_top_issues. }
      apply site_issue_severity in Hall.
      split; [done|]. destruct Hall as [-> | ->]; split; discriminate.
Qed.




(** ** The orchestrator *)

Lemma run_analyzer_ok {S} enabled (analyzer : option (result S)) store marker r :
  Orchestrator.run_analyzer enabled analyzer store marker r
  = Ok (match Stages.outcome enabled analyzer marker with
        | Some v => store v
        | None => r
        end).
Proof.
  unfold Orchestrator.run_analyzer, Stages.outcome.
  destruct enabled; [|done]. destruct analyzer as [[v|e]|]; reflexivity.
Qed.

(** The page an analysis returns is the input updated with what the five
    blocks stored; the scoring block adds its key and cannot fail either. *)
Lemma analyze_page_ok self page_data html_content page_url response_headers :
  exists score,
    Orchestrator.analyze_page self page_data html_content page_url response_headers
    = Ok {| Orchestrator.page :=
              Orchestrator.update page_data
                (Stages.results_of self html_content page_url response_headers);
            Orchestrator.comprehensive_seo_score := score |}
    /\ (Orchestrator.ff_comprehensive_scoring (Orchestrator.feature_flags self) = true ->
        Orchestrator.an_scorer (Orchestrator._analyzers self)
        = Some Scorer.calculate_page_score ->
        score = Some (inl (Closed.page_score_of
                             (Orchestrator.update page_data
                                (Stages.results_of self html_content page_url
                                   response_headers))))).
Proof.
  unfold Orchestrator.analyze_page. cbv zeta.
  rewrite !run_analyzer_ok. cbn [mbind result_bind].
  rewrite !run_analyzer_ok. cbn [mbind result_bind].
  rewrite !run_analyzer_ok. cbn [mbind result_bind].
  rewrite !run_analyzer_ok. cbn [mbind result_bind].
  rewrite !run_analyzer_ok. cbn [mbind result_bind].
  match goal with
  | |- context [Orchestrator.update page_data ?r] =>
      replace r
        with (Stages.results_of self html_content page_url response_headers)
  end.
  2:{ unfold Stages.results_of. cbv zeta.
      repeat match goal with
             | |- context [Stages.outcome ?e ?a ?m] => destruct (Stages.outcome e a m)
             end; reflexivity. }
  set (updated := Orchestrator.update page_data _).
  destruct (Orchestrator.ff_comprehensive_scoring _); [|by eexists].
  destruct (Orchestrator.an_scorer _) as [scorer|]; [|by eexists].
  destruct (scorer updated) as [page_score|e] eqn:Hscore; cbn.
  - eexists. split; [reflexivity|]. intros _ [= ->].
    rewrite calculate_page_score_ok in Hscore. by simplify_eq.
  - eexists. split; [reflexivity|]. intros _ [= ->].
    rewrite calculate_page_score_ok in Hscore. by simplify_eq.
Qed.




(** ** The basic competitor comparison *)

(** C1 fails on the code: with the same load time, error count and SEO
    score on both sides, each of the three metrics names the competitor
    as its winner and the competitor is credited with three wins. *)
Lemma level_results_go_to_competitor :
  let comparison :=
    Competitor._compare_results elements
      KeywordSets.level_result KeywordSets.level_result in
  Competitor.ls_winner (Competitor.cmp_load_speed comparison) = "competitor"
  /\ Competitor.er_winner (Competitor.cmp_errors comparison) = "competitor"
  /\ Competitor.ss_winner (Competitor.cmp_seo_score comparison) = "competitor"
  /\ Competitor.wins (Competitor._determine_winner comparison)
     = {| Competitor.wins_your_site := 0; Competitor.wins_competitor := 3;
          Competitor.wins_tie := 0 |}
  /\ Competitor.overall (Competitor._determine_winner comparison) = "competitor".
Proof. repeat split. Qed.

(** C10. Whatever the two results, each of the three tallied metrics names
    [your_site] or [competitor], the tie counter stays 0, the three wins
    are split between the two sides, so the two counts differ and the
    overall verdict is never [tie]. *)
Theorem basic_verdict_never_tie
    (set_iter : set_order) (result1 result2 : Competitor.AnalysisResult) :
  let comparison := Competitor._compare_results set_iter result1 result2 in
  let verdict := Competitor._determine_winner comparison in
  let named winner := winner = "your_site" \/ winner = "competitor" in
  named (Competitor.ls_winner (Competitor.cmp_load_speed comparison))
  /\ named (Competitor.er_winner (Competitor.cmp_errors comparison))
  /\ named (Competitor.ss_winner (Competitor.cmp_seo_score comparison))
  /\ Competitor.wins_tie (Competitor.wins verdict) = 0%nat
  /\ (Competitor.wins_your_site (Competitor.wins verdict)
      + Competitor.wins_competitor (Competitor.wins verdict) = 3)%nat
  /\ Competitor.wins_your_site (Competitor.wins verdict)
     <> Competitor.wins_competitor (Competitor.wins verdict)
  /\ named (Competitor.overall verdict)
  /\ Competitor.overall verdict <> "tie".
Proof.
  unfold Competitor._determine_winner, Competitor._compare_results.
  cbn [Competitor.cmp_load_speed Competitor.cmp_errors Competitor.cmp_seo_score
       Competitor.ls_winner Competitor.er_winner Competitor.ss_winner].
  destruct (Qltb _ _), (_ <? _), (_ <? _); cbn;
    repeat split; auto; discriminate.
Qed.

(** ** Dictionaries built from pairs *)
Section DictFacts.
Context {V : Type}.
Implicit Types (d : PyDict.t V) (k : string) (v : V).

Lemma dict_mem_keys d k : PyDict.mem d k = true <-> k ∈ PyDict.keys d.
Proof.
  unfold PyDict.mem. induction d as [|[k' v'] d IH]; simpl.
  - split; [done|]. by intros ?%elem_of_nil.
  - rewrite elem_of_cons. destruct (String.eqb_spec k k') as [->|Hne].
    + split; auto.
    + rewrite IH. split; [auto|]. by intros [?|?].
Qed.

Lemma dict_lookup_keys d k : is_Some (PyDict.lookup d k) <-> k ∈ PyDict.keys d.
Proof.
  rewrite <- dict_mem_keys. unfold PyDict.mem.
  destruct (PyDict.lookup d k); split; done.
Qed.

Lemma dict_set_keys d k v :
  PyDict.keys (PyDict.set d k v)
  = if PyDict.mem d k then PyDict.keys d else (PyDict.keys d ++ [k])%list.
Proof.
  unfold PyDict.mem. induction d as [|[k' v'] d IH]; simpl; [done|].
  destruct (String.eqb_spec k k') as [->|Hne]; simpl; [done|].
  rewrite IH. by destruct (PyDict.lookup d k).
Qed.

Lemma dict_set_elem d k v k' :
  k' ∈ PyDict.keys (PyDict.set d k v) <-> k' = k \/ k' ∈ PyDict.keys d.
Proof.
  rewrite dict_set_keys. destruct (PyDict.mem d k) eqn:Hmem.
  - apply dict_mem_keys in Hmem. split; [auto|]. by intros [->|?].
  - rewrite elem_of_app, list_elem_of_singleton. tauto.
Qed.

Lemma dict_set_NoDup d k v :
  NoDup (PyDict.keys d) -> NoDup (PyDict.keys (PyDict.set d k v)).
Proof.
  intros Hd. rewrite dict_set_keys. destruct (PyDict.mem d k) eqn:Hmem; [done|].
  apply NoDup_app. split; [done|]. split; [|apply NoDup_singleton].
  intros x Hx ->%list_elem_of_singleton.
  apply dict_mem_keys in Hx. congruence.
Qed.

Lemma dict_fold_keys (pairs : list (string * V)) d :
  NoDup (PyDict.keys d) ->
  NoDup (PyDict.keys (fold_left (fun d kv => PyDict.set d (fst kv) (snd kv)) pairs d))
  /\ (forall k,
        k ∈ PyDict.keys
              (fold_left (fun d kv => PyDict.set d (fst kv) (snd kv)) pairs d)
        <-> k ∈ PyDict.keys d \/ k ∈ map fst pairs).
Proof.
  revert d. induction pairs as [|[k0 v0] pairs IH]; intros d Hd; simpl.
  - split; [done|]. intros k. rewrite elem_of_nil. tauto.
  - destruct (IH (PyDict.set d k0 v0)) as [Hnd Hin]; [by apply dict_set_NoDup|].
    split; [done|]. intros k. rewrite Hin, dict_set_elem, elem_of_cons. tauto.
Qed.

Lemma of_pairs_NoDup pairs : NoDup (PyDict.keys (PyDict.of_pairs pairs : PyDict.t V)).
Proof. apply dict_fold_keys. constructor. Qed.

Lemma of_pairs_keys pairs k :
  k ∈ PyDict.keys (PyDict.of_pairs pairs : PyDict.t V) <-> k ∈ map fst pairs.
Proof.
  unfold PyDict.of_pairs.
  destruct (dict_fold_keys pairs [] (NoDup_nil_2)) as [_ ->].
  simpl. rewrite elem_of_nil. tauto.
Qed.
End DictFacts.

(** ** Keyword loops, sorting and truncation *)

(** A loop that appends at most one record per item: the keywords of the
    result are the names of the items that pass the test, in order. *)
Lemma loop_keywords {X A} (kw : A -> string) (name : X -> string) (p : X -> bool)
    (f : list A -> X -> list A) (l : list X) (acc : list A) :
  (forall acc x,
     exists tail, f acc x = (acc ++ tail)%list
                  /\ map kw tail = if p x then [name x] else []) ->
  map kw (fold_left f l acc) = (map kw acc ++ map name (List.filter p l))%list.
Proof.
  intros Hf. revert acc. induction l as [|x l IH]; intros acc; simpl.
  - by rewrite app_nil_r.
  - destruct (Hf acc x) as (tail & -> & Htail).
    rewrite IH, map_app, Htail. destruct (p x); simpl.
    + by rewrite <- app_assoc.
    + by rewrite app_nil_r.
Qed.

Lemma filter_true {X} (l : list X) : List.filter (fun _ => true) l = l.
Proof. induction l; simpl; congruence. Qed.

(** Sorting and keeping the first [cap] records keeps only terms of the
    region [X] the records enumerate, and all of them when [X] has no more
    than [cap] terms. *)
Lemma capped_terms {A K} (kw : A -> string) (ltb : K -> K -> bool) (key : A -> K)
    (cap : nat) (l : list A) (X : gset string) :
  map kw l ≡ₚ elements X ->
  (list_to_set (map kw (take cap (py_sorted ltb key true l))) : gset string) ⊆ X
  /\ ((size X <= cap)%nat ->
      (list_to_set (map kw (take cap (py_sorted ltb key true l))) : gset string) = X).
Proof.
  intros Hperm.
  assert (map kw (py_sorted ltb key true l) ≡ₚ elements X) as Hsorted.
  { rewrite <- Hperm. apply fmap_Permutation, py_sorted_perm. }
  split.
  - intros x Hx. apply elem_of_list_to_set in Hx.
    apply elem_of_elements. rewrite <- Hsorted.
    apply list_elem_of_fmap in Hx as (a & -> & Ha).
    apply list_elem_of_fmap. exists a. split; [done|].
    by apply (subseteq_take cap).
  - intros Hsize. rewrite take_ge.
    + apply set_eq. intros x.
      by rewrite elem_of_list_to_set, Hsorted, elem_of_elements.
    + apply Permutation_length in Hsorted.
      rewrite length_map in Hsorted. rewrite Hsorted. exact Hsize.
Qed.

(** The keys of one dictionary that are missing from another enumerate
    the difference of the two term sets. *)
Lemma missing_keys_perm {V W} (pairs1 : list (string * V)) (pairs2 : list (string * W)) :
  List.filter (fun w => negb (PyDict.mem (PyDict.of_pairs pairs2) w))
    (PyDict.keys (PyDict.of_pairs pairs1))
  ≡ₚ elements ((list_to_set (map fst pairs1) : gset string)
               ∖ list_to_set (map fst pairs2)).
Proof.
  apply NoDup_Permutation.
  - apply NoDup_ListNoDup, List.NoDup_filter, NoDup_ListNoDup, of_pairs_NoDup.
  - apply NoDup_elements.
  - intros w. rewrite elem_of_elements, elem_of_difference, !elem_of_list_to_set.
    rewrite list_elem_of_In, filter_In, <- list_elem_of_In, of_pairs_keys.
    rewrite negb_true_iff, <- not_true_iff_false, dict_mem_keys, of_pairs_keys.
    tauto.
Qed.

Lemma common_keys_terms {V W} (pairs1 : list (string * V)) (pairs2 : list (string * W)) :
  common_keys (PyDict.of_pairs pairs1) (PyDict.of_pairs pairs2)
  = (list_to_set (map fst pairs1) : gset string) ∩ list_to_set (map fst pairs2).
Proof.
  unfold common_keys. apply set_eq. intros w.
  by rewrite !elem_of_intersection, !elem_of_list_to_set, !of_pairs_keys.
Qed.

Lemma partition_from_regions cap (S R common only_S only_R : gset string) :
  common ⊆ S ∩ R -> only_S ⊆ S ∖ R -> only_R ⊆ R ∖ S ->
  ((size (S ∩ R) <= cap)%nat -> common = S ∩ R) ->
  ((size (S ∖ R) <= cap)%nat -> only_S = S ∖ R) ->
  ((size (R ∖ S) <= cap)%nat -> only_R = R ∖ S) ->
  KeywordSets.partition_up_to cap S R common only_S only_R.
Proof.
  intros Hc Hs Hr Hc' Hs' Hr'. unfold KeywordSets.partition_up_to.
  repeat split; try done; set_solver.
Qed.

Lemma map_fst_filter {V} (q : string -> bool) (d : list (string * V)) :
  map fst (List.filter (fun x => q (fst x)) d) = List.filter q (map fst d).
Proof.
  induction d as [|[w v] d IH]; simpl; [done|].
  destruct (q w); simpl; by rewrite IH.
Qed.

Lemma find_common_keywords_terms set_iter keywords1 keywords2 :
  lists_members set_iter ->
  KeywordSets.common_terms
    (Competitor._find_common_keywords set_iter keywords1 keywords2)
  ⊆ KeywordSets.terms keywords1 ∩ KeywordSets.terms keywords2
  /\ ((size (KeywordSets.terms keywords1 ∩ KeywordSets.terms keywords2) <= 20)%nat ->
      KeywordSets.common_terms
        (Competitor._find_common_keywords set_iter keywords1 keywords2)
      = KeywordSets.terms keywords1 ∩ KeywordSets.terms keywords2).
Proof.
  intros Hiter.
  unfold KeywordSets.common_terms, KeywordSets.terms,
    Competitor._find_common_keywords.
  cbv zeta. apply capped_terms.
  rewrite (loop_keywords Competitor.keyword id (fun _ => true)).
  - rewrite filter_true, map_id. cbn [map app].
    rewrite (Hiter _). by rewrite common_keys_terms.
  - intros acc word. eexists. split; reflexivity.
Qed.

Lemma find_unique_keywords_terms keywords1 keywords2 :
  KeywordSets.unique_terms (Competitor._find_unique_keywords keywords1 keywords2)
  ⊆ KeywordSets.terms keywords1 ∖ KeywordSets.terms keywords2
  /\ ((size (KeywordSets.terms keywords1 ∖ KeywordSets.terms keywords2) <= 20)%nat ->
      KeywordSets.unique_terms (Competitor._find_unique_keywords keywords1 keywords2)
      = KeywordSets.terms keywords1 ∖ KeywordSets.terms keywords2).
Proof.
  unfold KeywordSets.unique_terms, KeywordSets.terms,
    Competitor._find_unique_keywords.
  cbv zeta. apply capped_terms.
  rewrite (loop_keywords Competitor.unique_keyword fst
             (fun x => negb (PyDict.mem (PyDict.of_pairs keywords2) (fst x)))).
  - cbn [map app].
    rewrite (map_fst_filter
               (fun w => negb (PyDict.mem (PyDict.of_pairs keywords2) w))).
    apply missing_keys_perm.
  - intros acc [word count]. simpl.
    destruct (negb _); [eexists; split; reflexivity|].
    exists []. split; [by rewrite app_nil_r|done].
Qed.

(** The advanced analyzer keys its dictionaries by the first component of
    the triples. *)
Lemma ranked_pairs_terms keywords :
  map fst (map (fun '(word, count, importance) => (word, (count, importance)))
             keywords)
  = map (fun k : AdvancedCompetitor.Keyword => fst (fst k)) keywords.
Proof. induction keywords as [|[[w c] i] l IH]; simpl; congruence. Qed.

Lemma find_common_keywords_advanced_terms set_iter keywords1 keywords2 :
  lists_members set_iter ->
  KeywordSets.common_ranked_terms
    (AdvancedCompetitor._find_common_keywords_advanced set_iter keywords1 keywords2)
  ⊆ KeywordSets.ranked_terms keywords1 ∩ KeywordSets.ranked_terms keywords2
  /\ ((size (KeywordSets.ranked_terms keywords1
             ∩ KeywordSets.ranked_terms keywords2) <= 30)%nat ->
      KeywordSets.common_ranked_terms
        (AdvancedCompetitor._find_common_keywords_advanced set_iter
           keywords1 keywords2)
      = KeywordSets.ranked_terms keywords1 ∩ KeywordSets.ranked_terms keywords2).
Proof.
  intros Hiter.
  unfold KeywordSets.common_ranked_terms, KeywordSets.ranked_terms,
    AdvancedCompetitor._find_common_keywords_advanced, AdvancedCompetitor.ranked.
  cbv zeta. apply capped_terms.
  rewrite (loop_keywords AdvancedCompetitor.keyword id (fun _ => true)).
  - rewrite filter_true, map_id. cbn [map app].
    rewrite (Hiter _). by rewrite common_keys_terms, !ranked_pairs_terms.
  - intros acc word.
    destruct (dict_get (PyDict.lookup _ word) _) as [count1 imp1].
    destruct (dict_get (PyDict.lookup _ word) _) as [count2 imp2].
    eexists. split; reflexivity.
Qed.

Lemma find_unique_keywords_advanced_terms keywords1 keywords2 :
  KeywordSets.unique_ranked_terms
    (AdvancedCompetitor._find_unique_keywords_advanced keywords1 keywords2)
  ⊆ KeywordSets.ranked_terms keywords1 ∖ KeywordSets.ranked_terms keywords2
  /\ ((size (KeywordSets.ranked_terms keywords1
             ∖ KeywordSets.ranked_terms keywords2) <= 30)%nat ->
      KeywordSets.unique_ranked_terms
        (AdvancedCompetitor._find_unique_keywords_advanced keywords1 keywords2)
      = KeywordSets.ranked_terms keywords1 ∖ KeywordSets.ranked_terms keywords2).
Proof.
  unfold KeywordSets.unique_ranked_terms, KeywordSets.ranked_terms,
    AdvancedCompetitor._find_unique_keywords_advanced, AdvancedCompetitor.ranked.
  cbv zeta. apply capped_terms.
  rewrite (loop_keywords AdvancedCompetitor.unique_keyword fst
             (fun x => negb (PyDict.mem
                               (PyDict.of_pairs
                                  (map (fun '(word, count, importance) =>
                                          (word, (count, importance))) keywords2))
                               (fst x)))).
  - cbn [map app].
    rewrite (map_fst_filter
               (fun w => negb (PyDict.mem
                                 (PyDict.of_pairs
                                    (map (fun '(word, count, importance) =>
                                            (word, (count, importance))) keywords2))
                                 w))).
    etransitivity; [apply missing_keys_perm|]. by rewrite !ranked_pairs_terms.
  - intros acc [word [count importance]]. simpl.
    destruct (negb _); [eexists; split; reflexivity|].
    exists []. split; [by rewrite app_nil_r|done].
Qed.

(** C7. For both analyzers and every enumeration order of the common
    keys, the three output term sets are pairwise disjoint, the common
    terms lie in both inputs and the unique terms in one input only; each
    output list is cut at 20 entries (30 in the advanced analyzer), and
    where an output has no more terms than that to hold it is the whole
    intersection, or the whole difference, so that the three then cover
    the union of the inputs. *)
Theorem keyword_sets_partition_up_to_cap (set_iter : set_order) :
  lists_members set_iter ->
  (forall keywords1 keywords2 : list (string * Z),
     KeywordSets.partition_up_to 20
       (KeywordSets.terms keywords1) (KeywordSets.terms keywords2)
       (KeywordSets.common_terms
          (Competitor._find_common_keywords set_iter keywords1 keywords2))
       (KeywordSets.unique_terms
          (Competitor._find_unique_keywords keywords1 keywords2))
       (KeywordSets.unique_terms
          (Competitor._find_unique_keywords keywords2 keywords1)))
  /\ (forall keywords1 keywords2 : list AdvancedCompetitor.Keyword,
        KeywordSets.partition_up_to 30
          (KeywordSets.ranked_terms keywords1) (KeywordSets.ranked_terms keywords2)
          (KeywordSets.common_ranked_terms
             (AdvancedCompetitor._find_common_keywords_advanced set_iter
                keywords1 keywords2))
          (KeywordSets.unique_ranked_terms
             (AdvancedCompetitor._find_unique_keywords_advanced keywords1 keywords2))
          (KeywordSets.unique_ranked_terms
             (AdvancedCompetitor._find_unique_keywords_advanced keywords2 keywords1))).
Proof.
  intros Hiter. split; intros keywords1 keywords2.
  - destruct (find_common_keywords_terms set_iter keywords1 keywords2 Hiter).
    destruct (find_unique_keywords_terms keywords1 keywords2).
    destruct (find_unique_keywords_terms keywords2 keywords1).
    by apply partition_from_regions.
  - destruct (find_common_keywords_advanced_terms set_iter keywords1 keywords2 Hiter).
    destruct (find_unique_keywords_advanced_terms keywords1 keywords2).
    destruct (find_unique_keywords_advanced_terms keywords2 keywords1).
    by apply partition_from_regions.
Qed.

Lemma elements_lists_members : lists_members elements.
Proof. intros X. reflexivity. Qed.

Lemma keyword_sets_partition_witness :
  lists_members elements
  /\ KeywordSets.partition_up_to 20
       (KeywordSets.terms [("crawler", 3); ("audit", 2)])
       (KeywordSets.terms [("audit", 5); ("score", 2)])
       (KeywordSets.common_terms
          (Competitor._find_common_keywords elements
             [("crawler", 3); ("audit", 2)] [("audit", 5); ("score", 2)]))
       (KeywordSets.unique_terms
          (Competitor._find_unique_keywords
             [("crawler", 3); ("audit", 2)] [("audit", 5); ("score", 2)]))
       (KeywordSets.unique_terms
          (Competitor._find_unique_keywords
             [("audit", 5); ("score", 2)] [("crawler", 3); ("audit", 2)])).
Proof.
  split; [exact elements_lists_members|].
  apply (keyword_sets_partition_up_to_cap elements elements_lists_members).
Defined.

(** Beyond the cap a term is lost: of twenty-one keywords that only the
    subject uses, the last one is in no output list. *)
Lemma keyword_cover_refuted :
  "termu" ∈ map fst KeywordSets.twenty_one
  /\ Competitor._find_common_keywords elements KeywordSets.twenty_one [] = []
  /\ Competitor._find_unique_keywords [] KeywordSets.twenty_one = []
  /\ length (Competitor._find_unique_keywords KeywordSets.twenty_one []) = 20%nat
  /\ "termu" ∉ map Competitor.unique_keyword
                 (Competitor._find_unique_keywords KeywordSets.twenty_one []).
Proof.
  split; [|split; [|split; [|split]]].
  - apply list_elem_of_In. vm_compute. tauto.
  - vm_compute. reflexivity.
  - reflexivity.
  - vm_compute. reflexivity.
  - rewrite list_elem_of_In. vm_compute. intuition discriminate.
Qed.

(** ** Anchor texts *)

Lemma rstrip_not_blank s : PyStr.rstrip s <> " ".
Proof.
  destruct s as [|c s]; simpl; [done|].
  destruct (PyStr.rstrip s); [|done].
  destruct (PyStr.isspace c) eqn:Hc; [done|].
  intros [= ->]. vm_compute in Hc. done.
Qed.

(** The emptiness test of the loop is a test for the empty string. *)
Lemma empty_test anchor :
  negb (truthy_str (AnchorRules.normal anchor))
  || Links.str_in (AnchorRules.normal anchor) [""; " "]
  = AnchorRules.is_empty anchor.
Proof.
  unfold AnchorRules.is_empty. rewrite truthy_str_len, negb_involutive.
  destruct (Z.eqb_spec (str_len (AnchorRules.normal anchor)) 0) as [H0|H0]; [done|].
  unfold Links.str_in. cbn [existsb orb].
  destruct (String.eqb_spec (AnchorRules.normal anchor) "") as [E|_].
  { rewrite E in H0. done. }
  destruct (String.eqb_spec (AnchorRules.normal anchor) " ") as [E|_]; [|done].
  by apply rstrip_not_blank in E.
Qed.

Lemma step_counts c anchor :
  Links.keyword_rich (Links.step c anchor)
  = (Links.keyword_rich c + AnchorRules.bump (AnchorRules.is_keyword_rich anchor))%nat
  /\ Links.branded (Links.step c anchor)
     = (Links.branded c + AnchorRules.bump (AnchorRules.is_branded anchor))%nat
  /\ Links.generic (Links.step c anchor)
     = (Links.generic c + AnchorRules.bump (AnchorRules.is_generic anchor))%nat
  /\ Links.empty (Links.step c anchor)
     = (Links.empty c + AnchorRules.bump (AnchorRules.is_empty anchor))%nat.
Proof.
  unfold Links.step. cbv zeta.
  fold (AnchorRules.normal anchor). rewrite empty_test.
  fold (AnchorRules.tokens anchor).
  unfold AnchorRules.is_keyword_rich, AnchorRules.is_branded,
    AnchorRules.is_generic, AnchorRules.non_empty.
  fold (AnchorRules.in_stoplist anchor). fold (AnchorRules.names_brand anchor).
  destruct (AnchorRules.is_empty anchor) eqn:He.
  { unfold AnchorRules.is_empty in He. rewrite He. cbn. lia. }
  unfold AnchorRules.is_empty in He. rewrite He.
  destruct (AnchorRules.in_stoplist anchor); [cbn; lia|].
  destruct (AnchorRules.names_brand anchor); [cbn; lia|].
  destruct (Z.leb_spec 2 (AnchorRules.tokens anchor));
    destruct (Z.ltb_spec (AnchorRules.tokens anchor) 2); try lia;
    destruct (Z.ltb_spec 4 (str_len (AnchorRules.normal anchor)));
    destruct (Z.leb_spec (str_len (AnchorRules.normal anchor)) 4); try lia;
    cbn; lia.
Qed.

Lemma count_cons p anchor anchors :
  AnchorRules.count p (anchor :: anchors)
  = (AnchorRules.bump (p anchor) + AnchorRules.count p anchors)%nat.
Proof. unfold AnchorRules.count. simpl. by destruct (p anchor). Qed.

Lemma loop_counts anchors c :
  Links.keyword_rich (fold_left Links.step anchors c)
  = (Links.keyword_rich c + AnchorRules.count AnchorRules.is_keyword_rich anchors)%nat
  /\ Links.branded (fold_left Links.step anchors c)
     = (Links.branded c + AnchorRules.count AnchorRules.is_branded anchors)%nat
  /\ Links.generic (fold_left Links.step anchors c)
     = (Links.generic c + AnchorRules.count AnchorRules.is_generic anchors)%nat
  /\ Links.empty (fold_left Links.step anchors c)
     = (Links.empty c + AnchorRules.count AnchorRules.is_empty anchors)%nat.
Proof.
  revert c. induction anchors as [|anchor anchors IH]; intros c.
  - unfold AnchorRules.count. simpl. lia.
  - cbn [fold_left]. rewrite !count_cons.
    destruct (IH (Links.step c anchor)) as (-> & -> & -> & ->).
    destruct (step_counts c anchor) as (-> & -> & -> & ->). lia.
Qed.

(** C8. The analyzer counts an anchor, lowercased and trimmed, as empty
    when nothing is left; otherwise as generic exactly when it is in the
    stoplist of thirteen or is a single word of at most four characters
    that names no brand; as branded when it is outside the stoplist and
    names a brand; as keyword-rich exactly when it is outside the
    stoplist, names no brand, and has at least two tokens or more than
    four characters.  For a non-empty list the ratio is the keyword-rich
    count over the number of anchors given; for the empty list no ratio
    is reported. *)
Theorem anchor_classes_and_ratio (anchor_texts : list string) :
  let analysis := Links._analyze_anchor_texts anchor_texts in
  Links.generic_anchors
  = ["click here"; "read more"; "learn more"; "here"; "this"; "link";
     "more"; "continue"; "next"; "previous"; "view"; "see"; "go"]
  /\ Links.res_empty analysis = AnchorRules.count AnchorRules.is_empty anchor_texts
  /\ Links.res_generic analysis
     = AnchorRules.count AnchorRules.is_generic anchor_texts
  /\ Links.res_branded analysis
     = AnchorRules.count AnchorRules.is_branded anchor_texts
  /\ Links.res_keyword_rich analysis
     = AnchorRules.count AnchorRules.is_keyword_rich anchor_texts
  /\ Links.keyword_rich_ratio analysis
     = match anchor_texts with
       | [] => None
       | _ :: _ =>
           Some (inject_Z (Z.of_nat (AnchorRules.count AnchorRules.is_keyword_rich
                                       anchor_texts))
                 / inject_Z (Z.of_nat (length anchor_texts)))%Q
       end.
Proof.
  split; [reflexivity|].
  destruct anchor_texts as [|anchor anchors]; [by repeat split|].
  unfold Links._analyze_anchor_texts. cbn [truthy_list negb].
  cbn [Links.res_empty Links.res_generic Links.res_branded Links.res_keyword_rich
       Links.keyword_rich_ratio].
  match goal with
  | |- context [fold_left Links.step ?l ?c] =>
      destruct (loop_counts l c) as (-> & -> & -> & ->)
  end.
  cbn [Links.keyword_rich Links.branded Links.generic Links.empty Nat.add].
  repeat split.
Qed.

(** The stated rules are not the ones applied: [Learn more] is generic
    for the analyzer though outside the stoplist of five, [Homepage link]
    is branded and [Pricing] keyword-rich though the stated rule says
    otherwise, and a blank anchor counts in the denominator of the
    ratio. *)
Lemma stated_anchor_rules_refuted :
  (Links.res_generic (Links._analyze_anchor_texts ["Learn more"]) = 1%nat
   /\ Links.res_keyword_rich (Links._analyze_anchor_texts ["Learn more"]) = 0%nat
   /\ AnchorRules.stated_generic "Learn more" = false
   /\ AnchorRules.stated_keyword_rich "Learn more" = true)
  /\ (Links.res_keyword_rich (Links._analyze_anchor_texts ["Homepage link"]) = 0%nat
      /\ AnchorRules.stated_keyword_rich "Homepage link" = true)
  /\ (Links.res_keyword_rich (Links._analyze_anchor_texts ["Pricing"]) = 1%nat
      /\ AnchorRules.stated_keyword_rich "Pricing" = false)
  /\ (Links.keyword_rich_ratio (Links._analyze_anchor_texts ["Pricing page"; " "])
      = Some (1 # 2)%Q
      /\ (AnchorRules.stated_ratio ["Pricing page"; " "] == 1)%Q).
Proof. repeat split. Qed.

(** * Further properties *)

(** ** The category scorers never reach their floor *)

Lemma score_content_floor page_data : 40 <= Scorer._score_content page_data.
Proof.
  unfold Scorer._score_content. cbv zeta.
  set (wc := dict_get (Scorer.word_count page_data) 0).
  set (s1 := if wc <? 300 then _ else _).
  assert (80 <= s1 /\ (500 < wc -> s1 = 100)) as [H1 H1'].
  { subst s1. split_tests; split; lia. }
  clearbody s1.
  set (s2 := if dict_get (Scorer.is_exact_duplicate page_data) false then _ else _).
  assert (s1 - 30 <= s2) as H2 by (subst s2; repeat case_match; lia).
  clearbody s2.
  set (s3 := if len (dict_get (Scorer.h1_tags page_data) []) =? 0 then _ else _).
  assert (s2 - 10 <= s3) as H3 by (subst s3; repeat case_match; lia).
  clearbody s3.
  destruct (len (dict_get (Scorer.h2_tags page_data) []) =? 0); cbn [andb];
    [destruct (Z.ltb_spec 500 wc)|]; lia.
Qed.

(** X1. Whatever the page, the performance score is at least 40, the SEO
    score at least 30, the content score at least 40 and the technical
    score at least 5, so that the floor at 0 is never what a scorer
    returns; one page reaches the four bounds at once. *)
Theorem category_score_floors :
  (forall page_data : Scorer.PageData,
     40 <= Scorer._score_performance page_data
     /\ 30 <= Scorer._score_seo page_data
     /\ 40 <= Scorer._score_content page_data
     /\ 5 <= Scorer._score_technical page_data)
  /\ (exists page_data : Scorer.PageData,
        Scorer._score_performance page_data = 40
        /\ Scorer._score_seo page_data = 30
        /\ Scorer._score_content page_data = 40
        /\ Scorer._score_technical page_data = 5).
Proof.
  split.
  - intros page_data.
    pose proof (score_performance_bounds page_data).
    pose proof (score_content_floor page_data).
    pose proof (score_technical_bounds page_data).
    pose proof (table_total_bounds page_data).
    rewrite score_seo_table. lia.
  - exists Samples.worst_page. repeat split.
Qed.

(** ** The overall score *)

Lemma weighted_mean_between (lo hi p s c t : Q) :
  (lo <= p <= hi -> lo <= s <= hi -> lo <= c <= hi -> lo <= t <= hi ->
   lo <= p * (25 # 100) + s * (30 # 100) + c * (25 # 100) + t * (20 # 100) <= hi)%Q.
Proof.
  intros [Hp Hp'] [Hs Hs'] [Hc Hc'] [Ht Ht'].
  assert (lo == lo * (25 # 100) + lo * (30 # 100) + lo * (25 # 100) + lo * (20 # 100))%Q
    as Hlo by ring.
  assert (hi == hi * (25 # 100) + hi * (30 # 100) + hi * (25 # 100) + hi * (20 # 100))%Q
    as Hhi by ring.
  split.
  - eapply Qle_trans; [apply Qle_lteq; right; exact Hlo|].
    repeat apply Qplus_le_compat; apply Qmult_le_compat_r; done.
  - eapply Qle_trans; [|apply Qle_lteq; right; symmetry; exact Hhi].
    repeat apply Qplus_le_compat; apply Qmult_le_compat_r; done.
Qed.

(** X2. The overall score of a page is always between 30 and 100: the
    page scorer returns, and the weighted sum of category scores that
    never fall below 40, 30, 40 and 5 cannot fall below 30. *)
Theorem page_overall_range (page_data : Scorer.PageData) :
  exists page_score,
    Scorer.calculate_page_score page_data = Ok page_score
    /\ (30 <= Scorer.overall_score page_score <= 100)%Q.
Proof.
  exists (Closed.page_score_of page_data).
  split; [apply calculate_page_score_ok|].
  cbn [Scorer.overall_score Closed.page_score_of].
  rewrite overall_score_sum. unfold Closed.scores_of.
  rewrite !lookup_fmap.
  repeat (rewrite lookup_insert_eq || rewrite lookup_insert_ne by done).
  cbn [fmap option_fmap option_map dict_get].
  pose proof (score_performance_bounds page_data).
  pose proof (score_content_floor page_data).
  pose proof (score_content_bounds page_data).
  pose proof (score_technical_bounds page_data).
  pose proof (table_total_bounds page_data).
  rewrite score_seo_table.
  unfold Qle, Qplus, Qmult, inject_Z. cbn [Qnum Qden].
  split; lia.
Qed.



(** ** Counting issues *)

Lemma incr_counted counts key key' :
  Tally.counted (Scorer.incr counts key) key'
  = (Tally.counted counts key' + if String.eqb key' key then 1 else 0)%nat.
Proof.
  unfold Tally.counted, Scorer.incr.
  destruct (String.eqb_spec key' key) as [->|Hne].
  - rewrite lookup_insert_eq. cbn [dict_get]. lia.
  - rewrite lookup_insert_ne by done. lia.
Qed.

Lemma incr_positive counts key key' :
  (forall k n, counts !! k = Some n -> (0 < n)%nat) ->
  forall n, Scorer.incr counts key !! key' = Some n -> (0 < n)%nat.
Proof.
  intros Hpos n. unfold Scorer.incr.
  destruct (decide (key = key')) as [->|Hne].
  - rewrite lookup_insert_eq. intros [= <-]. lia.
  - rewrite lookup_insert_ne by done. apply Hpos.
Qed.

Lemma count_by_severity_fold issues counts sev :
  Tally.counted (fold_left (fun counts i => Scorer.incr counts (Scorer.severity i))
                   issues counts) sev
  = (Tally.counted counts sev + Tally.with_severity sev issues)%nat.
Proof.
  revert counts. induction issues as [|i issues IH]; intros counts.
  - unfold Tally.with_severity. cbn. lia.
  - cbn [fold_left]. rewrite IH, incr_counted.
    unfold Tally.with_severity. cbn [List.filter].
    rewrite (String.eqb_sym sev). destruct (String.eqb _ sev); cbn [length]; lia.
Qed.

Lemma count_by_severity_positive issues counts :
  (forall k n, counts !! k = Some n -> (0 < n)%nat) ->
  forall k n,
    fold_left (fun counts i => Scorer.incr counts (Scorer.severity i)) issues counts
      !! k = Some n -> (0 < n)%nat.
Proof.
  revert counts. induction issues as [|i issues IH]; intros counts Hpos; [done|].
  cbn [fold_left]. apply IH. intros k n. by apply incr_positive.
Qed.

(** X4. [_count_issues_by_severity] stores, for each severity that
    occurs, exactly the number of issues carrying it, and no key for a
    severity that does not occur. *)
Theorem severity_counts_are_exact (issues : list Scorer.Issue) (sev : string) :
  Scorer._count_issues_by_severity issues !! sev
  = (if Tally.with_severity sev issues is O then None
     else Some (Tally.with_severity sev issues)).
Proof.
  pose proof (count_by_severity_fold issues ∅ sev) as Hcount.
  pose proof (count_by_severity_positive issues ∅) as Hpos.
  fold (Scorer._count_issues_by_severity issues) in Hcount, Hpos.
  unfold Tally.counted in Hcount. rewrite lookup_empty in Hcount. cbn in Hcount.
  destruct (Scorer._count_issues_by_severity issues !! sev) as [n|] eqn:Hn;
    cbn in Hcount; rewrite <- Hcount.
  - apply Hpos in Hn; [|by intros k m; rewrite lookup_empty]. by destruct n; [lia|].
  - done.
Qed.

Lemma count_by_type_fold issues counts cat sev :
  Tally.counted2
    (fold_left
       (fun counts i =>
          <[Scorer.category i :=
              Scorer.incr (dict_get (counts !! Scorer.category i) ∅)
                (Scorer.severity i)]> counts)
       issues counts) cat sev
  = (Tally.counted2 counts cat sev + Tally.with_category_severity cat sev issues)%nat.
Proof.
  revert counts. induction issues as [|i issues IH]; intros counts.
  - unfold Tally.with_category_severity. cbn. lia.
  - cbn [fold_left]. rewrite IH. unfold Tally.with_category_severity.
    cbn [List.filter]. unfold Tally.counted2.
    destruct (String.eqb_spec (Scorer.category i) cat) as [<-|Hne].
    + rewrite lookup_insert_eq. cbn [dict_get andb]. rewrite incr_counted.
      rewrite (String.eqb_sym sev). destruct (String.eqb _ sev); cbn [length]; lia.
    + rewrite lookup_insert_ne by done. cbn [andb length]. lia.
Qed.

Lemma count_by_type_keys issues (counts : gmap string (gmap string nat)) cat :
  is_Some
    (fold_left
       (fun counts i =>
          <[Scorer.category i :=
              Scorer.incr (dict_get (counts !! Scorer.category i) ∅)
                (Scorer.severity i)]> counts)
       issues counts !! cat)
  <-> is_Some (counts !! cat) \/ exists i, i ∈ issues /\ Scorer.category i = cat.
Proof.
  revert counts. induction issues as [|i issues IH]; intros counts.
  - cbn. split; [auto|]. intros [?|(i & Hi & _)]; [done|]. by apply elem_of_nil in Hi.
  - cbn [fold_left]. rewrite IH. rewrite lookup_insert_is_Some. split.
    + intros [[Heq|[_ H]]|(j & Hj & <-)].
      * right. exists i. split; [left|done].
      * by left.
      * right. exists j. split; [by right|done].
    + intros [H|(j & Hj & Hcat)].
      * destruct (decide (Scorer.category i = cat)); [by left; left|]. left. by right.
      * apply elem_of_cons in Hj as [->|Hj]; [by left; left|].
        right. by exists j.
Qed.

(** X5. [_count_issues_by_type_and_severity] counts, for each category
    and severity, exactly the issues carrying both (a missing entry read
    as 0), and has an entry for a category exactly when some issue
    belongs to it. *)
Theorem type_and_severity_counts_are_exact
    (issues : list Scorer.Issue) (cat sev : string) :
  Tally.counted2 (Scorer._count_issues_by_type_and_severity issues) cat sev
  = Tally.with_category_severity cat sev issues
  /\ (is_Some (Scorer._count_issues_by_type_and_severity issues !! cat)
      <-> exists i, i ∈ issues /\ Scorer.category i = cat).
Proof.
  split.
  - unfold Scorer._count_issues_by_type_and_severity.
    rewrite count_by_type_fold. unfold Tally.counted2, Tally.counted.
    by rewrite !lookup_empty.
  - unfold Scorer._count_issues_by_type_and_severity.
    rewrite count_by_type_keys, lookup_empty. split; [|auto].
    intros [[? [=]]|H]; done.
Qed.

(** ** Issues and recommendations of a page *)

Lemma issue_below_70_sublist name label advice score :
  map Scorer.category (Closed.issue_below_70 name label advice score) `sublist_of` [name].
Proof.
  unfold Closed.issue_below_70. destruct (score <? 70); cbn.
  - done.
  - by apply sublist_nil_l.
Qed.

(** X6. A page has at most one issue per category, and its issues come
    in the order performance, seo, content, technical. *)
Theorem page_issues_in_fixed_order (page_data : Scorer.PageData) :
  exists page_score,
    Scorer.calculate_page_score page_data = Ok page_score
    /\ map Scorer.category (Scorer.issues page_score)
       `sublist_of` ["performance"; "seo"; "content"; "technical"].
Proof.
  exists (Closed.page_score_of page_data).
  split; [apply calculate_page_score_ok|].
  cbn [Scorer.issues Closed.page_score_of].
  unfold Closed.issues_of, Closed.issues_for. rewrite !map_app.
  change ["performance"; "seo"; "content"; "technical"]
    with (["performance"] ++ ["seo"] ++ ["content"] ++ ["technical"])%list.
  repeat apply sublist_app; apply issue_below_70_sublist.
Qed.

Lemma recommendations_of_issues p s c t :
  Scorer._generate_recommendations (Closed.issues_for p s c t)
  = (Tally.warning_line "performance" p ++ Tally.warning_line "seo" s
     ++ Tally.warning_line "content" c ++ Tally.warning_line "technical" t)%list.
Proof.
  unfold Closed.issues_for, Closed.issue_below_70, Scorer.category_issue,
    Tally.warning_line.
  destruct (Z.ltb_spec p 70), (Z.ltb_spec p 50); try lia;
    destruct (Z.ltb_spec s 70), (Z.ltb_spec s 50); try lia;
    destruct (Z.ltb_spec c 70), (Z.ltb_spec c 50); try lia;
    destruct (Z.ltb_spec t 70), (Z.ltb_spec t 50); try lia; reflexivity.
Qed.

(** X7. The recommendations of a page are one line
    [Address 1 <category> warnings] for each category scoring below 50, in
    the order performance, seo, content, technical; a category scoring 50
    or more earns none, and no line speaks of critical issues. *)
Theorem page_recommendations_are_warnings (page_data : Scorer.PageData) :
  exists page_score,
    Scorer.calculate_page_score page_data = Ok page_score
    /\ Scorer.recommendations page_score
       = (Tally.warning_line "performance" (Scorer._score_performance page_data)
          ++ Tally.warning_line "seo" (Scorer._score_seo page_data)
          ++ Tally.warning_line "content" (Scorer._score_content page_data)
          ++ Tally.warning_line "technical" (Scorer._score_technical page_data))%list.
Proof.
  exists (Closed.page_score_of page_data).
  split; [apply calculate_page_score_ok|].
  apply recommendations_of_issues.
Qed.

(** ** Orders on strings and the top issues *)

Lemma ascii_compare_refl a : Ascii.compare a a = Eq.
Proof. apply N.compare_refl. Qed.

Lemma ascii_compare_lt_trans a b c :
  Ascii.compare a b = Lt -> Ascii.compare b c = Lt -> Ascii.compare a c = Lt.
Proof. unfold Ascii.compare. rewrite !N.compare_lt_iff. apply N.lt_trans. Qed.

Lemma string_compare_refl s : String.compare s s = Eq.
Proof. induction s as [|a s IH]; cbn; [done|]. by rewrite ascii_compare_refl. Qed.

Lemma string_compare_lt_trans s1 s2 s3 :
  String.compare s1 s2 = Lt -> String.compare s2 s3 = Lt -> String.compare s1 s3 = Lt.
Proof.
  revert s2 s3. induction s1 as [|a s1 IH]; intros [|b s2] [|c s3]; cbn; try done.
  destruct (Ascii.compare a b) eqn:Hab; try done;
    destruct (Ascii.compare b c) eqn:Hbc; try done.
  - apply Ascii.compare_eq_iff in Hab as ->. rewrite Hbc.
    apply Ascii.compare_eq_iff in Hbc as ->. apply IH.
  - apply Ascii.compare_eq_iff in Hab as ->. by rewrite Hbc.
  - apply Ascii.compare_eq_iff in Hbc as <-. by rewrite Hab.
  - by rewrite (ascii_compare_lt_trans _ _ _ Hab Hbc).
Qed.

Lemma string_ltb_irrefl s : String.ltb s s = false.
Proof. unfold String.ltb. by rewrite string_compare_refl. Qed.

Lemma string_ltb_trans s1 s2 s3 :
  String.ltb s1 s2 = true -> String.ltb s2 s3 = true -> String.ltb s1 s3 = true.
Proof.
  unfold String.ltb. intros H12 H23.
  destruct (String.compare s1 s2) eqn:E12; try done.
  destruct (String.compare s2 s3) eqn:E23; try done.
  by rewrite (string_compare_lt_trans _ _ _ E12 E23).
Qed.

Lemma string_ltb_total s1 s2 :
  String.ltb s1 s2 = false -> s1 = s2 \/ String.ltb s2 s1 = true.
Proof.
  unfold String.ltb. rewrite (String.compare_antisym s2 s1).
  destruct (String.compare s1 s2) eqn:E; cbn; try done; auto.
  left. by apply String.compare_eq_iff.
Qed.

Lemma string_ltb_asym s1 s2 : String.ltb s1 s2 = true -> String.ltb s2 s1 = false.
Proof.
  unfold String.ltb. rewrite (String.compare_antisym s2 s1).
  by destruct (String.compare s1 s2).
Qed.

(** The keys of [_get_top_issues] are totally ordered. *)
Lemma key_ltb_asym a b : Scorer.key_ltb a b = true -> Scorer.key_ltb b a = false.
Proof.
  unfold Scorer.key_ltb. destruct a as [z1 s1], b as [z2 s2]. cbn [fst snd].
  intros [H|[H1 H2]%andb_true_iff]%orb_true_iff.
  - apply orb_false_iff. split; [lia|]. apply andb_false_iff. left. lia.
  - apply orb_false_iff. split; [lia|]. apply andb_false_iff. right.
    by apply string_ltb_asym.
Qed.

Lemma key_ltb_irrefl a : Scorer.key_ltb a a = false.
Proof.
  unfold Scorer.key_ltb. rewrite Z.ltb_irrefl, string_ltb_irrefl.
  by rewrite andb_false_r.
Qed.

Lemma key_le_trans a b c :
  Scorer.key_ltb b a = false -> Scorer.key_ltb c b = false ->
  Scorer.key_ltb c a = false.
Proof.
  unfold Scorer.key_ltb. destruct a as [z1 s1], b as [z2 s2], c as [z3 s3].
  cbn [fst snd]. intros [H1 H1']%orb_false_iff [H2 H2']%orb_false_iff.
  apply orb_false_iff. apply Z.ltb_ge in H1, H2. split; [lia|].
  destruct (Z.eqb_spec z3 z1) as [->|Hne]; [|done]. cbn [andb].
  assert (z2 = z1) as -> by lia. rewrite Z.eqb_refl in H1', H2'. cbn [andb] in *.
  destruct (String.ltb s3 s1) eqn:H31; [|done].
  apply string_ltb_total in H1' as [->|H1']; [congruence|].
  rewrite (string_ltb_trans _ _ _ H31 H1') in H2'. done.
Qed.

Section SortMore.
Context {A K : Type} (ltb : K -> K -> bool) (key : A -> K) (reverse : bool).

Lemma py_sorted_length l : length (py_sorted ltb key reverse l) = length l.
Proof. apply Permutation_length, py_sorted_perm. Qed.

(** Stability: elements that the comparison never puts one before the
    other keep their input order. *)
Lemma sort_insert_filter (p : A -> bool) x l :
  (forall y, p x = true -> p y = true -> goes_before ltb key reverse y x = false) ->
  List.filter p (sort_insert ltb key reverse x l)
  = if p x then x :: List.filter p l else List.filter p l.
Proof.
  intros Hp. induction l as [|y l IH]; cbn [sort_insert List.filter].
  - by destruct (p x).
  - destruct (goes_before ltb key reverse y x) eqn:Hgo; cbn [List.filter].
    + rewrite IH. destruct (p x) eqn:Hx, (p y) eqn:Hy; try done.
      rewrite Hp in Hgo; done.
    + done.
Qed.

Lemma py_sorted_stable (p : A -> bool) l :
  (forall x y, p x = true -> p y = true -> goes_before ltb key reverse y x = false) ->
  List.filter p (py_sorted ltb key reverse l) = List.filter p l.
Proof.
  intros Hp. induction l as [|x l IH]; cbn [py_sorted fold_right List.filter]; [done|].
  fold (py_sorted ltb key reverse l).
  rewrite sort_insert_filter by (intros y; apply Hp). by rewrite IH.
Qed.
End SortMore.

Lemma same_key_eq k i : Tally.same_key k i = true -> Scorer.issue_key i = k.
Proof.
  unfold Tally.same_key. destruct k as [z s], (Scorer.issue_key i) as [z' s'].
  cbn [fst snd]. intros [H1 H2]%andb_true_iff.
  apply Z.eqb_eq in H1. apply String.eqb_eq in H2. congruence.
Qed.

Lemma filter_take_prefix {A} (p : A -> bool) n (l : list A) :
  List.filter p (take n l)
  = take (length (List.filter p (take n l))) (List.filter p l).
Proof.
  revert n. induction l as [|x l IH]; intros [|n]; cbn [take List.filter]; try done.
  destruct (p x); cbn [length take]; by rewrite <- IH.
Qed.

(** X8. [_get_top_issues] returns [min(limit, len(issues))] of the given
    issues, ordered by severity rank and then category; issues with the
    same severity and category stay in the order they were given. *)
Theorem top_issues_sorted_stable_capped (issues : list Scorer.Issue) (limit : nat) :
  let top := Scorer._get_top_issues issues limit in
  length top = Nat.min limit (length issues)
  /\ top ⊆+ issues
  /\ StronglySorted Tally.key_le top
  /\ (forall k,
        List.filter (Tally.same_key k) top
        = take (length (List.filter (Tally.same_key k) top))
            (List.filter (Tally.same_key k) issues)).
Proof.
  unfold Scorer._get_top_issues. cbv zeta.
  set (sorted := py_sorted Scorer.key_ltb Scorer.issue_key false issues).
  assert (forall k, List.filter (Tally.same_key k) sorted
                    = List.filter (Tally.same_key k) issues) as Hstable.
  { intros k. apply py_sorted_stable. intros x y Hx Hy.
    apply same_key_eq in Hx, Hy. unfold goes_before. rewrite Hx, Hy.
    apply key_ltb_irrefl. }
  assert (sorted ≡ₚ issues) as Hperm by apply py_sorted_perm.
  split; [|split; [|split]].
  - rewrite length_take. by rewrite (Permutation_length Hperm).
  - rewrite <- Hperm. apply sublist_submseteq, sublist_take.
  - apply StronglySorted_take.
    apply py_sorted_sorted; unfold Tally.key_le, goes_before.
    + intros a b c Hab Hbc. by eapply key_le_trans.
    + intros y x. apply key_ltb_asym.
    + done.
  - intros k. rewrite <- Hstable. apply filter_take_prefix.
Qed.

(** ** The site score *)

(** Adding the scores of one page to the running totals. *)
Lemma add_scores_lookup (l : list (string * Z)) (totals : gmap string Q) c :
  NoDup l.*1 ->
  let result :=
    fold_left
      (fun totals '(category, score) =>
         <[category := (dict_get (totals !! category) 0 + inject_Z score)%Q]> totals)
      l totals in
  (forall s, (c, s) ∈ l ->
     result !! c = Some (dict_get (totals !! c) 0 + inject_Z s)%Q)
  /\ (c ∉ l.*1 -> result !! c = totals !! c).
Proof.
  revert totals. induction l as [|[c0 s0] l IH]; intros totals Hnd; cbn zeta.
  - split; [by intros s ?%elem_of_nil|done].
  - apply NoDup_cons in Hnd as [Hc0 Hnd]. cbn [fold_left].
    destruct (IH (<[c0 := (dict_get (totals !! c0) 0 + inject_Z s0)%Q]> totals) Hnd)
      as [IHin IHout].
    split.
    + intros s [[= -> ->]|Hin]%elem_of_cons.
      * rewrite IHout by done. by rewrite lookup_insert_eq.
      * rewrite (IHin s Hin). rewrite lookup_insert_ne; [done|].
        intros ->. apply Hc0. apply list_elem_of_fmap. by exists (c, s).
    + intros Hout. cbn in Hout. apply not_elem_of_cons in Hout as [Hne Hout].
      rewrite IHout by done. by rewrite lookup_insert_ne.
Qed.

Lemma add_page_lookup (scores : gmap string Z) (totals : gmap string Q) c :
  fold_left
    (fun totals '(category, score) =>
       <[category := (dict_get (totals !! category) 0 + inject_Z score)%Q]> totals)
    (map_to_list scores) totals !! c
  = match scores !! c with
    | Some s => Some (dict_get (totals !! c) 0 + inject_Z s)%Q
    | None => totals !! c
    end.
Proof.
  destruct (add_scores_lookup (map_to_list scores) totals c
              (NoDup_fst_map_to_list scores)) as [Hin Hout].
  destruct (scores !! c) as [s|] eqn:Hs.
  - apply Hin. by apply elem_of_map_to_list.
  - apply Hout. intros [[c' s] [-> Hcs]]%list_elem_of_fmap.
    apply elem_of_map_to_list in Hcs. cbn in Hs. congruence.
Qed.

Lemma scorer_of_scores page name :
  Closed.scores_of page !! name = (fun score => score page) <$> SiteClosed.scorer_of name.
Proof.
  unfold SiteClosed.scorer_of, Closed.scores_of.
  repeat match goal with
         | |- context [String.eqb name ?k] =>
             destruct (String.eqb_spec name k) as [->|?]; [reflexivity|]
         end.
  by rewrite !lookup_insert_ne, lookup_empty by done.
Qed.

Lemma totals_of_lookup pages totals name :
  SiteClosed.totals_of pages totals !! name
  = match SiteClosed.scorer_of name, pages with
    | Some score, _ :: _ =>
        Some (fold_left (fun total page => (total + inject_Z (score page))%Q)
                pages (dict_get (totals !! name) 0%Q))
    | _, _ => totals !! name
    end.
Proof.
  unfold SiteClosed.totals_of.
  revert totals. induction pages as [|page pages IH]; intros totals.
  - by destruct (SiteClosed.scorer_of name).
  - cbn [fold_left]. rewrite IH. rewrite add_page_lookup, scorer_of_scores.
    destruct (SiteClosed.scorer_of name) as [score|]; cbn; [|done].
    destruct pages; cbn; done.
Qed.

Lemma site_first_loop_fold pages ps totals :
  fold_left
    (fun (st : list Scorer.PageScoreEntry * gmap string Q) page =>
       ((st.1 ++ [SiteClosed.entry_of page])%list,
        SiteClosed.totals_of [page] st.2))
    pages (ps, totals)
  = ((ps ++ map SiteClosed.entry_of pages)%list, SiteClosed.totals_of pages totals).
Proof.
  revert ps totals. induction pages as [|page pages IH]; intros ps totals.
  - cbn. by rewrite app_nil_r.
  - cbn [fold_left]. rewrite IH. cbn [fst snd map]. by rewrite <- app_assoc.
Qed.

Lemma site_first_loop pages :
  for_each pages
    (fun '(page_scores, category_totals) page =>
       page_score ← Scorer.calculate_page_score page;
       let page_scores :=
         List.app page_scores
           [{| Scorer.entry_url := dict_get (Scorer.url page) "";
               Scorer.entry_score := Scorer.overall_score page_score;
               Scorer.entry_category_scores := Scorer.category_scores page_score |}] in
       let category_totals : gmap string Q :=
         fold_left
           (fun totals '(category, score) =>
              <[category :=
                  (dict_get (totals !! category) 0 + inject_Z score)%Q]> totals)
           (map_to_list (Scorer.category_scores page_score)) category_totals in
       Ok (page_scores, category_totals))
    ([], ∅)
  = Ok (map SiteClosed.entry_of pages, SiteClosed.totals_of pages ∅).
Proof.
  rewrite (for_each_pure
             (fun st page =>
                ((st.1 ++ [SiteClosed.entry_of page])%list,
                 SiteClosed.totals_of [page] st.2))).
  - by rewrite site_first_loop_fold.
  - intros [ps totals] page _. by rewrite calculate_page_score_ok.
Qed.

(** The whole result of [calculate_site_score] on a site with pages. *)
Lemma calculate_site_score_closed pages :
  pages <> [] ->
  Scorer.calculate_site_score pages
  = Ok (let category_scores :=
          (fun total => py_round (total / inject_Z (len pages)) 1)
            <$> SiteClosed.totals_of pages ∅ in
        {| Scorer.site_overall_score :=
             py_round (Scorer._calculate_overall_score category_scores) 1;
           Scorer.site_category_scores := category_scores;
           Scorer.total_pages := len pages;
           Scorer.page_scores := map SiteClosed.entry_of pages;
           Scorer.site_wide_issues :=
             Some (take Scorer.site_wide_issues_limit (Closed.all_issues_of pages));
           Scorer.site_issue_counts :=
             Some (Scorer._count_issues_by_type_and_severity
                     (Closed.all_issues_of pages));
           Scorer.top_issues :=
             Some (Scorer._get_top_issues (Closed.all_issues_of pages)
                     Scorer.top_issues_limit) |}).
Proof.
  intros Hpages. unfold Scorer.calculate_site_score.
  destruct pages as [|page0 pages0]; [done|]. cbn [truthy_list negb].
  set (pages := page0 :: pages0).
  rewrite site_first_loop. cbn [mbind result_bind].
  match goal with
  | |- context [for_each pages ?body (@nil Scorer.Issue)] =>
      rewrite (for_each_pure
                 (fun all page =>
                    (all ++ map (Closed.tag (dict_get (Scorer.url page) ""))
                              (Closed.issues_of page))%list)
                 body pages [])
  end.
  2:{ intros all page _. rewrite calculate_page_score_ok. cbn [mbind result_bind].
      f_equal. cbn [Scorer.issues Closed.page_score_of].
      apply (fold_left_snoc (Closed.tag (dict_get (Scorer.url page) ""))). }
  rewrite fold_left_extend. cbn [app mbind result_bind]. reflexivity.
Qed.

(** ** Rounding *)

Lemma round_half_even_floor q :
  round_half_even q = Qfloor q \/ round_half_even q = Qfloor q + 1.
Proof.
  unfold round_half_even. destruct q as [n d]. cbn [Qnum Qden Qfloor].
  repeat case_match; auto.
Qed.

Lemma round_half_even_lower (a : Z) q : (inject_Z a <= q)%Q -> a <= round_half_even q.
Proof.
  intros Hq. apply Qfloor_resp_le in Hq. rewrite Qfloor_Z in Hq.
  destruct (round_half_even_floor q) as [-> | ->]; lia.
Qed.

Lemma round_half_even_upper (b : Z) q : (q <= inject_Z b)%Q -> round_half_even q <= b.
Proof.
  intros Hq. pose proof (Qfloor_resp_le _ _ Hq) as Hfloor. rewrite Qfloor_Z in Hfloor.
  destruct (Z.eq_dec (Qfloor q) b) as [Heq|Hne].
  - assert (q == inject_Z b)%Q as Hqb.
    { apply Qle_antisym; [done|]. rewrite <- Heq. apply Qfloor_le. }
    unfold round_half_even.
    replace (Qnum q / Z.pos (Qden q)) with (Qfloor q) by (by destruct q).
    rewrite Heq.
    assert ((q - inject_Z b ?= 1 # 2) = Lt)%Q as ->; [|lia].
    apply Qlt_alt. rewrite Hqb. unfold Qminus. rewrite Qplus_opp_r. done.
  - destruct (round_half_even_floor q) as [-> | ->]; lia.
Qed.

Lemma py_round_range (lo hi : Z) q :
  (inject_Z lo <= q <= inject_Z hi)%Q ->
  (inject_Z lo <= py_round q 1 <= inject_Z hi)%Q.
Proof.
  intros [Hlo Hhi]. unfold py_round.
  change (inject_Z (10 ^ Z.of_nat 1)) with (inject_Z 10).
  assert (10 * lo <= round_half_even (q * inject_Z 10)) as H1.
  { apply round_half_even_lower. rewrite inject_Z_mult, Qmult_comm.
    by apply Qmult_le_compat_r. }
  assert (round_half_even (q * inject_Z 10) <= 10 * hi) as H2.
  { apply round_half_even_upper. rewrite inject_Z_mult, (Qmult_comm (inject_Z 10)).
    by apply Qmult_le_compat_r. }
  set (z := round_half_even _) in *.
  unfold Qle, Qdiv, Qmult, Qinv, inject_Z. cbn. lia.
Qed.

Lemma category_total_sum score pages :
  (SiteClosed.category_total score pages
   == inject_Z (fold_left (fun total page => (total + score page)%Z) pages 0%Z))%Q.
Proof.
  unfold SiteClosed.category_total.
  change 0%Q with (inject_Z 0) at 1. generalize 0%Z as acc.
  induction pages as [|page pages IH]; intros acc; cbn [fold_left]; [done|].
  rewrite <- IH.
  assert (forall a b : Q, a == b ->
            fold_left (fun total page => total + inject_Z (score page)) pages a
            == fold_left (fun total page => total + inject_Z (score page)) pages b)%Q
    as Hproper.
  { clear. induction pages as [|page pages IH]; intros a b Hab; cbn; [done|].
    apply IH. by rewrite Hab. }
  apply Hproper. by rewrite inject_Z_plus.
Qed.

Lemma sum_range (score : Scorer.PageData -> Z) pages lo hi acc :
  (forall page, lo <= score page <= hi) ->
  acc + lo * len pages
  <= fold_left (fun total page => total + score page) pages acc
  <= acc + hi * len pages.
Proof.
  intros Hscore. revert acc. induction pages as [|page pages IH]; intros acc.
  - unfold len. cbn. lia.
  - cbn [fold_left]. specialize (IH (acc + score page)). specialize (Hscore page).
    unfold len in *. cbn [length]. lia.
Qed.

Lemma category_mean_range score pages lo hi :
  pages <> [] ->
  (forall page, lo <= score page <= hi) ->
  (inject_Z lo <= SiteClosed.category_mean score pages <= inject_Z hi)%Q.
Proof.
  intros Hpages Hscore. unfold SiteClosed.category_mean.
  apply py_round_range. rewrite category_total_sum.
  pose proof (sum_range score pages lo hi 0 Hscore) as Hsum.
  assert (0 < len pages) as Hlen by (destruct pages; [done|unfold len; cbn; lia]).
  set (total := fold_left _ pages 0) in *. set (n := len pages) in *.
  destruct n as [|n|n]; try lia.
  unfold Qle, Qdiv, Qmult, Qinv, inject_Z. cbn. split; nia.
Qed.

Lemma site_category_lookup pages name :
  pages <> [] ->
  ((fun total => py_round (total / inject_Z (len pages)) 1)
     <$> SiteClosed.totals_of pages ∅) !! name
  = (fun score => SiteClosed.category_mean score pages) <$> SiteClosed.scorer_of name.
Proof.
  intros Hpages. rewrite lookup_fmap, totals_of_lookup.
  destruct (SiteClosed.scorer_of name) as [score|]; [|by rewrite lookup_empty].
  destruct pages; [done|]. by rewrite lookup_empty.
Qed.



(** X10. For a site with pages, every category score of the site and the
    overall score of the site lie between 0 and 100. *)
Theorem site_scores_in_range (pages : list Scorer.PageData) :
  pages <> [] ->
  exists site,
    Scorer.calculate_site_score pages = Ok site
    /\ (forall name q,
          Scorer.site_category_scores site !! name = Some q -> (0 <= q <= 100)%Q)
    /\ (0 <= Scorer.site_overall_score site <= 100)%Q.
Proof.
  intros Hpages. eexists. split; [by apply calculate_site_score_closed|].
  cbn [Scorer.site_category_scores Scorer.site_overall_score].
  assert (forall name q,
            ((fun total => py_round (total / inject_Z (len pages)) 1)
               <$> SiteClosed.totals_of pages ∅) !! name = Some q ->
            (0 <= q <= 100)%Q) as Hcat.
  { intros name q. rewrite site_category_lookup by done.
    unfold SiteClosed.scorer_of.
    repeat case_match; cbn; intros [= <-];
      apply (category_mean_range _ pages 0 100 Hpages); intros page.
    - pose proof (score_performance_bounds page). lia.
    - pose proof (table_total_bounds page). rewrite score_seo_table. lia.
    - pose proof (score_content_bounds page). lia.
    - pose proof (score_technical_bounds page). lia. }
  split; [exact Hcat|].
  apply (py_round_range 0 100).
  rewrite overall_score_sum.
  apply weighted_mean_between;
    match goal with
    | |- context [?m !! ?k] => destruct (m !! k) as [q|] eqn:Hq
    end; cbn [dict_get]; try (by eapply Hcat); done.
Qed.

Lemma site_scores_in_range_witness :
  exists site,
    Scorer.calculate_site_score [Samples.worst_page] = Ok site
    /\ (0 <= Scorer.site_overall_score site <= 100)%Q.
Proof.
  destruct (site_scores_in_range [Samples.worst_page])
    as (site & Hsite & _ & Hoverall); [discriminate|].
  by exists site.
Defined.

(** ** More on the orchestrator *)

(** The closed form of [analyze_page], with what the scoring block
    stores spelled out. *)
Lemma analyze_page_scored self page_data html_content page_url response_headers :
  let updated :=
    Orchestrator.update page_data
      (Stages.results_of self html_content page_url response_headers) in
  Orchestrator.analyze_page self page_data html_content page_url response_headers
  = Ok {| Orchestrator.page := updated;
          Orchestrator.comprehensive_seo_score :=
            if Orchestrator.ff_comprehensive_scoring (Orchestrator.feature_flags self)
            then match Orchestrator.an_scorer (Orchestrator._analyzers self) with
                 | Some scorer =>
                     match scorer updated with
                     | Ok page_score => Some (inl page_score)
                     | Raise e => Some (inr e)
                     end
                 | None => None
                 end
            else None |}.
Proof.
  cbv zeta.
  destruct (analyze_page_ok self page_data html_content page_url response_headers)
    as (score & Hout & _).
  rewrite Hout. f_equal. f_equal.
  unfold Orchestrator.analyze_page in Hout. cbv zeta in Hout.
  rewrite !run_analyzer_ok in Hout. cbn [mbind result_bind] in Hout.
  rewrite !run_analyzer_ok in Hout. cbn [mbind result_bind] in Hout.
  rewrite !run_analyzer_ok in Hout. cbn [mbind result_bind] in Hout.
  rewrite !run_analyzer_ok in Hout. cbn [mbind result_bind] in Hout.
  rewrite !run_analyzer_ok in Hout. cbn [mbind result_bind] in Hout.
  match type of Hout with
  | context [Orchestrator.update page_data ?r] =>
      replace r
        with (Stages.results_of self html_content page_url response_headers) in Hout
  end.
  2:{ unfold Stages.results_of. cbv zeta.
      repeat match goal with
             | |- context [Stages.outcome ?e ?a ?m] => destruct (Stages.outcome e a m)
             end; reflexivity. }
  destruct (Orchestrator.ff_comprehensive_scoring _); [|by injection Hout].
  destruct (Orchestrator.an_scorer _) as [scorer|]; [|by injection Hout].
  destruct (scorer _); cbn in Hout; by injection Hout.
Qed.

(** X11. [analyze_page] returns whatever the analyzers and the scorer do,
    raising included.  The page it returns is the given one with each
    section replaced by what its block stored; the score key is missing
    exactly when scoring is off or the scorer is missing, holds the page
    score when the scorer returns and the marker [{'error': msg}] when
    it raises. *)
Theorem analyze_page_never_raises
    (self : Orchestrator.t) (page_data : Scorer.PageData)
    (html_content page_url : string) (response_headers : Orchestrator.Headers) :
  exists out,
    Orchestrator.analyze_page self page_data html_content page_url response_headers
    = Ok out
    /\ Orchestrator.page out
       = Orchestrator.update page_data
           (Stages.results_of self html_content page_url response_headers)
    /\ (Orchestrator.comprehensive_seo_score out = None
        <-> Orchestrator.ff_comprehensive_scoring (Orchestrator.feature_flags self)
            = false
            \/ Orchestrator.an_scorer (Orchestrator._analyzers self) = None)
    /\ (forall scorer,
          Orchestrator.ff_comprehensive_scoring (Orchestrator.feature_flags self)
          = true ->
          Orchestrator.an_scorer (Orchestrator._analyzers self) = Some scorer ->
          Orchestrator.comprehensive_seo_score out
          = match scorer (Orchestrator.page out) with
            | Ok page_score => Some (inl page_score)
            | Raise msg => Some (inr msg)
            end).
Proof.
  eexists. split; [apply analyze_page_scored|].
  cbn [Orchestrator.page Orchestrator.comprehensive_seo_score].
  split; [done|]. split.
  - destruct (Orchestrator.ff_comprehensive_scoring _); [|by split; auto].
    destruct (Orchestrator.an_scorer _) as [scorer|]; [|by split; auto].
    destruct (scorer _); split; try done; by intros [|].
  - intros scorer -> ->. done.
Qed.


(** X13. Unless the configuration sets [use_playwright_for_cwv], the
    Core Web Vitals analyzer is never called: the [core_web_vitals]
    section of the page is left as it was given, whatever that analyzer
    would do. *)
Theorem cwv_is_off_by_default
    (analysis_config : option Orchestrator.Config) (modules : Orchestrator.Analyzers)
    (page_data : Scorer.PageData) (html_content page_url : string)
    (response_headers : Orchestrator.Headers) :
  (forall config, analysis_config = Some config ->
     dict_get (Orchestrator.use_playwright_for_cwv config) false = false) ->
  exists out,
    Orchestrator.analyze_page (Orchestrator.init analysis_config modules)
      page_data html_content page_url response_headers = Ok out
    /\ Scorer.core_web_vitals (Orchestrator.page out)
       = Scorer.core_web_vitals page_data.
Proof.
  intros Hoff. eexists. split; [apply analyze_page_scored|].
  cbn [Orchestrator.page]. unfold Stages.results_of, Orchestrator.init.
  cbn [Orchestrator.update Scorer.core_web_vitals Orchestrator.res_core_web_vitals
       Orchestrator.feature_flags Orchestrator.ff_core_web_vitals
       Orchestrator.ff_use_playwright_for_cwv].
  destruct analysis_config as [config|].
  - rewrite (Hoff config eq_refl), andb_false_r. done.
  - rewrite andb_false_r. done.
Qed.

Lemma cwv_is_off_by_default_witness :
  exists out,
    Orchestrator.analyze_page
      (Orchestrator.init None (Orchestrator._analyzers Stages.sample_orchestrator))
      Samples.worst_page "<html></html>" "https://example.com/" None = Ok out
    /\ Scorer.core_web_vitals (Orchestrator.page out)
       = Scorer.core_web_vitals Samples.worst_page.
Proof.
  apply cwv_is_off_by_default. intros config Hconfig. discriminate Hconfig.
Defined.

(** ** What a failed section costs *)

(** X14. A security analyzer that raises costs the page 20 technical
    points: its marker has no [is_https] entry, which the technical
    scorer reads as a page not served over HTTPS. *)
Theorem failed_security_costs_20 (page_data : Scorer.PageData) (msg : string) :
  Scorer.security_analysis page_data = Orchestrator.sec_error_marker msg ->
  Scorer._score_technical page_data
  = Scorer._score_technical (Sections.without_security page_data) - 20.
Proof.
  intros Hsec. unfold Scorer._score_technical, Sections.without_security.
  cbn [Orchestrator.update Scorer.security_analysis Scorer.broken_links
       Scorer.status_code Orchestrator.set_security_analysis
       Orchestrator.res_security_analysis Orchestrator.no_results dict_get].
  rewrite Hsec. cbn.
  pose proof (len_nonneg (dict_get (Scorer.broken_links page_data) [])).
  fold (len (dict_get (Scorer.broken_links page_data) [])).
  repeat case_match; lia.
Qed.

Lemma failed_security_costs_20_witness :
  Scorer._score_technical
    (Orchestrator.update Samples.blank_page
       (Orchestrator.set_security_analysis Orchestrator.no_results
          (Orchestrator.sec_error_marker "ConnectionError"))) = 80
  /\ Scorer._score_technical Samples.blank_page = 100.
Proof.
  split; [|reflexivity].
  rewrite (failed_security_costs_20 _ "ConnectionError"); reflexivity.
Defined.

(** X15. The markers of the render, performance and indexability
    analyzers cost nothing: the performance and SEO scores are those of
    the page without the failed section. *)
Theorem other_failed_sections_cost_nothing (page_data : Scorer.PageData) (msg : string) :
  (Scorer.render_loading_analysis page_data = Orchestrator.rl_error_marker msg ->
   Scorer._score_performance page_data
   = Scorer._score_performance (Sections.without_render_loading page_data))
  /\ (Scorer.advanced_performance page_data = Orchestrator.ap_error_marker msg ->
      Scorer._score_performance page_data
      = Scorer._score_performance (Sections.without_advanced_performance page_data))
  /\ (Scorer.indexability_analysis page_data = Orchestrator.ix_error_marker msg ->
      Scorer._score_seo page_data
      = Scorer._score_seo (Sections.without_indexability page_data)).
Proof.
  split; [|split]; intros Hmarker.
  - unfold Scorer._score_performance, Sections.without_render_loading.
    cbn [Orchestrator.update Scorer.core_web_vitals Scorer.render_loading_analysis
         Scorer.advanced_performance Orchestrator.set_render_loading_analysis
         Orchestrator.res_core_web_vitals Orchestrator.res_render_loading_analysis
         Orchestrator.res_advanced_performance Orchestrator.no_results dict_get].
    rewrite Hmarker. reflexivity.
  - unfold Scorer._score_performance, Sections.without_advanced_performance.
    cbn [Orchestrator.update Scorer.core_web_vitals Scorer.render_loading_analysis
         Scorer.advanced_performance Orchestrator.set_advanced_performance
         Orchestrator.res_core_web_vitals Orchestrator.res_render_loading_analysis
         Orchestrator.res_advanced_performance Orchestrator.no_results dict_get].
    rewrite Hmarker. reflexivity.
  - rewrite !score_seo_table. unfold SeoTable.table_total, SeoTable.h1_total,
      SeoTable.missing_alt, SeoTable.image_total, Sections.without_indexability.
    cbn [Orchestrator.update Scorer.title Scorer.meta_description Scorer.h1_tags
         Scorer.images Scorer.canonical_url Scorer.indexability_analysis
         Orchestrator.set_indexability_analysis
         Orchestrator.res_indexability_analysis Orchestrator.no_results dict_get].
    rewrite Hmarker. reflexivity.
Qed.

Lemma other_failed_sections_cost_nothing_witness :
  Scorer._score_seo
    (Orchestrator.update Samples.blank_page
       (Orchestrator.set_indexability_analysis Orchestrator.no_results
          (Orchestrator.ix_error_marker "Timeout"))) = 60.
Proof.
  destruct (other_failed_sections_cost_nothing
              (Orchestrator.update Samples.blank_page
                 (Orchestrator.set_indexability_analysis Orchestrator.no_results
                    (Orchestrator.ix_error_marker "Timeout"))) "Timeout")
    as (_ & _ & Hseo).
  rewrite Hseo; reflexivity.
Defined.

(** ** From measured vitals to the performance score *)

Lemma cwv_deduction_mono score score' rating rating' poor needs :
  0 <= needs <= poor ->
  score <= score' ->
  (rating = rating' \/ rating' = "good"
   \/ (rating = "poor" /\ rating' = "needs-improvement")) ->
  Scorer.cwv_deduction score rating poor needs
  <= Scorer.cwv_deduction score' rating' poor needs.
Proof.
  intros Hpn Hscore Hrating. unfold Scorer.cwv_deduction.
  destruct Hrating as [->|[->|[-> ->]]]; cbn; repeat case_match; lia.
Qed.

Lemma rating_worsens (t1 t2 x y : Q) :
  (x <= y)%Q ->
  let rate v :=
    if Qleb v t1 then "good" else if Qleb v t2 then "needs-improvement" else "poor" in
  (t1 <= t2)%Q ->
  rate y = rate x \/ rate x = "good"
  \/ (rate y = "poor" /\ rate x = "needs-improvement").
Proof.
  intros Hxy rate Ht. subst rate. cbn beta.
  destruct (Qleb x t1) eqn:Hx1; [auto|].
  destruct (Qleb y t1) eqn:Hy1.
  { apply Qleb_le in Hy1. assert (Qleb x t1 = true) as Hx; [|congruence].
    apply Qleb_le. by eapply Qle_trans. }
  destruct (Qleb x t2) eqn:Hx2; destruct (Qleb y t2) eqn:Hy2; auto.
  apply Qleb_le in Hy2. assert (Qleb x t2 = true) as Hx; [|congruence].
  apply Qleb_le. by eapply Qle_trans.
Qed.

Lemma lcp_rating_worsens a b :
  Sections.measured_le a b ->
  let r1 := dict_get (CoreWebVitals._score_lcp a) "" in
  let r2 := dict_get (CoreWebVitals._score_lcp b) "" in
  r2 = r1 \/ r1 = "good" \/ (r2 = "poor" /\ r1 = "needs-improvement").
Proof.
  destruct a as [x|], b as [y|]; cbn; try done; [|auto].
  intros Hxy.
  destruct (rating_worsens (25 # 10) 4 x y Hxy) as [H|[H|[H1 H2]]]; [done|..];
    repeat case_match; cbn; auto; try discriminate.
Qed.

Lemma inp_rating_worsens a b :
  Sections.measured_le a b ->
  let r1 := dict_get (CoreWebVitals._score_inp a) "" in
  let r2 := dict_get (CoreWebVitals._score_inp b) "" in
  r2 = r1 \/ r1 = "good" \/ (r2 = "poor" /\ r1 = "needs-improvement").
Proof.
  destruct a as [x|], b as [y|]; cbn; try done; [|auto].
  intros Hxy.
  destruct (rating_worsens 200 500 x y Hxy) as [H|[H|[H1 H2]]]; [done|..];
    repeat case_match; cbn; auto; try discriminate.
Qed.

Lemma cls_rating_worsens x y :
  (x <= y)%Q ->
  let r1 := CoreWebVitals._score_cls x in
  let r2 := CoreWebVitals._score_cls y in
  r2 = r1 \/ r1 = "good" \/ (r2 = "poor" /\ r1 = "needs-improvement").
Proof.
  intros Hxy. apply (rating_worsens (1 # 10) (25 # 100) x y Hxy). done.
Qed.

(** X16. With everything else on the page equal, vitals that are no
    better (larger LCP, CLS and INP) never give a higher performance
    score. *)
Theorem worse_vitals_never_score_higher
    (page_data : Scorer.PageData) (lcp lcp' : option Q) (cls cls' : Q)
    (inp inp' : option Q) :
  Sections.measured_le lcp lcp' -> (cls <= cls')%Q -> Sections.measured_le inp inp' ->
  Scorer._score_performance
    (Sections.with_cwv page_data (Some (CoreWebVitals.rated lcp' cls' inp')))
  <= Scorer._score_performance
       (Sections.with_cwv page_data (Some (CoreWebVitals.rated lcp cls inp))).
Proof.
  intros Hlcp Hcls Hinp.
  unfold Scorer._score_performance, Sections.with_cwv, CoreWebVitals.rated.
  cbn [Orchestrator.update Scorer.core_web_vitals Scorer.render_loading_analysis
       Scorer.advanced_performance Orchestrator.set_core_web_vitals
       Orchestrator.res_core_web_vitals Orchestrator.res_render_loading_analysis
       Orchestrator.res_advanced_performance Orchestrator.no_results
       Scorer.lcp_score Scorer.cls_score Scorer.inp_score dict_get].
  cbv zeta.
  set (s1' := Scorer.cwv_deduction _ (dict_get (CoreWebVitals._score_inp inp') "") 10 5).
  set (s1 := Scorer.cwv_deduction _ (dict_get (CoreWebVitals._score_inp inp) "") 10 5).
  assert (s1' <= s1) as H1.
  { subst s1 s1'.
    apply cwv_deduction_mono; [lia| |by apply inp_rating_worsens].
    apply cwv_deduction_mono; [lia| |by apply (cls_rating_worsens cls cls')].
    apply cwv_deduction_mono; [lia|lia|by apply lcp_rating_worsens]. }
  clearbody s1 s1'.
  repeat case_match; lia.
Qed.

Lemma worse_vitals_never_score_higher_witness :
  Scorer._score_performance
    (Sections.with_cwv Samples.blank_page
       (Some (CoreWebVitals.rated (Some (45 # 10)%Q) (3 # 10)%Q None)))
  <= Scorer._score_performance
       (Sections.with_cwv Samples.blank_page
          (Some (CoreWebVitals.rated (Some (3 # 1)%Q) (5 # 100)%Q None))).
Proof.
  apply worse_vitals_never_score_higher; cbn; try done; by apply Qleb_le.
Defined.

(** ** The basic SEO score *)

Lemma alt_share_points (a b : Z) :
  0 <= a <= b -> 0 < b ->
  0 <= Qfloor (15 * (inject_Z a / inject_Z b)) <= 15
  /\ (a = b -> Qfloor (15 * (inject_Z a / inject_Z b)) = 15).
Proof.
  intros Hab Hb.
  assert (inject_Z 0 <= 15 * (inject_Z a / inject_Z b) <= inject_Z 15)%Q as [H0 H15].
  { destruct b as [|b|b]; try lia.
    unfold Qle, Qdiv, Qmult, Qinv, inject_Z. cbn. split; nia. }
  apply Qfloor_resp_le in H0, H15. rewrite Qfloor_Z in H0, H15.
  split; [lia|]. intros ->.
  assert (15 * (inject_Z b / inject_Z b) == inject_Z 15)%Q as ->.
  { destruct b as [|b|b]; try lia.
    unfold Qeq, Qdiv, Qmult, Qinv, inject_Z. cbn. nia. }
  apply Qfloor_Z.
Qed.

(** X17. The basic SEO score is between 0 and 85: the 15 points the
    source reserves for internal links are never given, so the cap at
    100 is never reached.  A title of 30 to 60 characters, a description
    of 120 to 160, exactly one H1, alt text on every one of at least one
    image and 500 words or more give the 85. *)
Theorem basic_seo_score_range
    (title meta_desc : string) (h1_tags : list string)
    (images : list Scorer.Image) (word_count : Z) :
  0 <= Fetch._calculate_basic_seo_score title meta_desc h1_tags images word_count <= 85
  /\ (30 <= str_len title <= 60 -> 120 <= str_len meta_desc <= 160 ->
      len h1_tags = 1 -> images <> [] -> forallb Fetch.has_alt images = true ->
      500 <= word_count ->
      Fetch._calculate_basic_seo_score title meta_desc h1_tags images word_count = 85).
Proof.
  unfold Fetch._calculate_basic_seo_score. cbv zeta.
  rewrite !truthy_str_len.
  set (s1 := if negb (str_len title =? 0) then _ else _).
  assert (0 <= s1 <= 20 /\ (30 <= str_len title <= 60 -> s1 = 20)) as [H1 H1'].
  { subst s1. split_tests; split; lia. }
  clearbody s1.
  set (s2 := if negb (str_len meta_desc =? 0) then _ else _).
  assert (s1 <= s2 <= s1 + 15 /\ (120 <= str_len meta_desc <= 160 -> s2 = s1 + 15))
    as [H2 H2'].
  { subst s2. split_tests; split; lia. }
  clearbody s2.
  set (s3 := if len h1_tags =? 1 then _ else _).
  assert (s2 <= s3 <= s2 + 15 /\ (len h1_tags = 1 -> s3 = s2 + 15)) as [H3 H3'].
  { subst s3. split_tests; split; lia. }
  clearbody s3.
  set (s4 := if truthy_list images then _ else _).
  assert (s3 <= s4 <= s3 + 15
          /\ (images <> [] -> forallb Fetch.has_alt images = true -> s4 = s3 + 15))
    as [H4 H4'].
  { subst s4. destruct images as [|img images]; cbn [truthy_list]; [split; [lia|done]|].
    set (imgs := img :: images).
    pose proof (len_filter_le Fetch.has_alt imgs).
    pose proof (len_nonneg (List.filter Fetch.has_alt imgs)).
    assert (0 < len imgs) by (unfold len, imgs; cbn [length]; lia).
    destruct (alt_share_points (len (List.filter Fetch.has_alt imgs)) (len imgs))
      as [Hrange Hall]; [lia|lia|].
    split; [lia|]. intros _ Hforall. rewrite Hall; [done|].
    f_equal. apply forallb_filter_id. exact Hforall. }
  clearbody s4.
  set (s5 := if 500 <=? word_count then _ else _).
  assert (s4 <= s5 <= s4 + 20 /\ (500 <= word_count -> s5 = s4 + 20)) as [H5 H5'].
  { subst s5. split_tests; split; lia. }
  clearbody s5.
  split; [lia|]. intros. rewrite H5', H4', H3', H2', H1' by done. reflexivity.
Qed.

Lemma basic_seo_score_range_witness :
  Fetch._calculate_basic_seo_score Samples.title_45 Samples.description_130
    ["Welcome"] [{| Scorer.alt := Some "logo" |}] 600 = 85.
Proof.
  destruct (basic_seo_score_range Samples.title_45 Samples.description_130
              ["Welcome"] [{| Scorer.alt := Some "logo" |}] 600) as [_ Hmax].
  apply Hmax; try done; vm_compute; split; discriminate.
Defined.

(** ** Swapping the two sides of a comparison *)




Lemma map_take {A B} (f : A -> B) n l : map f (take n l) = take n (map f l).
Proof. revert n. induction l as [|x l IH]; intros [|n]; cbn; by rewrite ?IH. Qed.




(** ** Looking up what a dictionary was built from *)
Section DictLookup.
Context {V : Type}.
Implicit Types (d : PyDict.t V) (k : string) (v : V).

Lemma dict_lookup_set d k v k' :
  PyDict.lookup (PyDict.set d k v) k'
  = if String.eqb k' k then Some v else PyDict.lookup d k'.
Proof.
  induction d as [|[k0 v0] d IH]; cbn.
  - by destruct (String.eqb k' k).
  - destruct (String.eqb_spec k k0) as [->|Hne]; cbn.
    + by destruct (String.eqb k' k0).
    + rewrite IH. destruct (String.eqb_spec k' k0) as [->|Hne'].
      * destruct (String.eqb_spec k0 k); [congruence|done].
      * done.
Qed.

Lemma dict_lookup_app (l1 l2 : list (string * V)) k :
  PyDict.lookup (l1 ++ l2)%list k
  = match PyDict.lookup l1 k with
    | Some v => Some v
    | None => PyDict.lookup l2 k
    end.
Proof.
  induction l1 as [|[k0 v0] l1 IH]; cbn; [done|].
  by destruct (String.eqb k k0).
Qed.

Lemma dict_fold_lookup (pairs : list (string * V)) d k :
  PyDict.lookup (fold_left (fun d kv => PyDict.set d (fst kv) (snd kv)) pairs d) k
  = match PyDict.lookup (rev pairs) k with
    | Some v => Some v
    | None => PyDict.lookup d k
    end.
Proof.
  revert d. induction pairs as [|[k0 v0] pairs IH]; intros d; cbn [fold_left rev].
  - done.
  - rewrite IH, dict_lookup_app. cbn [fst snd].
    destruct (PyDict.lookup (rev pairs) k); [done|].
    rewrite dict_lookup_set. cbn. by destruct (String.eqb k k0).
Qed.

Lemma dict_elem_lookup d k v :
  NoDup (PyDict.keys d) -> (k, v) ∈ d <-> PyDict.lookup d k = Some v.
Proof.
  induction d as [|[k0 v0] d IH]; intros Hnd.
  - cbn. split; [by intros ?%elem_of_nil|done].
  - change (PyDict.keys ((k0, v0) :: d)) with (k0 :: PyDict.keys d) in Hnd.
    apply NoDup_cons in Hnd as [Hk0 Hnd]. cbn [PyDict.lookup].
    rewrite elem_of_cons, (IH Hnd).
    destruct (String.eqb_spec k k0) as [->|Hne].
    + split.
      * intros [[= ->]|Hin]; [done|].
        exfalso. apply Hk0. apply dict_mem_keys. unfold PyDict.mem. by rewrite Hin.
      * intros [= ->]. by left.
    + split; [|auto]. intros [[= -> ->]|?]; done.
Qed.
End DictLookup.

Lemma dict_of_pairs_lookup {V} (pairs : list (string * V)) k :
  PyDict.lookup (PyDict.of_pairs pairs) k = PyDict.lookup (rev pairs) k.
Proof.
  unfold PyDict.of_pairs. rewrite dict_fold_lookup.
  by destruct (PyDict.lookup (rev pairs) k).
Qed.

(** A dictionary built from pairs has one entry for each key of the pairs
    and no other, and looking a key up gives the value of the last pair
    that carries it. *)
Lemma dict_of_pairs_last_wins {V} (pairs : list (string * V)) :
  NoDup (PyDict.keys (PyDict.of_pairs pairs))
  /\ (forall k, PyDict.lookup (PyDict.of_pairs pairs) k = PyDict.lookup (rev pairs) k)
  /\ (forall k, PyDict.mem (PyDict.of_pairs pairs) k = true <-> k ∈ map fst pairs)
  /\ (forall k v, (k, v) ∈ PyDict.of_pairs pairs
                  <-> PyDict.lookup (rev pairs) k = Some v).
Proof.
  pose proof (dict_of_pairs_lookup pairs) as Hlookup.
  split; [apply of_pairs_NoDup|]. split; [exact Hlookup|]. split.
  - intros k. by rewrite dict_mem_keys, of_pairs_keys.
  - intros k v. rewrite <- Hlookup. apply dict_elem_lookup, of_pairs_NoDup.
Qed.

(** ** The keyword lists of the basic comparison *)

Lemma sorted_by_count_desc {A} (count : A -> Z) l :
  StronglySorted (Fetch.by_count_desc count) (py_sorted Z.ltb count true l).
Proof.
  apply py_sorted_sorted; unfold Fetch.by_count_desc, goes_before.
  - intros a b c. lia.
  - intros y x H. apply Z.ltb_lt in H. lia.
  - intros y x H. apply Z.ltb_ge in H. lia.
Qed.

Lemma NoDup_take_sorted {A K} (kw : A -> string) (ltb : K -> K -> bool)
    (key : A -> K) n l :
  NoDup (map kw l) -> NoDup (map kw (take n (py_sorted ltb key true l))).
Proof.
  intros Hnd. rewrite map_take. eapply sublist_NoDup; [|apply sublist_take].
  assert (map kw (py_sorted ltb key true l) ≡ₚ map kw l) as ->; [|done].
  apply (fmap_Permutation kw), py_sorted_perm.
Qed.

(** X19. The common keywords are at most 20, each word once, in
    descending order of the summed counts; every entry is a word of both
    inputs with the two counts the inputs give it (the last pair for the
    word) and their sum. *)
Theorem common_keywords_are_sound
    (set_iter : set_order) (keywords1 keywords2 : list (string * Z)) :
  lists_members set_iter ->
  let common := Competitor._find_common_keywords set_iter keywords1 keywords2 in
  (length common <= 20)%nat
  /\ NoDup (map Competitor.keyword common)
  /\ StronglySorted (Fetch.by_count_desc Competitor.total) common
  /\ (forall e, e ∈ common ->
        PyDict.lookup (rev keywords1) (Competitor.keyword e)
        = Some (Competitor.your_count e)
        /\ PyDict.lookup (rev keywords2) (Competitor.keyword e)
           = Some (Competitor.competitor_count e)
        /\ Competitor.total e
           = Competitor.your_count e + Competitor.competitor_count e).
Proof.
  intros Hiter. unfold Competitor._find_common_keywords. cbv zeta.
  set (words := set_iter _).
  set (entry := fun word =>
         {| Competitor.keyword := word;
            Competitor.your_count :=
              dict_get (PyDict.lookup (PyDict.of_pairs keywords1) word) 0;
            Competitor.competitor_count :=
              dict_get (PyDict.lookup (PyDict.of_pairs keywords2) word) 0;
            Competitor.total :=
              dict_get (PyDict.lookup (PyDict.of_pairs keywords1) word) 0
              + dict_get (PyDict.lookup (PyDict.of_pairs keywords2) word) 0 |}).
  rewrite (fold_left_snoc entry). cbn [app].
  assert (map Competitor.keyword (map entry words) = words) as Hkw.
  { rewrite map_map. apply map_id. }
  assert (words ≡ₚ elements (common_keys (PyDict.of_pairs keywords1)
                               (PyDict.of_pairs keywords2))) as Hwords
    by apply Hiter.
  split; [rewrite length_take; lia|]. split.
  { apply NoDup_take_sorted. rewrite Hkw, Hwords. apply NoDup_elements. }
  split; [apply StronglySorted_take, sorted_by_count_desc|].
  intros e He. apply (subseteq_take 20) in He. apply elem_of_py_sorted in He.
  apply list_elem_of_In, in_map_iff in He as (word & <- & Hword).
  apply list_elem_of_In in Hword. rewrite Hwords, elem_of_elements in Hword.
  unfold common_keys in Hword.
  apply elem_of_intersection in Hword as [H1 H2].
  apply elem_of_list_to_set, dict_mem_keys in H1, H2.
  unfold PyDict.mem in H1, H2. cbn.
  destruct (dict_of_pairs_lookup keywords1 word) as [].
  destruct (dict_of_pairs_lookup keywords2 word) as [].
  destruct (PyDict.lookup (PyDict.of_pairs keywords1) word) eqn:E1; [|done].
  destruct (PyDict.lookup (PyDict.of_pairs keywords2) word) eqn:E2; [|done].
  cbn. done.
Qed.

Lemma fold_left_filter_map {X A} (p : X -> bool) (g : X -> A) (l : list X)
    (acc : list A) :
  fold_left (fun acc x => if p x then List.app acc [g x] else acc) l acc
  = (acc ++ map g (List.filter p l))%list.
Proof.
  revert acc. induction l as [|x l IH]; intros acc; simpl.
  - by rewrite app_nil_r.
  - rewrite IH. destruct (p x); simpl; [by rewrite <- app_assoc|done].
Qed.

Lemma sublist_list_filter {X} (p : X -> bool) (l : list X) :
  List.filter p l `sublist_of` l.
Proof.
  induction l as [|x l IH]; simpl; [constructor|].
  destruct (p x); by constructor.
Qed.

(** X20. The keywords unique to the first input are at most 20, each word
    once, in descending order of count; every entry is a word of the first
    input with the count of its last pair there, and is no word of the
    second input. *)
Theorem unique_keywords_are_sound (keywords1 keywords2 : list (string * Z)) :
  let unique := Competitor._find_unique_keywords keywords1 keywords2 in
  (length unique <= 20)%nat
  /\ NoDup (map Competitor.unique_keyword unique)
  /\ StronglySorted (Fetch.by_count_desc Competitor.unique_count) unique
  /\ (forall e, e ∈ unique ->
        PyDict.lookup (rev keywords1) (Competitor.unique_keyword e)
        = Some (Competitor.unique_count e)
        /\ Competitor.unique_keyword e ∉ map fst keywords2).
Proof.
  unfold Competitor._find_unique_keywords. cbv zeta.
  set (words1 := PyDict.of_pairs keywords1).
  set (words2 := PyDict.of_pairs keywords2).
  set (p := fun x : string * Z => negb (PyDict.mem words2 (fst x))).
  set (g := fun x : string * Z =>
              {| Competitor.unique_keyword := fst x;
                 Competitor.unique_count := snd x |}).
  assert (forall acc,
    fold_left
      (fun unique '(word, count) =>
         if negb (PyDict.mem words2 word) then
           List.app unique [{| Competitor.unique_keyword := word;
                               Competitor.unique_count := count |}]
         else unique) words1 acc
    = fold_left (fun acc x => if p x then List.app acc [g x] else acc)
        words1 acc) as ->.
  { intros acc. revert acc. induction words1 as [|[w c] l IH]; intros acc;
      [done|]. simpl. apply IH. }
  rewrite fold_left_filter_map. cbn [app].
  split; [rewrite length_take; lia|]. split.
  { apply NoDup_take_sorted. rewrite map_map.
    change (fun x => Competitor.unique_keyword (g x)) with (@fst string Z).
    unfold p. rewrite (map_fst_filter (fun w => negb (PyDict.mem words2 w))).
    eapply sublist_NoDup; [apply (of_pairs_NoDup keywords1)|].
    apply sublist_list_filter. }
  split; [apply StronglySorted_take, sorted_by_count_desc|].
  intros e He. apply (subseteq_take 20) in He. apply elem_of_py_sorted in He.
  apply list_elem_of_In, in_map_iff in He as ([w c] & <- & Hin).
  apply filter_In in Hin as [Hin Hp]. apply list_elem_of_In in Hin.
  cbn. split.
  - rewrite <- dict_of_pairs_lookup.
    by apply dict_elem_lookup; [apply of_pairs_NoDup|].
  - unfold p in Hp. cbn in Hp. apply negb_true_iff in Hp.
    intros Hw. apply of_pairs_keys, dict_mem_keys in Hw.
    unfold words2 in Hp. congruence.
Qed.

Lemma common_keywords_are_sound_witness :
  lists_members elements
  /\ let common :=
       Competitor._find_common_keywords elements
         [("crawler", 3); ("audit", 2)] [("audit", 5); ("score", 2)] in
     (length common <= 20)%nat.
Proof.
  split; [exact elements_lists_members|].
  apply (common_keywords_are_sound elements
           [("crawler", 3); ("audit", 2)] [("audit", 5); ("score", 2)]
           elements_lists_members).
Defined.


(** ** The keywords of a page *)

Lemma occurrences_cons w x l :
  Fetch.occurrences w (x :: l)
  = (if String.eqb w x then 1 else 0) + Fetch.occurrences w l.
Proof.
  unfold Fetch.occurrences, len. simpl. destruct (String.eqb w x); simpl; lia.
Qed.

Lemma occurrences_nonneg w l : 0 <= Fetch.occurrences w l.
Proof. apply len_nonneg. Qed.

Lemma occurrences_pos w l : 0 < Fetch.occurrences w l <-> w ∈ l.
Proof.
  induction l as [|x l IH]; [unfold Fetch.occurrences, len; simpl|].
  - split; [lia|]. by intros ?%elem_of_nil.
  - rewrite occurrences_cons, elem_of_cons. pose proof (occurrences_nonneg w l).
    destruct (String.eqb_spec w x) as [->|Hne].
    + split; [auto|lia].
    + rewrite Z.add_0_l, IH. split; [auto|]. by intros [?|?].
Qed.

Lemma counter_fold (words : list string) (counts : PyDict.t Z) :
  NoDup (PyDict.keys counts) ->
  let result :=
    fold_left
      (fun counts word =>
         PyDict.set counts word (dict_get (PyDict.lookup counts word) 0 + 1))
      words counts in
  NoDup (PyDict.keys result)
  /\ forall w,
       PyDict.lookup result w
       = if Fetch.occurrences w words =? 0 then PyDict.lookup counts w
         else Some (dict_get (PyDict.lookup counts w) 0 + Fetch.occurrences w words).
Proof.
  revert counts. induction words as [|x l IH]; intros counts Hnd; cbn zeta.
  - split; [done|]. intros w. done.
  - simpl fold_left.
    destruct (IH (PyDict.set counts x (dict_get (PyDict.lookup counts x) 0 + 1)))
      as [Hnd' Hlookup]; [by apply dict_set_NoDup|].
    split; [exact Hnd'|]. intros w. rewrite Hlookup, dict_lookup_set.
    rewrite occurrences_cons. pose proof (occurrences_nonneg w l).
    destruct (String.eqb_spec w x) as [->|Hne].
    + destruct (Z.eqb_spec (Fetch.occurrences x l) 0) as [->|?];
        destruct (Z.eqb_spec (1 + Fetch.occurrences x l) 0); try lia;
        [f_equal; lia|]. cbn. f_equal. lia.
    + rewrite Z.add_0_l. done.
Qed.

Lemma counter_lookup (words : list string) w :
  PyDict.lookup (Fetch.counter words) w
  = if Fetch.occurrences w words =? 0 then None
    else Some (Fetch.occurrences w words).
Proof.
  unfold Fetch.counter.
  destruct (counter_fold words [] (NoDup_nil_2)) as [_ ->]. cbn.
  by destruct (Fetch.occurrences w words =? 0).
Qed.

Lemma counter_NoDup (words : list string) :
  NoDup (PyDict.keys (Fetch.counter words)).
Proof. apply (counter_fold words []), NoDup_nil_2. Qed.

(** X21. The keywords of a text are exactly the words of four or more
    letters a-z that occur at least twice in the lower-cased text and are
    no stop word, each once, with the number of its occurrences, in
    descending order of that number. *)
Theorem extracted_keywords_are_exact (text : string) :
  let words := Fetch.findall_words (PyStr.lower text) in
  let keywords := Fetch._extract_keywords text in
  NoDup (map fst keywords)
  /\ StronglySorted (Fetch.by_count_desc snd) keywords
  /\ (forall w c, (w, c) ∈ keywords
        <-> c = Fetch.occurrences w words /\ 2 <= c
            /\ Links.str_in w Fetch.stop_words = false)
  /\ (forall w c, (w, c) ∈ keywords ->
        Fetch.all_lower_letters w = true /\ 4 <= str_len w).
Proof.
  cbv zeta. unfold Fetch._extract_keywords.
  destruct text as [|ch text]; cbn [truthy_str negb].
  - split; [constructor|]. split; [constructor|]. split.
    + intros w c. split; [by intros ?%elem_of_nil|].
      intros (-> & Hc & _). vm_compute in Hc. done.
    + intros w c ?%elem_of_nil. done.
  - set (words := Fetch.findall_words _).
    set (keep := fun '(word, count) =>
                   negb (Links.str_in word Fetch.stop_words) && (1 <? count)).
    assert (forall w c, (w, c) ∈ List.filter keep (Fetch.counter words)
              <-> c = Fetch.occurrences w words /\ 2 <= c
                  /\ Links.str_in w Fetch.stop_words = false) as Hfilter.
    { intros w c. rewrite list_elem_of_In, filter_In, <- list_elem_of_In.
      rewrite (dict_elem_lookup _ _ _ (counter_NoDup words)), counter_lookup.
      unfold keep. rewrite andb_true_iff, negb_true_iff, Z.ltb_lt.
      pose proof (occurrences_nonneg w words).
      destruct (Z.eqb_spec (Fetch.occurrences w words) 0) as [E|E].
      - split; [by intros [? _]|]. intros (-> & ? & _). lia.
      - split.
        + intros ([= <-] & ? & ?). repeat split; [lia|done].
        + intros (-> & ? & ?). repeat split; [done|lia]. }
    split.
    { assert (map fst (py_sorted Z.ltb snd true (List.filter keep (Fetch.counter words)))
              ≡ₚ map fst (List.filter keep (Fetch.counter words))) as ->
        by apply (fmap_Permutation fst), py_sorted_perm.
      eapply sublist_NoDup; [apply (counter_NoDup words)|].
      apply (fmap_sublist fst), sublist_list_filter. }
    split; [apply sorted_by_count_desc|]. split.
    + intros w c. by rewrite elem_of_py_sorted, Hfilter.
    + intros w c. rewrite elem_of_py_sorted, Hfilter. intros (-> & Hc & _).
      assert (w ∈ words) as Hw by (apply occurrences_pos; lia).
      unfold words, Fetch.findall_words in Hw.
      apply list_elem_of_In, filter_In in Hw as [_ Hw].
      apply andb_true_iff in Hw as [? ?%Z.leb_le]. done.
Qed.

(** ** A site that could not be fetched *)




(** ** The advantage score of the advanced comparison *)

Lemma category_counts (t : Advantage.Tally) (yours theirs : bool) name :
  Advantage.t_your_wins (Advantage.category t yours theirs name)
  = (Advantage.t_your_wins t + if yours then 1 else 0)%nat
  /\ Advantage.t_competitor_wins (Advantage.category t yours theirs name)
     = (Advantage.t_competitor_wins t
        + if yours then 0 else if theirs then 1 else 0)%nat
  /\ length (Advantage.t_categories (Advantage.category t yours theirs name))
     = (length (Advantage.t_categories t) + if yours then 1 else 0)%nat.
Proof.
  unfold Advantage.category. destruct yours, theirs; cbn;
    rewrite ?length_app; cbn; lia.
Qed.

(** The winner of a score is one of the two sides. *)
Lemma side_tests (b : bool) :
  let winner := if b then "your_site" else "competitor" in
  String.eqb winner "your_site" = b
  /\ String.eqb winner "competitor" = negb b.
Proof. by destruct b. Qed.

(** The two win counts of the advantage score, test by test. *)
Lemma advantage_wins (result1 result2 : Advantage.Result) :
  let advantage :=
    Advantage._calculate_advantage_score
      (Advantage._deep_compare_results result1 result2) in
  let won (b : bool) := if b then 1%nat else 0%nat in
  let load := Qltb (dict_get (Advantage.load_time result1) 999%Q)
                (dict_get (Advantage.load_time result2) 999%Q) in
  let performance := dict_get (Advantage.performance_score result2) 0
                     <? dict_get (Advantage.performance_score result1) 0 in
  let seo := dict_get (Advantage.seo_score result2) 0
             <? dict_get (Advantage.seo_score result1) 0 in
  let technical := dict_get (Advantage.technical_score result2) 0
                   <? dict_get (Advantage.technical_score result1) 0 in
  let mobile1 := dict_get (Advantage.mobile_score result1) 0 in
  let mobile2 := dict_get (Advantage.mobile_score result2) 0 in
  let security1 := dict_get (Advantage.security_score_of result1) 0 in
  let security2 := dict_get (Advantage.security_score_of result2) 0 in
  Advantage.your_wins advantage
  = (won load + won performance + won seo + won technical
     + won (mobile2 <? mobile1)%Z + won (security2 <? security1)%Z)%nat
  /\ Advantage.competitor_wins advantage
     = (won (negb load) + won (negb performance) + won (negb seo)
        + won (negb technical)
        + won (mobile1 <? mobile2)%Z + won (security1 <? security2)%Z)%nat
  /\ length (Advantage.winning_categories advantage)
     = Advantage.your_wins advantage
  /\ Advantage.ties advantage = 0%nat
  /\ Advantage.total_categories advantage
     = (Advantage.your_wins advantage + Advantage.competitor_wins advantage)%nat.
Proof.
  cbv zeta. unfold Advantage._calculate_advantage_score. cbv zeta.
  cbn [Advantage.your_wins Advantage.competitor_wins Advantage.ties
       Advantage.total_categories Advantage.winning_categories].
  unfold Advantage._deep_compare_results.
  cbn [Advantage.load_time_winner Advantage.performance_score_winner
       Advantage.seo_score_winner Advantage.technical_score_winner
       Advantage.mobile_your_site Advantage.mobile_competitor
       Advantage.security_your_site Advantage.security_competitor].
  repeat match goal with
  | |- context [String.eqb (if ?b then "your_site" else "competitor") "your_site"] =>
      rewrite (proj1 (side_tests b)), (proj2 (side_tests b))
  end.
  repeat match goal with
  | |- context [Advantage.category ?t ?y ?c ?n] =>
      let H := fresh "H" in
      pose proof (category_counts t y c n) as H;
      set (Advantage.category t y c n) in *;
      destruct H as (-> & -> & ->)
  end.
  cbn [Advantage.t_your_wins Advantage.t_competitor_wins Advantage.t_categories
       length].
  set (mobile1 := dict_get (Advantage.mobile_score result1) 0).
  set (mobile2 := dict_get (Advantage.mobile_score result2) 0).
  set (security1 := dict_get (Advantage.security_score_of result1) 0).
  set (security2 := dict_get (Advantage.security_score_of result2) 0).
  destruct (Qltb _ _), (_ <? _), (_ <? _), (_ <? _);
    destruct (Z.ltb_spec mobile2 mobile1), (Z.ltb_spec mobile1 mobile2); try lia;
    destruct (Z.ltb_spec security2 security1), (Z.ltb_spec security1 security2);
    try lia; cbn; repeat split; lia.
Qed.

(** X23. The advantage score never counts a tie: load speed, performance,
    SEO and technical score always go to one side, so between four and
    six categories are decided, six exactly when the mobile scores differ
    and the security scores differ; the total is the sum of the two win
    counts and the winning categories are as many as the subject's wins. *)
Theorem advantage_counts_no_tie (result1 result2 : Advantage.Result) :
  let advantage :=
    Advantage._calculate_advantage_score
      (Advantage._deep_compare_results result1 result2) in
  Advantage.ties advantage = 0%nat
  /\ Advantage.total_categories advantage
     = (Advantage.your_wins advantage + Advantage.competitor_wins advantage)%nat
  /\ (4 <= Advantage.total_categories advantage <= 6)%nat
  /\ length (Advantage.winning_categories advantage)
     = Advantage.your_wins advantage
  /\ (Advantage.total_categories advantage = 6%nat
      <-> dict_get (Advantage.mobile_score result1) 0
          <> dict_get (Advantage.mobile_score result2) 0
          /\ dict_get (Advantage.security_score_of result1) 0
             <> dict_get (Advantage.security_score_of result2) 0).
Proof.
  cbv zeta.
  destruct (advantage_wins result1 result2) as (Hy & Hc & Hlen & Hties & Htotal).
  cbv zeta in Hy, Hc. rewrite Hlen, Htotal, Hy, Hc. clear Hy Hc Htotal Hlen.
  split; [exact Hties|]. split; [done|].
  set (mobile1 := dict_get (Advantage.mobile_score result1) 0).
  set (mobile2 := dict_get (Advantage.mobile_score result2) 0).
  set (security1 := dict_get (Advantage.security_score_of result1) 0).
  set (security2 := dict_get (Advantage.security_score_of result2) 0).
  split; [|split; [done|]];
    destruct (Qltb _ _), (_ <? _), (_ <? _), (_ <? _);
    destruct (Z.ltb_spec mobile2 mobile1), (Z.ltb_spec mobile1 mobile2); try lia;
    destruct (Z.ltb_spec security2 security1), (Z.ltb_spec security1 security2);
    try lia; cbn; try lia; (split; [intros ?; lia | intros [? ?]; lia]).
Qed.

(** The level of the exact percentage of [y] wins out of [y + c]. *)
Lemma level_by_wins (y c : nat) :
  (0 < y + c <= 6)%nat ->
  let percentage :=
    (inject_Z (Z.of_nat y) / inject_Z (Z.of_nat (y + c)) * 100)%Q in
  let level := Advantage._get_advantage_level percentage in
  ((c < y)%nat -> level = "Strong Advantage" \/ level = "Moderate Advantage")
  /\ (y = c -> level = "Moderate Advantage"
               /\ (py_round percentage 1 == 50)%Q)
  /\ ((y < c)%nat ->
      level = "Slight Advantage" \/ level = "Competitive Disadvantage").
Proof.
  intros Hrange. cbv zeta.
  destruct y as [|[|[|[|[|[|[|y]]]]]]]; try lia;
    destruct c as [|[|[|[|[|[|[|c]]]]]]]; try lia;
    (split; [|split]); intros Hcase; try lia; vm_compute; auto.
Qed.

Lemma advantage_total_bounds (result1 result2 : Advantage.Result) :
  let advantage :=
    Advantage._calculate_advantage_score
      (Advantage._deep_compare_results result1 result2) in
  (4 <= Advantage.your_wins advantage + Advantage.competitor_wins advantage <= 6)%nat.
Proof.
  cbv zeta.
  destruct (advantage_wins result1 result2) as (Hy & Hc & _).
  cbv zeta in Hy, Hc. rewrite Hy, Hc. clear Hy Hc.
  set (mobile1 := dict_get (Advantage.mobile_score result1) 0).
  set (mobile2 := dict_get (Advantage.mobile_score result2) 0).
  set (security1 := dict_get (Advantage.security_score_of result1) 0).
  set (security2 := dict_get (Advantage.security_score_of result2) 0).
  destruct (Qltb _ _), (_ <? _), (_ <? _), (_ <? _);
    destruct (Z.ltb_spec mobile2 mobile1), (Z.ltb_spec mobile1 mobile2); try lia;
    destruct (Z.ltb_spec security2 security1), (Z.ltb_spec security1 security2);
    try lia; cbn; lia.
Qed.

Lemma advantage_percentage_of (comparison : Advantage.Comparison) :
  let advantage := Advantage._calculate_advantage_score comparison in
  let percentage :=
    if (0 <? Advantage.total_categories advantage)%nat
    then (inject_Z (Z.of_nat (Advantage.your_wins advantage))
          / inject_Z (Z.of_nat (Advantage.total_categories advantage)) * 100)%Q
    else 0%Q in
  Advantage.advantage_level advantage = Advantage._get_advantage_level percentage
  /\ Advantage.advantage_percentage advantage = py_round percentage 1.
Proof. split; reflexivity. Qed.

(** X24. The advantage level agrees with the verdict of the advanced
    comparison: when the subject wins the level is a strong or a moderate
    advantage; on a tie it is a moderate advantage at 50 percent; when the
    competitor wins it is a slight advantage or a competitive
    disadvantage. *)
Theorem advantage_level_follows_verdict (result1 result2 : Advantage.Result) :
  let verdict := Advantage.verdict_of result1 result2 in
  (Advantage.overall verdict = "your_site"
   /\ (Advantage.verdict_level verdict = "Strong Advantage"
       \/ Advantage.verdict_level verdict = "Moderate Advantage"))
  \/ (Advantage.overall verdict = "tie"
      /\ Advantage.verdict_level verdict = "Moderate Advantage"
      /\ (Advantage.advantage_score verdict == 50)%Q)
  \/ (Advantage.overall verdict = "competitor"
      /\ (Advantage.verdict_level verdict = "Slight Advantage"
          \/ Advantage.verdict_level verdict = "Competitive Disadvantage")).
Proof.
  cbv zeta. unfold Advantage.verdict_of, Advantage._determine_winner_advanced.
  cbn [Advantage.overall Advantage.verdict_level Advantage.advantage_score].
  set (comparison := Advantage._deep_compare_results result1 result2).
  destruct (advantage_percentage_of comparison) as [-> ->]. cbv zeta.
  pose proof (advantage_total_bounds result1 result2) as Hrange.
  destruct (advantage_wins result1 result2) as (_ & _ & _ & _ & Htotal).
  cbv zeta in Hrange. fold comparison in Hrange, Htotal.
  set (advantage := Advantage._calculate_advantage_score comparison) in *.
  rewrite Htotal.
  set (y := Advantage.your_wins advantage) in *.
  set (c := Advantage.competitor_wins advantage) in *.
  clearbody y c. clear Htotal advantage comparison.
  replace (0 <? y + c)%nat with true by (symmetry; apply Nat.ltb_lt; lia).
  destruct (level_by_wins y c ltac:(lia)) as (Hwin & Htie & Hlose).
  destruct (Nat.ltb_spec c y) as [Hcy|Hcy]; [left; auto|].
  destruct (Nat.ltb_spec y c) as [Hyc|Hyc]; [right; right; auto|].
  right; left. split; [done|]. apply Htie. lia.
Qed.

(** X25. Two results with the same measurements never favour the subject:
    compared with itself a result loses load speed, performance, SEO and
    technical score, so the competitor wins four categories to none, at 0
    percent and with a competitive disadvantage. *)
Theorem equal_results_favour_competitor (result : Advantage.Result) :
  let verdict := Advantage.verdict_of result result in
  Advantage.overall verdict = "competitor"
  /\ Advantage.wins verdict
     = {| Advantage.wins_your_site := 0; Advantage.wins_competitor := 4;
          Advantage.wins_ties := 0 |}
  /\ Advantage.verdict_categories verdict = []
  /\ Advantage.verdict_level verdict = "Competitive Disadvantage"
  /\ (Advantage.advantage_score verdict == 0)%Q.
Proof.
  cbv zeta. unfold Advantage.verdict_of, Advantage._determine_winner_advanced.
  cbn [Advantage.overall Advantage.verdict_level Advantage.advantage_score
       Advantage.wins Advantage.verdict_categories].
  set (comparison := Advantage._deep_compare_results result result).
  destruct (advantage_percentage_of comparison) as [-> ->]. cbv zeta.
  destruct (advantage_wins result result) as (Hy & Hc & Hlen & Hties & Htotal).
  cbv zeta in Hy, Hc. fold comparison in Hy, Hc, Hlen, Hties, Htotal.
  rewrite (proj2 (Qltb_ge _ _) (Qle_refl _)), !Z.ltb_irrefl in Hy, Hc.
  set (advantage := Advantage._calculate_advantage_score comparison) in *.
  clearbody advantage. cbn in Hy, Hc. rewrite Hy, Hc in Htotal. rewrite Hy in Hlen.
  apply nil_length_inv in Hlen. rewrite Htotal, Hy, Hc, Hties, Hlen.
  vm_compute. repeat split; congruence.
Qed.

(** ** The scores of the advanced analysis *)

Lemma count_set_bounds (flags : list bool) :
  0 <= len (List.filter id flags) <= len flags.
Proof. split; [apply len_nonneg|apply len_filter_le]. Qed.

(** X26. The mobile, security and structure scores of the advanced
    analysis lie between 0 and 100.  The mobile score is 100 exactly with
    a viewport, the mobile-optimised flag and eight responsive images or
    more; the security score is 15 per header found, except that all seven
    give 100; the structure score is a multiple of 20. *)
Theorem advanced_sub_scores
    (has_viewport is_optimized : bool) (responsive_images : Z)
    (headers : Advantage.SecurityHeaders)
    (semantic : Advantage.Semantic) (nav_count : Z) :
  let mobile :=
    Advantage._calculate_mobile_score has_viewport is_optimized responsive_images in
  let security := Advantage.security_score headers in
  let count := Advantage.security_headers_count headers in
  let structure := Advantage._calculate_structure_score semantic nav_count in
  (0 <= mobile <= 100
   /\ (mobile = 100
       <-> has_viewport = true /\ is_optimized = true /\ 8 <= responsive_images))
  /\ (0 <= count <= 7
      /\ security = (if count =? 7 then 100 else 15 * count))
  /\ (0 <= structure <= 100 /\ (20 | structure)).
Proof.
  cbv zeta. split; [|split].
  - unfold Advantage._calculate_mobile_score.
    destruct has_viewport, is_optimized;
      destruct (Z.ltb_spec 0 responsive_images); split; try lia;
      (split; [intros ?; repeat split; lia | intros (? & ? & ?); try done; lia]).
  - unfold Advantage.security_score.
    pose proof (count_set_bounds
      [Advantage.https headers; truthy_str (Advantage.x_frame_options headers);
       truthy_str (Advantage.x_content_type_options headers);
       truthy_str (Advantage.x_xss_protection headers);
       truthy_str (Advantage.strict_transport_security headers);
       truthy_str (Advantage.content_security_policy headers);
       truthy_str (Advantage.referrer_policy headers)]) as Hcount.
    change (0 <= Advantage.security_headers_count headers <= 7) in Hcount.
    split; [exact Hcount|].
    destruct (Z.eqb_spec (Advantage.security_headers_count headers) 7); lia.
  - unfold Advantage._calculate_structure_score.
    destruct (0 <? Advantage.header semantic), (0 <? Advantage.footer semantic),
      ((0 <? Advantage.main semantic) || (0 <? Advantage.article semantic)),
      (0 <? nav_count), (0 <? Advantage.section semantic);
      cbn; (split; [lia|]);
      first [by exists 0 | by exists 1 | by exists 2 | by exists 3
            | by exists 4 | by exists 5].
Qed.

(** X27. With counts of render-blocking resources and of large images
    that are not negative, the performance score of the advanced analysis
    lies between 20 and 100: the penalties add up to at most 80, so the
    floor at 0 is never reached.  It is 100 exactly for a load time of at
    most 2 seconds, at most 2 MB, and neither render-blocking resources nor
    large images; an analysis without a load time loses 30 points. *)
Theorem advanced_performance_floor (analysis : Advantage.Measured) :
  0 <= dict_get (Advantage.render_blocking_resources analysis) 0 ->
  0 <= dict_get (Advantage.large_images_count analysis) 0 ->
  let score := Advantage._calculate_performance_score analysis in
  20 <= score <= 100
  /\ (score = 100
      <-> (dict_get (Advantage.m_load_time analysis) 999 <= 2)%Q
          /\ dict_get (Advantage.page_size analysis) 0 <= 2 * 1024 * 1024
          /\ dict_get (Advantage.render_blocking_resources analysis) 0 = 0
          /\ dict_get (Advantage.large_images_count analysis) 0 = 0)
  /\ (Advantage.m_load_time analysis = None -> score <= 70).
Proof.
  intros Hrender Hlarge. cbv zeta.
  unfold Advantage._calculate_performance_score. cbv zeta.
  set (load_time := dict_get (Advantage.m_load_time analysis) 999%Q).
  set (size := dict_get (Advantage.page_size analysis) 0).
  set (render := dict_get (Advantage.render_blocking_resources analysis) 0) in *.
  set (large := dict_get (Advantage.large_images_count analysis) 0) in *.
  set (s1 := if Qltb 5 load_time then _ else _).
  assert (70 <= s1 <= 100 /\ (s1 = 100 <-> (load_time <= 2)%Q)
          /\ (Advantage.m_load_time analysis = None -> s1 = 70)) as (H1 & E1 & N1).
  { subst s1. split; [|split].
    - destruct (Qltb 5 load_time), (Qltb 3 load_time), (Qltb 2 load_time); lia.
    - destruct (Qltb 5 load_time) eqn:E5; [|destruct (Qltb 3 load_time) eqn:E3;
        [|destruct (Qltb 2 load_time) eqn:E2]].
      + apply Qltb_lt in E5. split; [lia|]. intros H.
        exfalso. eapply Qlt_irrefl, Qlt_le_trans; [exact E5|].
        eapply Qle_trans; [exact H|]. by vm_compute.
      + apply Qltb_lt in E3. split; [lia|]. intros H.
        exfalso. eapply Qlt_irrefl, Qlt_le_trans; [exact E3|].
        eapply Qle_trans; [exact H|]. by vm_compute.
      + apply Qltb_lt in E2. split; [lia|]. intros H.
        exfalso. eapply Qlt_irrefl, Qlt_le_trans; [exact E2|exact H].
      + apply Qltb_ge in E2. split; [done|lia].
    - intros Hnone. unfold load_time. rewrite Hnone. reflexivity. }
  clearbody s1.
  set (s2 := if 5 * 1024 * 1024 <? size then _ else _).
  assert (s1 - 20 <= s2 <= s1 /\ (s2 = s1 <-> size <= 2 * 1024 * 1024))
    as (H2 & E2).
  { subst s2. destruct (Z.ltb_spec (5 * 1024 * 1024) size);
      [|destruct (Z.ltb_spec (2 * 1024 * 1024) size)]; lia. }
  clearbody s2. split; [lia|]. split.
  - rewrite <- E1. split.
    + intros H. assert (s2 = s1) as Hs by lia. apply E2 in Hs. lia.
    + intros (H & Hsize & -> & ->). apply E2 in Hsize. lia.
  - intros Hnone. specialize (N1 Hnone). lia.
Qed.

Lemma advanced_performance_floor_witness :
  let analysis :=
    {| Advantage.m_load_time := Some (13 # 10); Advantage.page_size := Some 4000000;
       Advantage.render_blocking_resources := Some 3;
       Advantage.large_images_count := None |} in
  0 <= dict_get (Advantage.render_blocking_resources analysis) 0
  /\ 0 <= dict_get (Advantage.large_images_count analysis) 0
  /\ 20 <= Advantage._calculate_performance_score analysis <= 100.
Proof.
  cbv zeta.
  assert (0 <= 3) as H1 by lia. assert (0 <= 0) as H2 by lia.
  split; [exact H1|]. split; [exact H2|].
  apply (advanced_performance_floor
           {| Advantage.m_load_time := Some (13 # 10);
              Advantage.page_size := Some 4000000;
              Advantage.render_blocking_resources := Some 3;
              Advantage.large_images_count := None |} H1 H2).
Defined.

(** ** The anchor counters *)

Lemma step_sum c anchor :
  (Links.keyword_rich (Links.step c anchor) + Links.branded (Links.step c anchor)
   + Links.generic (Links.step c anchor) + Links.empty (Links.step c anchor)
   = S (Links.keyword_rich c + Links.branded c + Links.generic c + Links.empty c))%nat.
Proof.
  unfold Links.step. cbv zeta.
  repeat match goal with
  | |- context [if ?b then _ else _] => destruct b
  end; cbn; lia.
Qed.

Lemma loop_sum anchors c :
  (Links.keyword_rich (fold_left Links.step anchors c)
   + Links.branded (fold_left Links.step anchors c)
   + Links.generic (fold_left Links.step anchors c)
   + Links.empty (fold_left Links.step anchors c)
   = Links.keyword_rich c + Links.branded c + Links.generic c + Links.empty c
     + length anchors)%nat.
Proof.
  revert c. induction anchors as [|anchor anchors IH]; intros c; cbn [fold_left length].
  - lia.
  - rewrite IH, step_sum. lia.
Qed.

Lemma step_counter c anchor :
  Links.anchor_counter (Links.step c anchor)
  = PyDict.set (Links.anchor_counter c) (AnchorRules.normal anchor)
      (dict_get (PyDict.lookup (Links.anchor_counter c) (AnchorRules.normal anchor))
         0 + 1)%nat.
Proof.
  unfold Links.step. cbv zeta. fold (AnchorRules.normal anchor).
  repeat match goal with
  | |- context [if ?b then _ else _] => destruct b
  end; reflexivity.
Qed.

(** How often a normalised text occurs among the anchors. *)
Lemma anchor_counter_fold anchors c :
  NoDup (PyDict.keys (Links.anchor_counter c)) ->
  let counter := Links.anchor_counter (fold_left Links.step anchors c) in
  NoDup (PyDict.keys counter)
  /\ forall text,
       PyDict.lookup counter text
       = match AnchorRules.count (String.eqb text)
                 (map AnchorRules.normal anchors) with
         | O => PyDict.lookup (Links.anchor_counter c) text
         | S n =>
             Some (dict_get (PyDict.lookup (Links.anchor_counter c) text) 0
                   + S n)%nat
         end.
Proof.
  revert c. induction anchors as [|anchor anchors IH]; intros c Hnd; cbv zeta.
  - split; [done|]. intros text. done.
  - cbn [fold_left map].
    destruct (IH (Links.step c anchor)) as [Hnd' Hlookup].
    { rewrite step_counter. by apply dict_set_NoDup. }
    split; [exact Hnd'|]. intros text. rewrite Hlookup, step_counter.
    rewrite dict_lookup_set, count_cons.
    destruct (String.eqb_spec text (AnchorRules.normal anchor)) as [->|Hne];
      cbn [AnchorRules.bump Nat.add].
    + destruct (AnchorRules.count _ _); cbn [dict_get]; f_equal; lia.
    + done.
Qed.

Lemma size_list_to_set_le (l : list string) :
  (size (list_to_set l : gset string) <= length l)%nat.
Proof.
  induction l as [|x l IH]; [done|]. cbn [list_to_set foldr length].
  rewrite size_union_alt, size_singleton.
  pose proof (subseteq_size (list_to_set l ∖ {[x]}) (list_to_set l : gset string)
                ltac:(set_solver)).
  lia.
Qed.

Lemma count_ratio_range (part whole : nat) :
  (part <= whole)%nat -> (0 < whole)%nat ->
  (0 <= inject_Z (Z.of_nat part) / inject_Z (Z.of_nat whole) <= 1)%Q.
Proof.
  intros Hle Hpos.
  assert (0 < inject_Z (Z.of_nat whole))%Q as Hwhole
    by (change 0%Q with (inject_Z 0); rewrite <- Zlt_Qlt; lia).
  split.
  - apply Qle_shift_div_l; [exact Hwhole|]. rewrite Qmult_0_l.
    change 0%Q with (inject_Z 0). rewrite <- Zle_Qle. lia.
  - apply Qle_shift_div_r; [exact Hwhole|]. rewrite Qmult_1_l.
    rewrite <- Zle_Qle. lia.
Qed.

(** X28. The four anchor classes partition the anchors: their counts add
    up to the total.  The number of distinct texts is at most the total,
    and a reported keyword-rich ratio lies between 0 and 1; only the empty
    list has no ratio. *)
Theorem anchor_counts_partition (anchor_texts : list string) :
  let analysis := Links._analyze_anchor_texts anchor_texts in
  Links.total analysis = length anchor_texts
  /\ (Links.res_keyword_rich analysis + Links.res_branded analysis
      + Links.res_generic analysis + Links.res_empty analysis
      = Links.total analysis)%nat
  /\ (Links.unique analysis <= Links.total analysis)%nat
  /\ match Links.keyword_rich_ratio analysis with
     | Some ratio => (0 <= ratio <= 1)%Q /\ anchor_texts <> []
     | None => anchor_texts = []
     end.
Proof.
  cbv zeta. destruct anchor_texts as [|anchor anchors]; [by repeat split|].
  unfold Links._analyze_anchor_texts. cbn [truthy_list negb].
  cbn [Links.total Links.unique Links.res_keyword_rich Links.res_branded
       Links.res_generic Links.res_empty Links.keyword_rich_ratio].
  set (texts := anchor :: anchors).
  pose proof (loop_sum texts
    {| Links.keyword_rich := 0; Links.branded := 0; Links.generic := 0;
       Links.empty := 0; Links.anchor_counter := [] |}) as Hsum.
  cbn [Links.keyword_rich Links.branded Links.generic Links.empty Nat.add] in Hsum.
  set (c := fold_left Links.step texts _) in *. clearbody c.
  split; [done|]. split; [exact Hsum|]. split; [apply size_list_to_set_le|].
  split; [|done]. subst texts. cbn [length] in *.
  apply count_ratio_range; lia.
Qed.

(** X29. The top anchors are at most 20, each normalised text (lower case,
    trimmed) once, in descending order of count; the count of a text is
    the number of anchors that normalise to it, which is at least one. *)
Theorem top_anchors_are_exact (anchor_texts : list string) :
  let top := Links.top_anchors (Links._analyze_anchor_texts anchor_texts) in
  (length top <= 20)%nat
  /\ NoDup (map fst top)
  /\ StronglySorted (fun a b => (snd b <= snd a)%nat) top
  /\ (forall text n, (text, n) ∈ top ->
        n = AnchorRules.count (String.eqb text)
              (map AnchorRules.normal anchor_texts)
        /\ (1 <= n)%nat).
Proof.
  cbv zeta. destruct anchor_texts as [|anchor anchors].
  { cbn. split; [lia|]. split; [constructor|]. split; [constructor|].
    intros text n ?%elem_of_nil. done. }
  unfold Links._analyze_anchor_texts. cbn [truthy_list negb Links.top_anchors].
  set (texts := anchor :: anchors).
  destruct (anchor_counter_fold texts
    {| Links.keyword_rich := 0; Links.branded := 0; Links.generic := 0;
       Links.empty := 0; Links.anchor_counter := [] |}) as [Hnd Hlookup];
    [constructor|].
  cbn [Links.anchor_counter PyDict.lookup dict_get] in Hlookup.
  set (counter := Links.anchor_counter (fold_left Links.step texts _)) in *.
  clearbody counter. unfold Links.most_common.
  split; [rewrite length_take; lia|]. split.
  { rewrite map_take. eapply sublist_NoDup; [|apply sublist_take].
    assert (map fst (py_sorted Nat.ltb snd true counter) ≡ₚ map fst counter) as ->
      by apply (fmap_Permutation fst), py_sorted_perm.
    exact Hnd. }
  split.
  { apply StronglySorted_take, py_sorted_sorted; unfold goes_before.
    - intros a b c. lia.
    - intros y x H. apply Nat.ltb_lt in H. lia.
    - intros y x H. apply Nat.ltb_ge in H. lia. }
  intros text n Hin. apply (subseteq_take 20), elem_of_py_sorted in Hin.
  apply (dict_elem_lookup _ _ _ Hnd) in Hin. rewrite Hlookup in Hin.
  destruct (AnchorRules.count _ _) as [|m]; [done|].
  injection Hin as <-. split; lia.
Qed.


(** ** The link depths *)
Section LinkDepthsFacts.
Import LinkDepths.
Variable set_iter : set_order.
Variable link_graph : gmap string (gset string).
Variable all_urls : gset string.
Variable start_url : string.
Hypothesis set_iter_lists : lists_members set_iter.

Lemma search_inv_init :
  search_inv link_graph all_urls start_url 0
    [(start_url, 0%nat)] {[start_url]} [(start_url, 0%nat)].
Proof.
  assert (forall url d, PyDict.lookup [(start_url, 0%nat)] url = Some d ->
                        url = start_url /\ d = 0%nat) as Hone.
  { intros url d. cbn. destruct (String.eqb_spec url start_url); [|done].
    by intros [= <-]. }
  split.
  - apply NoDup_singleton.
  - intros url. rewrite elem_of_singleton. cbn.
    destruct (String.eqb_spec url start_url); split; try done.
    all: try (by intros _; eexists); try (by intros [? [=]]).
  - cbn. by rewrite String.eqb_refl.
  - intros url d [-> ->]%Hone. constructor.
  - intros url d [= -> ->]%list_elem_of_singleton. cbn. by rewrite String.eqb_refl.
  - exists [(start_url, 0%nat)], []. repeat split; by repeat constructor.
  - intros url d [_ ->]%Hone. lia.
  - intros url d [-> ->]%Hone. left. by apply list_elem_of_singleton.
Qed.

(** The head of the queue sets the level. *)
Lemma search_inv_head level D V url d rest :
  search_inv link_graph all_urls start_url level D V ((url, d) :: rest) ->
  exists level',
    d = level'
    /\ search_inv link_graph all_urls start_url level' D V ((url, d) :: rest).
Proof.
  intros [Hnd Hv Hs Hsound Hq (A & B & HQ & HA & HB) Hbound Hclosed].
  destruct A as [|x A].
  - cbn in HQ. subst B. exists (S level). split.
    + apply Forall_cons in HB as [Hd _]. exact Hd.
    + split; try done.
      * exists ((url, d) :: rest), []. rewrite app_nil_r.
        split; [done|]. split; [exact HB|constructor].
      * intros u k Hk. specialize (Hbound u k Hk). lia.
  - injection HQ as <- ->. exists level. split.
    + apply Forall_cons in HA as [Hd _]. exact Hd.
    + split; try done. by exists ((url, d) :: A), B.
Qed.

(** Reading one link of the page [url] at the head of the queue. *)
Lemma visit_inv level url urls (s : State) linked_url :
  link_graph !! url = Some urls -> linked_url ∈ urls ->
  search_inv link_graph all_urls start_url level (depths s) (visited s)
    ((url, level) :: queue s) ->
  let s' := visit all_urls level s linked_url in
  search_inv link_graph all_urls start_url level (depths s') (visited s')
    ((url, level) :: queue s')
  /\ visited s ⊆ visited s'
  /\ (linked_url ∈ all_urls -> linked_url ∈ visited s')
  /\ (length (queue s') + size (all_urls ∖ visited s')
      = length (queue s) + size (all_urls ∖ visited s))%nat.
Proof.
  intros Hurls Hlinked Hinv. cbv zeta. unfold visit.
  destruct (decide (linked_url ∈ visited s)) as [Hin|Hnew].
  { rewrite (bool_decide_eq_true_2 _ Hin). cbn [negb andb].
    split; [exact Hinv|]. split; [done|]. split; done. }
  rewrite (bool_decide_eq_false_2 _ Hnew). cbn [negb andb].
  destruct (decide (linked_url ∈ all_urls)) as [Hcrawled|Hout].
  2: { rewrite (bool_decide_eq_false_2 _ Hout).
       split; [exact Hinv|]. split; [done|]. split; done. }
  rewrite (bool_decide_eq_true_2 _ Hcrawled). cbn [depths queue visited].
  destruct Hinv as [Hnd Hv Hs Hsound Hq (A & B & HQ & HA & HB) Hbound Hclosed].
  assert (forall u, u ∈ visited s -> u <> linked_url) as Hother
    by (intros u ? ->; done).
  assert (forall u k, PyDict.lookup (depths s) u = Some k ->
            PyDict.lookup (PyDict.set (depths s) linked_url (level + 1)%nat) u
            = Some k) as Hkeep.
  { intros u k Hk. rewrite dict_lookup_set.
    destruct (String.eqb_spec u linked_url) as [->|]; [|done].
    exfalso. apply Hnew, Hv. by eexists. }
  assert (clicks link_graph all_urls start_url level url) as Hurl.
  { apply Hsound, Hq. by left. }
  split; [split|].
  - by apply dict_set_NoDup.
  - intros u. rewrite elem_of_union, elem_of_singleton, dict_lookup_set, Hv.
    destruct (String.eqb_spec u linked_url) as [->|Hne].
    + split; [by eexists|by right].
    + split; [by intros [?|?]|by left].
  - apply Hkeep, Hs.
  - intros u k. rewrite dict_lookup_set.
    destruct (String.eqb_spec u linked_url) as [->|Hne]; [|apply Hsound].
    intros [= <-]. rewrite Nat.add_1_r. by econstructor.
  - intros u k. rewrite app_comm_cons, elem_of_app, list_elem_of_singleton.
    intros [Hin|[= -> ->]].
    + apply Hkeep, Hq, Hin.
    + rewrite dict_lookup_set. by rewrite String.eqb_refl.
  - exists A, (B ++ [(linked_url, (level + 1)%nat)])%list. split; [|split; [done|]].
    + by rewrite app_comm_cons, HQ, app_assoc.
    + apply Forall_app. split; [done|]. repeat constructor. cbn. lia.
  - intros u k. rewrite dict_lookup_set.
    destruct (String.eqb_spec u linked_url) as [->|Hne]; [|apply Hbound].
    intros [= <-]. lia.
  - intros u k. rewrite dict_lookup_set, app_comm_cons.
    destruct (String.eqb_spec u linked_url) as [->|Hne].
    + intros [= <-]. left. apply elem_of_app. right. by apply list_elem_of_singleton.
    + intros Hk. destruct (Hclosed u k Hk) as [Hin|Hc].
      * left. apply elem_of_app. by left.
      * right. intros urls' v H1 H2 H3.
        destruct (Hc urls' v H1 H2 H3) as (d' & Hd' & Hle).
        exists d'. split; [by apply Hkeep|done].
  - split; [set_solver|]. split; [set_solver|].
    rewrite length_app. cbn [length].
    assert (all_urls ∖ visited s
            = {[linked_url]} ∪ all_urls ∖ (visited s ∪ {[linked_url]})) as ->.
    { apply set_eq. intros u. rewrite elem_of_union, !elem_of_difference,
        elem_of_union, elem_of_singleton.
      destruct (decide (u = linked_url)) as [->|]; naive_solver. }
    rewrite (size_union (C:=gset string) {[linked_url]}
               (all_urls ∖ (visited s ∪ {[linked_url]}))) by set_solver.
    rewrite size_singleton. lia.
Qed.

(** Reading all the links of the page at the head of the queue. *)
Lemma fold_visit_inv level url urls (l : list string) (s : State) :
  link_graph !! url = Some urls -> (forall v, v ∈ l -> v ∈ urls) ->
  search_inv link_graph all_urls start_url level (depths s) (visited s)
    ((url, level) :: queue s) ->
  let s' := fold_left (visit all_urls level) l s in
  search_inv link_graph all_urls start_url level (depths s') (visited s')
    ((url, level) :: queue s')
  /\ visited s ⊆ visited s'
  /\ (forall v, v ∈ l -> v ∈ all_urls -> v ∈ visited s')
  /\ (length (queue s') + size (all_urls ∖ visited s')
      = length (queue s) + size (all_urls ∖ visited s))%nat.
Proof.
  intros Hurls. revert s. induction l as [|v l IH]; intros s Hl Hinv; cbv zeta.
  - cbn [fold_left]. split; [exact Hinv|]. split; [done|]. split; [|done].
    by intros v ?%elem_of_nil.
  - cbn [fold_left].
    destruct (visit_inv level url urls s v Hurls (Hl v ltac:(by left)) Hinv)
      as (Hinv1 & Hsub1 & Hin1 & Hsize1).
    destruct (IH (visit all_urls level s v)
                (fun w Hw => Hl w ltac:(by right)) Hinv1)
      as (Hinv2 & Hsub2 & Hin2 & Hsize2).
    split; [exact Hinv2|]. split; [set_solver|]. split; [|lia].
    intros w [->|Hw]%elem_of_cons Hcrawled.
    + apply Hsub2, Hin1, Hcrawled.
    + by apply Hin2.
Qed.

(** Once its links are read the page leaves the queue. *)
Lemma search_inv_pop level D V url Q :
  search_inv link_graph all_urls start_url level D V ((url, level) :: Q) ->
  (forall urls v,
     link_graph !! url = Some urls -> v ∈ urls -> v ∈ all_urls -> v ∈ V) ->
  search_inv link_graph all_urls start_url level D V Q.
Proof.
  intros [Hnd Hv Hs Hsound Hq (A & B & HQ & HA & HB) Hbound Hclosed] Hlinks.
  split; try done.
  - intros u k Hin. apply Hq. by right.
  - destruct A as [|x A].
    + cbn in HQ. subst B. apply Forall_cons in HB as [Hd _]. cbn in Hd. lia.
    + injection HQ as Hx HQ'. apply Forall_cons in HA as [_ HA]. by exists A, B.
  - intros u k Hk. destruct (Hclosed u k Hk) as [[[= -> ->]|Hin]%elem_of_cons|Hc].
    + right. intros urls v H1 H2 H3.
      destruct (proj1 (Hv v) (Hlinks urls v H1 H2 H3)) as [d' Hd'].
      exists d'. split; [done|]. by apply Hbound in Hd'.
    + by left.
    + by right.
Qed.

(** With fuel for every page that can still enter the queue, the search
    ends, with an empty queue. *)
Lemma while_queue_inv (fuel : nat) (s : State) level :
  search_inv link_graph all_urls start_url level (depths s) (visited s) (queue s) ->
  (length (queue s) + size (all_urls ∖ visited s) <= fuel)%nat ->
  exists s' level',
    while_queue fuel set_iter link_graph all_urls s = Some s'
    /\ search_inv link_graph all_urls start_url level' (depths s') (visited s') [].
Proof.
  revert s level. induction fuel as [|fuel IH]; intros s level Hinv Hfuel.
  - destruct s as [D Q V]. cbn in *. destruct Q as [|x Q]; [|cbn in Hfuel; lia].
    by exists {| depths := D; queue := []; visited := V |}, level.
  - destruct s as [D Q V]. cbn [depths queue visited] in *.
    destruct Q as [|[url d] Q].
    { by exists {| depths := D; queue := []; visited := V |}, level. }
    cbn [while_queue queue depths visited].
    destruct (search_inv_head _ _ _ _ _ _ Hinv) as (level' & -> & Hinv').
    set (s0 := {| depths := D; queue := Q; visited := V |}).
    assert (forall urls, link_graph !! url = Some urls ->
              linked set_iter link_graph url ≡ₚ elements urls) as Hlinked.
    { intros urls Hurls. unfold linked. rewrite Hurls. apply set_iter_lists. }
    destruct (link_graph !! url) as [urls|] eqn:Hurls.
    + destruct (fold_visit_inv level' url urls (linked set_iter link_graph url) s0
                  Hurls) as (Hinv1 & _ & Hin1 & Hsize1).
      { intros v. rewrite (Hlinked urls eq_refl). apply elem_of_elements. }
      { exact Hinv'. }
      apply (IH _ level').
      * apply (search_inv_pop _ _ _ url); [exact Hinv1|].
        intros urls' v Hu Hv Hcrawled. rewrite Hurls in Hu. injection Hu as <-.
        apply Hin1; [|done].
        rewrite (Hlinked urls eq_refl). by apply elem_of_elements.
      * rewrite Hsize1. subst s0. cbn [queue visited]. cbn [length] in Hfuel. lia.
    + assert (linked set_iter link_graph url = []) as ->
        by (unfold linked; by rewrite Hurls).
      cbn [fold_left]. apply (IH _ level').
      * apply (search_inv_pop _ _ _ url); [exact Hinv'|].
        intros urls' v Hu. by rewrite Hurls in Hu.
      * subst s0. cbn [queue visited]. cbn [length] in Hfuel. lia.
Qed.

(** X30. With fuel for one round per crawled page and one more, the
    search for link depths ends.  It gives the start page depth 0 and
    every other page the fewest clicks that lead to it from the start
    page over links of the graph to crawled pages; a page no such clicks
    reach gets no depth. *)
Theorem link_depths_are_fewest_clicks (fuel : nat) :
  (size all_urls < fuel)%nat ->
  exists D,
    _calculate_link_depths fuel set_iter start_url link_graph all_urls = Some D
    /\ NoDup (PyDict.keys D)
    /\ PyDict.lookup D start_url = Some 0%nat
    /\ (forall url d,
          PyDict.lookup D url = Some d ->
          clicks link_graph all_urls start_url d url
          /\ forall n, clicks link_graph all_urls start_url n url -> (d <= n)%nat)
    /\ (forall url n,
          clicks link_graph all_urls start_url n url ->
          is_Some (PyDict.lookup D url)).
Proof.
  intros Hfuel. unfold _calculate_link_depths.
  destruct (while_queue_inv fuel
              {| depths := [(start_url, 0%nat)]; queue := [(start_url, 0%nat)];
                 visited := {[start_url]} |} 0 search_inv_init)
    as (s' & level & -> & [Hnd Hv Hs Hsound Hq _ Hbound Hclosed]).
  { cbn [queue visited length].
    pose proof (subseteq_size (all_urls ∖ {[start_url]}) all_urls
                  ltac:(set_solver)). lia. }
  exists (depths s'). cbn [fmap option_fmap option_map].
  assert (forall n url, clicks link_graph all_urls start_url n url ->
            exists d, PyDict.lookup (depths s') url = Some d /\ (d <= n)%nat)
    as Hfewest.
  { intros n url Hclicks. induction Hclicks as [|n url urls v _ IH Hurls Hin Hcrawled].
    - exists 0%nat. by split.
    - destruct IH as (d & Hd & Hle).
      destruct (Hclosed url d Hd) as [?%elem_of_nil|Hc]; [done|].
      destruct (Hc urls v Hurls Hin Hcrawled) as (d' & Hd' & Hle').
      exists d'. split; [done|lia]. }
  split; [done|]. split; [exact Hnd|]. split; [exact Hs|]. split.
  - intros url d Hd. split; [by apply Hsound|].
    intros n Hn. destruct (Hfewest n url Hn) as (d' & Hd' & Hle). congruence.
  - intros url n Hn. destruct (Hfewest n url Hn) as (d' & Hd' & _). by eexists.
Qed.
End LinkDepthsFacts.

Lemma link_depths_are_fewest_clicks_witness :
  let link_graph : gmap string (gset string) :=
    {[ "/" := {[ "/a" ]}; "/a" := {[ "/"; "/b" ]} ]} in
  let all_urls : gset string := {[ "/"; "/a"; "/b" ]} in
  lists_members elements
  /\ (size all_urls < 4)%nat
  /\ exists D,
       LinkDepths._calculate_link_depths 4 elements "/" link_graph all_urls = Some D
       /\ PyDict.lookup D "/" = Some 0%nat.
Proof.
  cbv zeta.
  assert (size ({[ "/"; "/a"; "/b" ]} : gset string) < 4)%nat as Hfuel
    by (vm_compute; lia).
  split; [exact elements_lists_members|]. split; [exact Hfuel|].
  destruct (link_depths_are_fewest_clicks elements
              {[ "/" := {[ "/a" ]}; "/a" := {[ "/"; "/b" ]} ]}
              {[ "/"; "/a"; "/b" ]} "/" elements_lists_members 4 Hfuel)
    as (D & HD & _ & Hstart & _).
  exists D. by split.
Defined.
